(** * cnc-vlo: OAI-PMH endpoint of the Czech National Corpus

    A shallow embedding of the request handler ([oaipmh]), of the
    repository access layer ([cncdb]) and of the metadata conversion hook
    ([cnchook]), followed by the properties checked against them.

    Conventions of the embedding:
    - Go strings are [string] (bytes); all separators used by the code
      are ASCII literals.
    - A Go pair [(value, error)] is a [result]; an error is its message.
    - [url.Values] is a finite map from keys to value lists.
    - Functions of packages outside the repository ([time.Parse],
      [language.Parse], [url.JoinPath], the order of a [range] over a
      map) are fields of the class [GoLibs]; every general statement
      holds for all of their behaviours. *)

From Stdlib Require Import ZArith Ascii String List Bool Lia.
From stdpp Require Import base option list gmap strings pretty.

Local Open Scope string_scope.
Local Open Scope list_scope.
Local Open Scope Z_scope.

(** ** Results of fallible calls *)

Inductive result (A : Type) : Type :=
| Ok (a : A)
| Err (msg : string).
Arguments Ok {A} a.
Arguments Err {A} msg.

Definition is_ok {A} (r : result A) : bool :=
  match r with Ok _ => true | Err _ => false end.

(** ** Package [strings] of the Go standard library *)

Module strings.

Fixpoint HasPrefix (s p : string) {struct p} : bool :=
  match p, s with
  | EmptyString, _ => true
  | String c p', String d s' => if Ascii.eqb c d then HasPrefix s' p' else false
  | String _ _, EmptyString => false
  end.

Fixpoint Contains (s sub : string) : bool :=
  HasPrefix s sub ||
  match s with
  | EmptyString => false
  | String _ s' => Contains s' sub
  end.

(** One left-to-right pass: [skip] counts the bytes of a separator
    occurrence still to be dropped, [acc] is the component being
    collected. *)
Fixpoint split_go (sep s acc : string) (skip : nat) : list string :=
  match s with
  | EmptyString => [acc]
  | String c s' =>
      match skip with
      | S k => split_go sep s' acc k
      | O =>
          if HasPrefix s sep
          then acc :: split_go sep s' EmptyString (Nat.pred (String.length sep))
          else split_go sep s' (acc +:+ String c EmptyString) O
      end
  end.

Fixpoint explode (s : string) : list string :=
  match s with
  | EmptyString => []
  | String c s' => String c EmptyString :: explode s'
  end.

(** [strings.Split]: all components of [s] between the non-overlapping
    occurrences of [sep]; an empty [sep] explodes [s]. *)
Definition Split (s sep : string) : list string :=
  match sep with
  | EmptyString => explode s
  | String _ _ => split_go sep s EmptyString O
  end.

Fixpoint replace_go (old new s : string) (skip : nat) : string :=
  match s with
  | EmptyString => EmptyString
  | String c s' =>
      match skip with
      | S k => replace_go old new s' k
      | O =>
          if HasPrefix s old
          then new +:+ replace_go old new s' (Nat.pred (String.length old))
          else String c (replace_go old new s' O)
      end
  end.

(** [strings.ReplaceAll] for a non-empty [old] (the only use in the
    repository). *)
Definition ReplaceAll (s old new : string) : string :=
  replace_go old new s O.

Fixpoint in_cutset (c : ascii) (cutset : string) : bool :=
  match cutset with
  | EmptyString => false
  | String d r => Ascii.eqb c d || in_cutset c r
  end.

Fixpoint TrimLeft (s cutset : string) : string :=
  match s with
  | EmptyString => EmptyString
  | String c s' => if in_cutset c cutset then TrimLeft s' cutset else s
  end.

Fixpoint TrimRight (s cutset : string) : string :=
  match s with
  | EmptyString => EmptyString
  | String c s' =>
      match TrimRight s' cutset with
      | EmptyString => if in_cutset c cutset then EmptyString else String c EmptyString
      | r => String c r
      end
  end.

Definition Trim (s cutset : string) : string :=
  TrimRight (TrimLeft s cutset) cutset.

Fixpoint Join (l : list string) (sep : string) : string :=
  match l with
  | [] => EmptyString
  | [x] => x
  | x :: r => x +:+ sep +:+ Join r sep
  end.

End strings.

(** Control bytes that the sources write as escapes. *)
Definition LF : string := String (ascii_of_nat 10) EmptyString.
Definition CR : string := String (ascii_of_nat 13) EmptyString.
Definition CRLF : string := CR +:+ LF.

(** ** Packages outside the repository *)

(** A [time.Time] is its instant, in nanoseconds since the Unix epoch;
    [In(time.UTC)] keeps the instant, so it is the identity here. *)
Definition Time : Type := Z.

Module time.
Inductive Layout := RFC3339 | DateOnly.
Definition Second : Z := 1000000000.
Definition Hour : Z := 3600 * Second.
Definition Add (t : Time) (d : Z) : Time := t + d.
Definition In_UTC (t : Time) : Time := t.
(** The zero [Time], January 1 of year 1, 00:00 UTC. *)
Definition Zero : Time := -62135596800 * Second.
End time.

Module http.
Definition StatusOK : Z := 200.
Definition StatusBadRequest : Z := 400.
Definition StatusNotFound : Z := 404.
Definition StatusInternalServerError : Z := 500.
Definition StatusNotImplemented : Z := 501.
End http.

(** What the code calls in [time], [net/url], [golang.org/x/text] and the
    MySQL server, and the order in which the runtime enumerates the keys
    of a map in a [range] loop (any order of the keys). *)
Class GoLibs := {
  Tag : Type;
  language_Parse : string -> result Tag;
  Tag_Base : Tag -> string;
  display_Name : Tag -> string;
  time_Parse : time.Layout -> string -> result Time;
  time_Format : time.Layout -> Time -> string;
  url_JoinPath : string -> string -> result string;
  range_keys : gmap string (list string) -> list string;
  range_keys_perm : forall m, range_keys m ≡ₚ elements (dom m);
  sql_id_eq : Z -> string -> bool;
}.

(** [fmt.Sprint] of an [int]. *)
Definition Sprint_int (n : Z) : string := pretty n.

(** ** Package [database/sql]: nullable columns *)

Module sql.
Record NullString := { String_ : string; Valid : bool }.
Record NullInt64 := { Int64 : Z; Int64Valid : bool }.
Definition null : NullString := {| String_ := ""; Valid := false |}.
Definition text (s : string) : NullString := {| String_ := s; Valid := true |}.
End sql.

(** ** Package [oaipmh/formats]: element arrays and Dublin Core *)

Module formats.

Record MultilangElement := { Lang : string; Value : string }.
Record TypedElement := { TType : string; TValue : string }.

Definition MultilangArray : Type := list MultilangElement.

(** Modelled from the spec: the file declaring [MultilangArray] and its
    [Add] is not among the sources. The specification has a Dublin Core
    document made of repeatable, optionally language-tagged elements;
    [Add] appends one such element, as [DataArray.Add] of [formats/dc.go]
    does for the same array under its earlier name. *)
Definition Add (d : MultilangArray) (value lang : string) : MultilangArray :=
  d ++ [{| Lang := lang; Value := value |}].

Definition DublinCoreMetadataPrefix : string := "oai_dc".
Definition CMDIMetadataPrefix : string := "cmdi".

Record DublinCore := {
  XMLNSOAIDC : string;
  XMLNSDC : string;
  XMLNSXSI : string;
  XSISchemaLocation : string;
  Title : MultilangArray;
  Creator : MultilangArray;
  Subject : MultilangArray;
  Description : MultilangArray;
  Publisher : MultilangArray;
  Contributor : MultilangArray;
  Date : MultilangArray;
  Type_ : MultilangArray;
  Format : MultilangArray;
  Identifier : MultilangArray;
  Source : MultilangArray;
  Language : MultilangArray;
  Relation : MultilangArray;
  Coverage : MultilangArray;
  Rights : MultilangArray;
}.

Definition NewDublinCore : DublinCore := {|
  XMLNSOAIDC := "http://www.openarchives.org/OAI/2.0/oai_dc/";
  XMLNSDC := "http://purl.org/dc/elements/1.1/";
  XMLNSXSI := "http://www.w3.org/2001/XMLSchema-instance";
  XSISchemaLocation :=
    strings.Join ["http://www.openarchives.org/OAI/2.0/oai_dc/";
                  "http://www.openarchives.org/OAI/2.0/oai_dc.xsd"] " ";
  Title := []; Creator := []; Subject := []; Description := [];
  Publisher := []; Contributor := []; Date := []; Type_ := [];
  Format := []; Identifier := []; Source := []; Language := [];
  Relation := []; Coverage := []; Rights := [];
|}.

Definition RTSearchPage : string := "SearchPage".
Definition RTResource : string := "Resource".

Record CMDIResourceType := { MimeType : string; RTValue : string }.
Record CMDIResourceProxy := {
  ID : string;
  ResourceType : CMDIResourceType;
  ResourceRef : string;
}.

End formats.

(** ** Package [cnchook/profiles/components] *)

Module components.

Record AuthorComponent := { LastName : string; FirstName : string }.
Record DatesComponent := { DateIssued : string }.
Record ContactPersonComponent := {
  CLastName : string;
  CFirstName : string;
  Email : string;
  Affiliation : string;
}.
Record LanguageComponent := { Name : string; Code : string }.
Record SizeComponent := { Size : string; Unit : string }.

(** Fields that the repository never assigns keep Go's zero value and
    are left out of the two components. *)
Record BibliographicInfoComponent := {
  Titles : formats.MultilangArray;
  Authors : list AuthorComponent;
  Dates : option DatesComponent;
  Identifiers : list formats.TypedElement;
  ContactPerson : ContactPersonComponent;
  Publishers : list string;
}.

Record DataInfoComponent := {
  Type_ : string;
  Description : formats.MultilangArray;
  Languages : option (list LanguageComponent);
  Keywords : option (list string);
  SizeInfo : option (list SizeComponent);
}.

End components.

(** ** Package [cnchook/profiles] and the CMDI envelope *)

Module profiles.

Record LicenseElement := { LName : string; URI : string }.

Record CNCResourceProfile := {
  BibliographicInfo : components.BibliographicInfoComponent;
  DataInfo : components.DataInfoComponent;
  LicenseInfo : list LicenseElement;
}.

Definition CNCResourceProfileID : string := "clarin.eu:cr1:p_1712653174418".

Definition GetSchemaURL : string :=
  "http://www.clarin.eu/cmd/1/profiles/" +:+ CNCResourceProfileID.

End profiles.

Module cmdi.

Record CMDIHeader := { MdSelfLink : string; MdProfile : string }.

Record CMDIFormat := {
  XMLNSXSI : string;
  XMLNSCMD : string;
  XMLNSCMDP : string;
  XSISchemaLocation : string;
  Version : string;
  Header : CMDIHeader;
  ResourceProxyList : list formats.CMDIResourceProxy;
  Components : profiles.CNCResourceProfile;
}.

(** [formats.NewCMDI]; [Components] holds the profile by reference, so
    the caller passes the profile as it stands when the record is
    serialised. *)
Definition NewCMDI (profile : profiles.CNCResourceProfile) : CMDIFormat := {|
  XMLNSXSI := "http://www.w3.org/2001/XMLSchema-instance";
  XMLNSCMD := "http://www.clarin.eu/cmd/1";
  XMLNSCMDP := profiles.GetSchemaURL;
  XSISchemaLocation :=
    strings.Join ["http://www.clarin.eu/cmd/1";
                  "http://www.clarin.eu/cmd/1/xsd/cmd-envelop.xsd";
                  profiles.GetSchemaURL] " ";
  Version := "1.2";
  Header := {| MdSelfLink := ""; MdProfile := profiles.GetSchemaURL |};
  ResourceProxyList := [];
  Components := profile;
|}.

End cmdi.

(** ** Effects: what a handler touches

    A computation carries the list of the events it caused, in order:
    entering the dispatcher, calling a method of the hook, querying the
    repository. *)

Inductive RepoQuery :=
| QGetFirstDate
| QIdentifierExists (identifier : string)
| QGetRecordInfo (identifier : string)
| QListRecordInfo (from until : option Time).

Inductive HookMethod :=
| MIdentify | MGetRecord | MListIdentifiers
| MListMetadataFormats | MListRecords | MListSets.

Inductive Event :=
| EvDispatch
| EvHook (m : HookMethod)
| EvRepo (q : RepoQuery).

Definition M (A : Type) : Type := list Event * A.

Definition ret {A} (a : A) : M A := ([], a).
Definition bind {A B} (c : M A) (k : A -> M B) : M B :=
  let '(t1, a) := c in let '(t2, b) := k a in (t1 ++ t2, b).
Definition tell (e : Event) : M unit := ([e], tt).
Definition trace {A} (c : M A) : list Event := fst c.
Definition value {A} (c : M A) : A := snd c.

#[export] Instance M_ret : MRet M := @ret.
#[export] Instance M_bind : MBind M := fun A B k c => bind c k.

(** ** Package [net/url]: query and form values *)

Module url.
Abbreviation Values := (gmap string (list string)).

Definition Has (v : Values) (key : string) : bool :=
  match v !! key with Some _ => true | None => false end.

Definition Get (v : Values) (key : string) : string :=
  match v !! key with
  | Some (x :: _) => x
  | _ => ""
  end.
End url.

(** ** Package [oaipmh] *)

Module oaipmh.

Definition ErrorCodeBadArgument : string := "badArgument".
Definition ErrorCodeBadResumptionToken : string := "badResumptionToken".
Definition ErrorCodeBadVerb : string := "badVerb".
Definition ErrorCodeCannotDisseminateFormat : string := "cannotDisseminateFormat".
Definition ErrorCodeIDDoesNotExist : string := "idDoesNotExist".
Definition ErrorCodeNoRecordsMatch : string := "noRecordsMatch".
Definition ErrorCodeNoMetadataFormats : string := "noMetadataFormats".
Definition ErrorCodeNoSetHierarchy : string := "noSetHierarchy".

Record OAIPMHError := { Code : string; Message : string }.

Module OAIPMHErrors.
Definition t : Type := list OAIPMHError.
Definition Add (r : t) (code message : string) : t :=
  r ++ [{| Code := code; Message := message |}].
Definition HasErrors (r : t) : bool :=
  match r with [] => false | _ :: _ => true end.
End OAIPMHErrors.

Definition ArgVerb : string := "verb".
Definition ArgIdentifier : string := "identifier".
Definition ArgMetadataPrefix : string := "metadataPrefix".
Definition ArgFrom : string := "from".
Definition ArgUntil : string := "until".
Definition ArgSet : string := "set".
Definition ArgResumptionToken : string := "resumptionToken".

Definition VerbIdentify : string := "Identify".
Definition VerbGetRecord : string := "GetRecord".
Definition VerbListIdentifiers : string := "ListIdentifiers".
Definition VerbListMetadataFormats : string := "ListMetadataFormats".
Definition VerbListRecords : string := "ListRecords".
Definition VerbListSets : string := "ListSets".

Module Verb.

Definition Validate (v : string) : result unit :=
  if String.eqb v VerbGetRecord || String.eqb v VerbIdentify ||
     String.eqb v VerbListIdentifiers || String.eqb v VerbListMetadataFormats ||
     String.eqb v VerbListRecords || String.eqb v VerbListSets
  then Ok tt
  else Err ("unknown verb: " +:+ v).

Definition ValidateArg (v arg : string) : bool :=
  if String.eqb v VerbGetRecord then
    String.eqb arg ArgVerb || String.eqb arg ArgIdentifier ||
    String.eqb arg ArgMetadataPrefix
  else if String.eqb v VerbListIdentifiers then
    String.eqb arg ArgVerb || String.eqb arg ArgMetadataPrefix ||
    String.eqb arg ArgFrom || String.eqb arg ArgUntil ||
    String.eqb arg ArgSet || String.eqb arg ArgResumptionToken
  else if String.eqb v VerbListMetadataFormats then
    String.eqb arg ArgVerb || String.eqb arg ArgIdentifier
  else if String.eqb v VerbListRecords then
    String.eqb arg ArgVerb || String.eqb arg ArgMetadataPrefix ||
    String.eqb arg ArgFrom || String.eqb arg ArgUntil ||
    String.eqb arg ArgSet || String.eqb arg ArgResumptionToken
  else if String.eqb v VerbListSets then
    String.eqb arg ArgVerb || String.eqb arg ArgResumptionToken
  else
    String.eqb arg ArgVerb.

(** The arguments a verb requires, in the order the code tests them. *)
Definition reqArgs (v : string) : list string :=
  [ArgVerb] ++
  (if String.eqb v VerbGetRecord then [ArgIdentifier; ArgMetadataPrefix]
   else if String.eqb v VerbListIdentifiers then [ArgMetadataPrefix]
   else if String.eqb v VerbListRecords then [ArgMetadataPrefix]
   else []).

Definition ValidateRequiredArgs (v : string) (args : url.Values) : string :=
  match find (fun arg => negb (url.Has args arg)) (reqArgs v) with
  | Some arg => arg
  | None => ""
  end.

End Verb.

(** [ElementWrapper.Value] is an [any]; the repository stores one of
    its two metadata documents there. *)
Inductive any :=
| DublinCoreValue (d : formats.DublinCore)
| CMDIValue (c : cmdi.CMDIFormat).

Record ElementWrapper := { Value : any }.

Module OAIPMHRecordHeader.
Record t := {
  Status : string;
  Identifier : string;
  Datestamp : Time;
  SetSpec : list string;
}.
Definition zero : t :=
  {| Status := ""; Identifier := ""; Datestamp := time.Zero; SetSpec := [] |}.
End OAIPMHRecordHeader.

Module OAIPMHIdentify.
Record t := {
  RepositoryName : string;
  BaseURL : string;
  AdminEmail : list string;
  EarliestDatestamp : Time;
  DeletedRecord : string;
  Granularity : string;
  ProtocolVersion : string;
}.
End OAIPMHIdentify.

Module OAIPMHMetadataFormat.
Record t := {
  MetadataPrefix : string;
  Schema : string;
  MetadataNamespace : string;
}.
End OAIPMHMetadataFormat.

Module OAIPMHRecord.
Record t := {
  Header : option OAIPMHRecordHeader.t;
  Metadata : option ElementWrapper;
}.
Definition zero : t := {| Header := None; Metadata := None |}.
End OAIPMHRecord.

Definition NewOAIPMHRecord (metadata : any) : OAIPMHRecord.t :=
  {| OAIPMHRecord.Header := Some OAIPMHRecordHeader.zero;
     OAIPMHRecord.Metadata := Some {| Value := metadata |} |}.

Module OAIPMHSet.
Record t := {
  SetSpec : string;
  SetName : string;
  SetDescription : option ElementWrapper;
}.
End OAIPMHSet.

Module OAIPMHRequest.
Record t := {
  URL : string;
  Verb : string;
  Identifier : string;
  MetadataPrefix : string;
  From : option Time;
  Until : option Time;
  Set_ : string;
  ResumptionToken : string;
}.
End OAIPMHRequest.

Module OAIPMHResponse.
Record t := {
  XMLNS : string;
  XMLNSXSI : string;
  XSISchemaLocation : string;
  ResponseDate : Time;
  Request : OAIPMHRequest.t;
  Errors : OAIPMHErrors.t;
  Identify : option OAIPMHIdentify.t;
  GetRecord : option OAIPMHRecord.t;
  ListMetadataFormats : option (list OAIPMHMetadataFormat.t);
  ListIdentifiers : option (list OAIPMHRecordHeader.t);
  ListRecords : option (list OAIPMHRecord.t);
  ListSets : option (list OAIPMHSet.t);
  ProtocolVersion : string;
}.

Definition set_Request (r : t) (q : OAIPMHRequest.t) : t :=
  {| XMLNS := XMLNS r; XMLNSXSI := XMLNSXSI r;
     XSISchemaLocation := XSISchemaLocation r;
     ResponseDate := ResponseDate r; Request := q; Errors := Errors r;
     Identify := Identify r; GetRecord := GetRecord r;
     ListMetadataFormats := ListMetadataFormats r;
     ListIdentifiers := ListIdentifiers r; ListRecords := ListRecords r;
     ListSets := ListSets r; ProtocolVersion := ProtocolVersion r |}.

Definition set_Errors (r : t) (e : OAIPMHErrors.t) : t :=
  {| XMLNS := XMLNS r; XMLNSXSI := XMLNSXSI r;
     XSISchemaLocation := XSISchemaLocation r;
     ResponseDate := ResponseDate r; Request := Request r; Errors := e;
     Identify := Identify r; GetRecord := GetRecord r;
     ListMetadataFormats := ListMetadataFormats r;
     ListIdentifiers := ListIdentifiers r; ListRecords := ListRecords r;
     ListSets := ListSets r; ProtocolVersion := ProtocolVersion r |}.

Definition set_Identify (r : t) (x : option OAIPMHIdentify.t) : t :=
  {| XMLNS := XMLNS r; XMLNSXSI := XMLNSXSI r;
     XSISchemaLocation := XSISchemaLocation r;
     ResponseDate := ResponseDate r; Request := Request r; Errors := Errors r;
     Identify := x; GetRecord := GetRecord r;
     ListMetadataFormats := ListMetadataFormats r;
     ListIdentifiers := ListIdentifiers r; ListRecords := ListRecords r;
     ListSets := ListSets r; ProtocolVersion := ProtocolVersion r |}.

Definition set_GetRecord (r : t) (x : option OAIPMHRecord.t) : t :=
  {| XMLNS := XMLNS r; XMLNSXSI := XMLNSXSI r;
     XSISchemaLocation := XSISchemaLocation r;
     ResponseDate := ResponseDate r; Request := Request r; Errors := Errors r;
     Identify := Identify r; GetRecord := x;
     ListMetadataFormats := ListMetadataFormats r;
     ListIdentifiers := ListIdentifiers r; ListRecords := ListRecords r;
     ListSets := ListSets r; ProtocolVersion := ProtocolVersion r |}.

Definition set_ListMetadataFormats (r : t)
    (x : option (list OAIPMHMetadataFormat.t)) : t :=
  {| XMLNS := XMLNS r; XMLNSXSI := XMLNSXSI r;
     XSISchemaLocation := XSISchemaLocation r;
     ResponseDate := ResponseDate r; Request := Request r; Errors := Errors r;
     Identify := Identify r; GetRecord := GetRecord r;
     ListMetadataFormats := x;
     ListIdentifiers := ListIdentifiers r; ListRecords := ListRecords r;
     ListSets := ListSets r; ProtocolVersion := ProtocolVersion r |}.

Definition set_ListIdentifiers (r : t)
    (x : option (list OAIPMHRecordHeader.t)) : t :=
  {| XMLNS := XMLNS r; XMLNSXSI := XMLNSXSI r;
     XSISchemaLocation := XSISchemaLocation r;
     ResponseDate := ResponseDate r; Request := Request r; Errors := Errors r;
     Identify := Identify r; GetRecord := GetRecord r;
     ListMetadataFormats := ListMetadataFormats r;
     ListIdentifiers := x; ListRecords := ListRecords r;
     ListSets := ListSets r; ProtocolVersion := ProtocolVersion r |}.

Definition set_ListRecords (r : t) (x : option (list OAIPMHRecord.t)) : t :=
  {| XMLNS := XMLNS r; XMLNSXSI := XMLNSXSI r;
     XSISchemaLocation := XSISchemaLocation r;
     ResponseDate := ResponseDate r; Request := Request r; Errors := Errors r;
     Identify := Identify r; GetRecord := GetRecord r;
     ListMetadataFormats := ListMetadataFormats r;
     ListIdentifiers := ListIdentifiers r; ListRecords := x;
     ListSets := ListSets r; ProtocolVersion := ProtocolVersion r |}.

Definition set_ListSets (r : t) (x : option (list OAIPMHSet.t)) : t :=
  {| XMLNS := XMLNS r; XMLNSXSI := XMLNSXSI r;
     XSISchemaLocation := XSISchemaLocation r;
     ResponseDate := ResponseDate r; Request := Request r; Errors := Errors r;
     Identify := Identify r; GetRecord := GetRecord r;
     ListMetadataFormats := ListMetadataFormats r;
     ListIdentifiers := ListIdentifiers r; ListRecords := ListRecords r;
     ListSets := x; ProtocolVersion := ProtocolVersion r |}.

(** The number of result fields that are set. *)
Definition is_set {A} (o : option A) : nat :=
  match o with Some _ => 1%nat | None => 0%nat end.
Definition payloads (r : t) : nat :=
  (is_set (Identify r) + is_set (GetRecord r) +
   is_set (ListMetadataFormats r) + is_set (ListIdentifiers r) +
   is_set (ListRecords r) + is_set (ListSets r))%nat.
End OAIPMHResponse.

(** [NewOAIPMHResponse]; [now] is the reading of [time.Now()]. The
    response points to the request, which the caller goes on filling:
    the embedding stores the request again whenever it changes. *)
Definition NewOAIPMHResponse (now : Time) (request : OAIPMHRequest.t)
  : OAIPMHResponse.t :=
  {| OAIPMHResponse.XMLNS := "http://www.openarchives.org/OAI/2.0/";
     OAIPMHResponse.XMLNSXSI := "http://www.w3.org/2001/XMLSchema-instance";
     OAIPMHResponse.XSISchemaLocation :=
       "http://www.openarchives.org/OAI/2.0/ http://www.openarchives.org/OAI/2.0/OAI-PMH.xsd";
     OAIPMHResponse.ResponseDate := now;
     OAIPMHResponse.Request := request;
     OAIPMHResponse.Errors := [];
     OAIPMHResponse.Identify := None;
     OAIPMHResponse.GetRecord := None;
     OAIPMHResponse.ListMetadataFormats := None;
     OAIPMHResponse.ListIdentifiers := None;
     OAIPMHResponse.ListRecords := None;
     OAIPMHResponse.ListSets := None;
     OAIPMHResponse.ProtocolVersion := "2.0" |}.

Module ResultWrapper.
Record t (T : Type) := {
  Data : T;
  Errors : OAIPMHErrors.t;
  HTTPCode : Z;
}.
Arguments Data {T} _.
Arguments Errors {T} _.
Arguments HTTPCode {T} _.

Definition NoError {T} (w : t T) : bool :=
  negb (OAIPMHErrors.HasErrors (Errors w)) && (HTTPCode w <? 400).
End ResultWrapper.

Definition NewResultWrapper {T} (data : T) : ResultWrapper.t T :=
  {| ResultWrapper.Data := data;
     ResultWrapper.Errors := [];
     ResultWrapper.HTTPCode := http.StatusOK |}.

Module VLOHook.
Record t := {
  Identify : M (ResultWrapper.t OAIPMHIdentify.t);
  GetRecord : OAIPMHRequest.t -> M (ResultWrapper.t OAIPMHRecord.t);
  ListIdentifiers :
    OAIPMHRequest.t -> M (ResultWrapper.t (list OAIPMHRecordHeader.t));
  ListMetadataFormats :
    OAIPMHRequest.t -> M (ResultWrapper.t (list OAIPMHMetadataFormat.t));
  ListRecords : OAIPMHRequest.t -> M (ResultWrapper.t (list OAIPMHRecord.t));
  ListSets : OAIPMHRequest.t -> M (ResultWrapper.t (list OAIPMHSet.t));
  SupportsSets : bool;
  SupportedMetadataPrefixes : list string;
}.
End VLOHook.

(** What a handler leaves on the connection. *)
Inductive Body :=
| XMLEnvelope (resp : OAIPMHResponse.t)
| XMLMetadata (v : any).

Inductive Reply :=
| WriteXML (code : Z) (body : Body)
| AbortWithStatus (code : Z)
| NilDereference.

(** [xml.Marshal] does not fail on the values of this package, so what
    is written is the status and the document. *)
Definition writeXMLResponse (code : Z) (body : Body) : Reply :=
  WriteXML code body.

Definition getTypedArg (args : url.Values) (name : string) : string :=
  url.Get args name.

(** [collections.SliceContains] of cnc-gokit. *)
Definition SliceContains (l : list string) (x : string) : bool :=
  existsb (String.eqb x) l.

Module VLOHandler.
Record t := { basePath : string; hook : VLOHook.t }.

Section handler.
Context `{GoLibs}.
Variable a : t.

Definition mkRequest (URL Verb : string) : OAIPMHRequest.t :=
  {| OAIPMHRequest.URL := URL; OAIPMHRequest.Verb := Verb;
     OAIPMHRequest.Identifier := ""; OAIPMHRequest.MetadataPrefix := "";
     OAIPMHRequest.From := None; OAIPMHRequest.Until := None;
     OAIPMHRequest.Set_ := ""; OAIPMHRequest.ResumptionToken := "" |}.

(** An early return of [getReqResp]: the request as filled so far
    and the response with one error added. *)
Definition rejected (now : Time) (req : OAIPMHRequest.t)
    (code message : string) : result (OAIPMHRequest.t * OAIPMHResponse.t) :=
  let resp := NewOAIPMHResponse now req in
  Ok (req, OAIPMHResponse.set_Errors resp
             (OAIPMHErrors.Add (OAIPMHResponse.Errors resp) code message)).

(** The [from] argument: absent or empty leaves the bound unset. *)
Definition parseFrom (argSource : url.Values) : result (option Time) :=
  let from := getTypedArg argSource ArgFrom in
  if String.eqb from "" then Ok None
  else
    match (if strings.Contains from "T"
           then time_Parse time.RFC3339 from
           else time_Parse time.DateOnly from) with
    | Err e => Err ("failed to parse `from`: " +:+ e)
    | Ok parsed => Ok (Some (time.In_UTC parsed))
    end.

(** The [until] argument: a bare date is moved forward by 24 hours. *)
Definition parseUntil (argSource : url.Values) : result (option Time) :=
  let until := getTypedArg argSource ArgUntil in
  if String.eqb until "" then Ok None
  else
    match (if strings.Contains until "T"
           then time_Parse time.RFC3339 until
           else
             match time_Parse time.DateOnly until with
             | Ok parsed => Ok (time.Add parsed (24 * time.Hour))
             | Err e => Err e
             end) with
    | Err e => Err ("failed to until `from`: " +:+ e)
    | Ok parsed => Ok (Some (time.In_UTC parsed))
    end.

Definition getReqResp (now : Time) (argSource : url.Values)
  : result (OAIPMHRequest.t * OAIPMHResponse.t) :=
  match url_JoinPath (basePath a) "oai" with
  | Err e => Err ("failed to prepare OAIPMH request and response: " +:+ e)
  | Ok OAIURL =>
      if negb (url.Has argSource ArgVerb) then
        rejected now (mkRequest OAIURL "") ErrorCodeBadArgument
          ("Missing required argument `" +:+ ArgVerb +:+ "`")
      else
        let verb := getTypedArg argSource ArgVerb in
        let req := mkRequest OAIURL verb in
        match Verb.Validate verb with
        | Err _ =>
            rejected now req ErrorCodeBadVerb
              ("Invalid verb `" +:+ verb +:+ "`")
        | Ok _ =>
            let arg := Verb.ValidateRequiredArgs verb argSource in
            if negb (String.eqb arg "") then
              rejected now req ErrorCodeBadArgument
                ("Missing required argument `" +:+ arg +:+
                 "` for verb `" +:+ verb +:+ "`")
            else
              match find (fun k => negb (Verb.ValidateArg verb k))
                         (range_keys argSource) with
              | Some k =>
                  rejected now req ErrorCodeBadArgument
                    ("Invalid argument `" +:+ k +:+
                     "` for verb `" +:+ verb +:+ "`")
              | None =>
                  match parseFrom argSource with
                  | Err e => Err e
                  | Ok from =>
                      match parseUntil argSource with
                      | Err e => Err e
                      | Ok until =>
                          let req :=
                            {| OAIPMHRequest.URL := OAIURL;
                               OAIPMHRequest.Verb := verb;
                               OAIPMHRequest.Identifier :=
                                 getTypedArg argSource ArgIdentifier;
                               OAIPMHRequest.MetadataPrefix :=
                                 getTypedArg argSource ArgMetadataPrefix;
                               OAIPMHRequest.From := from;
                               OAIPMHRequest.Until := until;
                               OAIPMHRequest.Set_ :=
                                 getTypedArg argSource ArgSet;
                               OAIPMHRequest.ResumptionToken :=
                                 getTypedArg argSource ArgResumptionToken |}
                          in Ok (req, NewOAIPMHResponse now req)
                      end
                  end
              end
        end
  end.

(** The end of [handleRequest]: the errors of the operation join
    those of the response; a failure without protocol errors
    aborts with the bare status. *)
Definition finish (resp : OAIPMHResponse.t) (errors : OAIPMHErrors.t)
    (httpCode : Z) : Reply :=
  let resp := OAIPMHResponse.set_Errors resp
                (OAIPMHResponse.Errors resp ++ errors) in
  if (400 <=? httpCode) && negb (OAIPMHErrors.HasErrors (OAIPMHResponse.Errors resp))
  then AbortWithStatus httpCode
  else writeXMLResponse httpCode (XMLEnvelope resp).

(** A precondition of the dispatcher fails: one error, written at
    once with the given status. *)
Definition refuse (resp : OAIPMHResponse.t) (code message : string)
    (httpCode : Z) : Reply :=
  writeXMLResponse httpCode
    (XMLEnvelope (OAIPMHResponse.set_Errors resp
       (OAIPMHErrors.Add (OAIPMHResponse.Errors resp) code message))).

Definition fillIdentify (req : OAIPMHRequest.t) (resp : OAIPMHResponse.t)
    (d : OAIPMHIdentify.t) : OAIPMHIdentify.t :=
  {| OAIPMHIdentify.RepositoryName := OAIPMHIdentify.RepositoryName d;
     OAIPMHIdentify.BaseURL := OAIPMHRequest.URL req;
     OAIPMHIdentify.AdminEmail := OAIPMHIdentify.AdminEmail d;
     OAIPMHIdentify.EarliestDatestamp := OAIPMHIdentify.EarliestDatestamp d;
     OAIPMHIdentify.DeletedRecord := OAIPMHIdentify.DeletedRecord d;
     OAIPMHIdentify.Granularity := OAIPMHIdentify.Granularity d;
     OAIPMHIdentify.ProtocolVersion := OAIPMHResponse.ProtocolVersion resp |}.

Definition handleRequest (req : OAIPMHRequest.t) (resp : OAIPMHResponse.t)
  : M Reply :=
  let h := hook a in
  let verb := OAIPMHRequest.Verb req in
  let supported :=
    SliceContains (VLOHook.SupportedMetadataPrefixes h)
                  (OAIPMHRequest.MetadataPrefix req) in
  let setRefused :=
    negb (String.eqb (OAIPMHRequest.Set_ req) "") &&
    negb (VLOHook.SupportsSets h) in
  tell EvDispatch;;
  if String.eqb verb VerbIdentify then
    tell (EvHook MIdentify);;
    ans ← VLOHook.Identify h;
    let resp :=
      if ResultWrapper.NoError ans
      then OAIPMHResponse.set_Identify resp
             (Some (fillIdentify req resp (ResultWrapper.Data ans)))
      else resp in
    mret (finish resp (ResultWrapper.Errors ans) (ResultWrapper.HTTPCode ans))
  else if String.eqb verb VerbGetRecord then
    if negb supported then
      mret (refuse resp ErrorCodeCannotDisseminateFormat
              "Unknown metadata format" http.StatusBadRequest)
    else
      tell (EvHook MGetRecord);;
      ans ← VLOHook.GetRecord h req;
      let resp :=
        if ResultWrapper.NoError ans
        then OAIPMHResponse.set_GetRecord resp (Some (ResultWrapper.Data ans))
        else resp in
      mret (finish resp (ResultWrapper.Errors ans) (ResultWrapper.HTTPCode ans))
  else if String.eqb verb VerbListIdentifiers then
    if negb supported then
      mret (refuse resp ErrorCodeCannotDisseminateFormat
              "Unknown metadata format" http.StatusBadRequest)
    else if setRefused then
      mret (refuse resp ErrorCodeNoSetHierarchy
              "Sets functionality not implemented" http.StatusNotImplemented)
    else
      tell (EvHook MListIdentifiers);;
      ans ← VLOHook.ListIdentifiers h req;
      let resp :=
        if ResultWrapper.NoError ans
        then OAIPMHResponse.set_ListIdentifiers resp
               (Some (ResultWrapper.Data ans))
        else resp in
      mret (finish resp (ResultWrapper.Errors ans) (ResultWrapper.HTTPCode ans))
  else if String.eqb verb VerbListMetadataFormats then
    tell (EvHook MListMetadataFormats);;
    ans ← VLOHook.ListMetadataFormats h req;
    let resp :=
      if ResultWrapper.NoError ans
      then OAIPMHResponse.set_ListMetadataFormats resp
             (Some (ResultWrapper.Data ans))
      else resp in
    mret (finish resp (ResultWrapper.Errors ans) (ResultWrapper.HTTPCode ans))
  else if String.eqb verb VerbListRecords then
    if negb supported then
      mret (refuse resp ErrorCodeCannotDisseminateFormat
              "Unknown metadata format" http.StatusBadRequest)
    else if setRefused then
      mret (refuse resp ErrorCodeNoSetHierarchy
              "Sets functionality not implemented" http.StatusNotImplemented)
    else
      tell (EvHook MListRecords);;
      ans ← VLOHook.ListRecords h req;
      let resp :=
        if ResultWrapper.NoError ans
        then OAIPMHResponse.set_ListRecords resp (Some (ResultWrapper.Data ans))
        else resp in
      mret (finish resp (ResultWrapper.Errors ans) (ResultWrapper.HTTPCode ans))
  else if String.eqb verb VerbListSets then
    if negb (VLOHook.SupportsSets h) then
      mret (refuse resp ErrorCodeNoSetHierarchy
              "Sets functionality not implemented" http.StatusNotImplemented)
    else
      tell (EvHook MListSets);;
      ans ← VLOHook.ListSets h req;
      let resp :=
        if ResultWrapper.NoError ans
        then OAIPMHResponse.set_ListSets resp (Some (ResultWrapper.Data ans))
        else resp in
      mret (finish resp (ResultWrapper.Errors ans) (ResultWrapper.HTTPCode ans))
  else
    mret (finish
            (OAIPMHResponse.set_Errors resp
               (OAIPMHErrors.Add (OAIPMHResponse.Errors resp)
                  ErrorCodeBadArgument
                  ("Verb not implemented `" +:+ verb +:+ "`")))
            [] http.StatusNotImplemented).

Definition HandleOAIGet (now : Time) (query : url.Values) : M Reply :=
  match getReqResp now query with
  | Err _ => mret (AbortWithStatus http.StatusInternalServerError)
  | Ok (req, resp) =>
      if OAIPMHErrors.HasErrors (OAIPMHResponse.Errors resp)
      then mret (writeXMLResponse http.StatusBadRequest (XMLEnvelope resp))
      else handleRequest req resp
  end.

(** [postForm] is the outcome of [ctx.Request.ParseForm()]. *)
Definition HandleOAIPost (now : Time) (postForm : result url.Values)
  : M Reply :=
  match postForm with
  | Err _ => mret (AbortWithStatus http.StatusInternalServerError)
  | Ok form =>
      match getReqResp now form with
      | Err _ => mret (AbortWithStatus http.StatusInternalServerError)
      | Ok (req, resp) =>
          if OAIPMHErrors.HasErrors (OAIPMHResponse.Errors resp)
          then mret (writeXMLResponse http.StatusBadRequest (XMLEnvelope resp))
          else handleRequest req resp
      end
  end.

(** [format] is the query argument of that name, if given. *)
Definition HandleSelfLink (host path recordId : string)
    (format : option string) : M Reply :=
  let req :=
    {| OAIPMHRequest.URL := host +:+ path;
       OAIPMHRequest.Verb := "";
       OAIPMHRequest.Identifier := recordId;
       OAIPMHRequest.MetadataPrefix := default "oai_dc" format;
       OAIPMHRequest.From := None; OAIPMHRequest.Until := None;
       OAIPMHRequest.Set_ := ""; OAIPMHRequest.ResumptionToken := "" |} in
  tell (EvHook MGetRecord);;
  ans ← VLOHook.GetRecord (hook a) req;
  if 400 <=? ResultWrapper.HTTPCode ans
  then mret (AbortWithStatus (ResultWrapper.HTTPCode ans))
  else
    match OAIPMHRecord.Metadata (ResultWrapper.Data ans) with
    | Some w => mret (writeXMLResponse (ResultWrapper.HTTPCode ans)
                       (XMLMetadata (Value w)))
    | None => mret NilDereference
    end.

End handler.
End VLOHandler.

End oaipmh.

(** ** Package [cncdb]: the record repository *)

Module cncdb.
Section cncdb.
Context `{GoLibs}.

Record ContactPersonData := {
  Firstname : string;
  Lastname : string;
  Email : string;
  Affiliation : sql.NullString;
}.

Record CorpusData := {
  Size : sql.NullInt64;
  Locale : option Tag;
  Keywords : sql.NullString;
}.

Record DBData := {
  ID : Z;
  Date : Time;
  Hosted : bool;
  Type_ : string;
  Name : string;
  DescEN : sql.NullString;
  DescCS : sql.NullString;
  DateIssued : string;
  TitleEN : string;
  TitleCS : string;
  Link : sql.NullString;
  License : string;
  Authors : string;
  ContactPerson : ContactPersonData;
  Corpus : CorpusData;
}.

Definition set_Locale (d : DBData) (l : option Tag) : DBData :=
  {| ID := ID d; Date := Date d; Hosted := Hosted d; Type_ := Type_ d;
     Name := Name d; DescEN := DescEN d; DescCS := DescCS d;
     DateIssued := DateIssued d; TitleEN := TitleEN d; TitleCS := TitleCS d;
     Link := Link d; License := License d; Authors := Authors d;
     ContactPerson := ContactPerson d;
     Corpus := {| Size := Size (Corpus d); Locale := l;
                  Keywords := Keywords (Corpus d) |} |}.

Definition set_Keywords (d : DBData) (k : sql.NullString) : DBData :=
  {| ID := ID d; Date := Date d; Hosted := Hosted d; Type_ := Type_ d;
     Name := Name d; DescEN := DescEN d; DescCS := DescCS d;
     DateIssued := DateIssued d; TitleEN := TitleEN d; TitleCS := TitleCS d;
     Link := Link d; License := License d; Authors := Authors d;
     ContactPerson := ContactPerson d;
     Corpus := {| Size := Size (Corpus d); Locale := Locale (Corpus d);
                  Keywords := k |} |}.

(** One metadata record as the joins of the SELECT statements deliver
    it, before the WHERE clause and before the grouping: the columns the
    clause tests; [c.name], NULL when the record is joined with no
    corpus, which the listing groups by; the columns [Scan] reads apart
    from the aggregate ([Date] is [GREATEST(m.created, m.updated)]); the
    keyword rows joined with the record, each with its [display_order]
    and its [label_en]; and the raw [c.locale]. *)
Record SQLRow := {
  deleted : bool;
  in_public_corplist : bool;
  in_public_parallel : bool;
  created : Time;
  c_name : sql.NullString;
  scanned : DBData;
  keyword_rows : list (Z * string);
  locale : sql.NullString;
  scan_error : option string;
}.

(** [ORDER BY k.display_order] inside the aggregate. *)
Fixpoint insert_keyword (k : Z * string) (l : list (Z * string))
  : list (Z * string) :=
  match l with
  | [] => [k]
  | x :: l' => if fst k <? fst x then k :: l else x :: insert_keyword k l'
  end.

Definition order_by_display_order (l : list (Z * string)) : list (Z * string) :=
  fold_left (fun sorted k => insert_keyword k sorted) l [].

(** [GROUP_CONCAT(k.label_en ORDER BY k.display_order SEPARATOR ',')]
    over the keyword rows of a group: NULL without any label. *)
Definition GROUP_CONCAT (ks : list (Z * string)) : sql.NullString :=
  match ks with
  | [] => sql.null
  | _ :: _ => sql.text (strings.Join (map snd (order_by_display_order ks)) ",")
  end.

(** The columns that [Scan] reads from a row that the server delivers:
    those of the record and the aggregate over its keyword rows. *)
Definition columns (r : SQLRow) : DBData :=
  set_Keywords (scanned r) (GROUP_CONCAT (keyword_rows r)).

(** The database behind [conn]: its rows in the order the server returns
    them, and the error of the connection, if it is down. *)
Record CNCMySQLHandler := {
  rows : list SQLRow;
  failure : option string;
}.

Definition is_corpus (r : SQLRow) : bool := String.eqb (Type_ (columns r)) "corpus".

(** A condition of a WHERE clause with its bound value; [NotDeleted] is
    ["m.deleted = ?"] bound to the text FALSE, or the literal
    [m.deleted = FALSE]. *)
Inductive Cond :=
| NotDeleted
| Visible
| VisibleNoParallel
| IdIs (identifier : string)
| DateGe (t : Time)
| DateLe (t : Time).

Definition eval_cond (r : SQLRow) (c : Cond) : bool :=
  match c with
  | NotDeleted => negb (deleted r)
  | Visible =>
      (is_corpus r && in_public_corplist r) || in_public_parallel r ||
      negb (is_corpus r)
  | VisibleNoParallel =>
      (is_corpus r && in_public_corplist r) || negb (is_corpus r)
  | IdIs identifier => sql_id_eq (ID (columns r)) identifier
  | DateGe t => t <=? Date (columns r)
  | DateLe t => Date (columns r) <=? t
  end.

(** The rows that pass a WHERE clause, whose conditions are joined by
    AND; the grouping of a statement comes after it. *)
Definition select (c : CNCMySQLHandler) (whereClause : list Cond) : list SQLRow :=
  List.filter (fun r => forallb (eval_cond r) whereClause) (rows c).

(** The value of [c.name] that [GROUP BY] compares; NULL is one value. *)
Definition group_key (r : SQLRow) : option string :=
  if sql.Valid (c_name r) then Some (sql.String_ (c_name r)) else None.

Definition same_group (r r' : SQLRow) : bool :=
  match group_key r, group_key r' with
  | None, None => true
  | Some n, Some n' => String.eqb n n'
  | _, _ => false
  end.

(** The row that the server delivers for the group of [r], the first
    row of the group, and the rows [rest] after it: the columns that are
    not aggregated are those of one row of the group, which the server
    is free to choose and MySQL takes from the first row it reads; the
    aggregate runs over the keyword rows of the whole group. *)
Definition group_row (r : SQLRow) (rest : list SQLRow) : SQLRow :=
  {| deleted := deleted r;
     in_public_corplist := in_public_corplist r;
     in_public_parallel := in_public_parallel r;
     created := created r;
     c_name := c_name r;
     scanned := scanned r;
     keyword_rows :=
       keyword_rows r ++ flat_map keyword_rows (List.filter (same_group r) rest);
     locale := locale r;
     scan_error := scan_error r |}.

(** [GROUP BY c.name] over the rows that passed the WHERE clause: one
    row for each value of [c.name], so the records that are joined with
    no corpus, every service among them, come out as one row. [seen]
    holds the first rows of the groups that are already delivered. *)
Fixpoint group_rows (seen rs : list SQLRow) : list SQLRow :=
  match rs with
  | [] => []
  | r :: rs' =>
      if existsb (fun s => same_group s r) seen then group_rows seen rs'
      else group_row r rs' :: group_rows (r :: seen) rs'
  end.

Definition group_by_c_name (rs : list SQLRow) : list SQLRow := group_rows [] rs.

Definition GetFirstDate (c : CNCMySQLHandler) : M (result Time) :=
  tell (EvRepo QGetFirstDate);;
  mret match failure c, rows c with
       | Some e, _ => Err e
       | None, [] => Err "converting NULL to time.Time is unsupported"
       | None, r :: rs => Ok (fold_right Z.min (created r) (map created rs))
       end.

Definition IdentifierExists (c : CNCMySQLHandler) (identifier : string)
  : M (result bool) :=
  tell (EvRepo (QIdentifierExists identifier));;
  mret match failure c with
       | Some e =>
           Err ("failed to check identifier existence record info: " +:+ e)
       | None =>
           match select c [IdIs identifier; NotDeleted; VisibleNoParallel] with
           | [] => Ok false
           | _ :: _ => Ok true
           end
       end.

Definition parseLocale (loc : string) : result Tag :=
  let tmp := strings.Split loc "." in
  let base := hd "" tmp in
  match language_Parse base with
  | Ok ans => Ok ans
  | Err _ =>
      let tmp := strings.Split loc "_" in
      let tmp := if (length tmp =? 0)%nat then strings.Split loc "-" else tmp in
      if negb (length tmp =? 2)%nat
      then Err ("unable to parse locale " +:+ loc)
      else language_Parse (hd "" tmp)
  end.

Definition GetRecordInfo (c : CNCMySQLHandler) (identifier : string)
  : M (result (option DBData)) :=
  tell (EvRepo (QGetRecordInfo identifier));;
  mret match failure c with
       | Some e => Err ("failed to get record info: " +:+ e)
       | None =>
           match select c [IdIs identifier; NotDeleted; Visible] with
           | [] => Ok None
           | r :: _ =>
               match scan_error r with
               | Some e => Err ("failed to get record info: " +:+ e)
               | None =>
                   if sql.Valid (locale r) then
                     match parseLocale (sql.String_ (locale r)) with
                     | Err e => Err ("failed to get record info: " +:+ e)
                     | Ok tag => Ok (Some (set_Locale (columns r) (Some tag)))
                     end
                   else Ok (Some (columns r))
               end
           end
       end.

(** The loop over [rows.Next()]: the first failing row ends the listing. *)
Fixpoint scan_rows (rs : list SQLRow) (results : list DBData)
  : result (list DBData) :=
  match rs with
  | [] => Ok results
  | r :: rs' =>
      match scan_error r with
      | Some e => Err ("failed to list record info: " +:+ e)
      | None =>
          if negb (String.eqb (sql.String_ (locale r)) "") then
            match parseLocale (sql.String_ (locale r)) with
            | Err e => Err ("failed to list record info: " +:+ e)
            | Ok tag =>
                scan_rows rs' (results ++ [set_Locale (columns r) (Some tag)])
            end
          else scan_rows rs' (results ++ [columns r])
      end
  end.

Definition whereClause (from until : option Time) : list Cond :=
  [NotDeleted; Visible] ++
  (match from with Some t => [DateGe t] | None => [] end) ++
  (match until with Some t => [DateLe t] | None => [] end).

(** The statement ends in [GROUP BY c.name]. A server that refuses the
    statement, as MySQL does in its [ONLY_FULL_GROUP_BY] mode, is a
    [failure] of the query. *)
Definition ListRecordInfo (c : CNCMySQLHandler) (from until : option Time)
  : M (result (list DBData)) :=
  tell (EvRepo (QListRecordInfo from until));;
  mret match failure c with
       | Some e => Err ("failed to list record info: " +:+ e)
       | None =>
           scan_rows (group_by_c_name (select c (whereClause from until))) []
       end.

End cncdb.
End cncdb.

(** ** Package [cnf]: the part of the configuration the hook reads *)

Module cnf.
Record RepositoryInfo := {
  Name : string;
  BaseURL : string;
  AdminEmail : list string;
}.
Record MetadataValues := { Publisher : string }.
Record Conf := {
  Repository : RepositoryInfo;
  Metadata : MetadataValues;
}.
End cnf.

(** ** Package [cnchook]: the hook of the Czech National Corpus *)

Module cnchook.
Section cnchook.
Context `{GoLibs}.

(** Modelled from the spec: the file declaring [MetadataType] and its
    two constants is not among the sources; their values are the record
    types of the data model, [corpus] and [service], which are also the
    literals of the SQL statements. *)
Definition CorpusMetadataType : string := "corpus".
Definition ServiceMetadataType : string := "service".

(** One author per line of the block. *)
Definition authorOfLine (author : string) : list components.AuthorComponent :=
  let sAuthor := strings.Split (strings.Trim author " ") " " in
  if (length sAuthor =? 1)%nat then
    [{| components.LastName := nth 0 sAuthor "";
        components.FirstName := "" |}]
  else if (1 <? length sAuthor)%nat then
    [{| components.LastName := nth 1 sAuthor "";
        components.FirstName := nth 0 sAuthor "" |}]
  else [].

Definition authorsOfBlock (block : string) : list components.AuthorComponent :=
  fold_left (fun authors author => authors ++ authorOfLine author)
            (strings.Split (strings.ReplaceAll block CRLF LF) LF) [].

Definition getAuthorList (data : cncdb.DBData) : list components.AuthorComponent :=
  authorsOfBlock (cncdb.Authors data).

Definition getKontextPath (corpusID : string) : string :=
  "https://www.korpus.cz/kontext/query?corpname=" +:+ corpusID.

Definition creatorOf (author : components.AuthorComponent) : string :=
  if String.eqb (components.FirstName author) ""
  then components.LastName author
  else components.FirstName author +:+ " " +:+ components.LastName author.

Definition setHeader (record : oaipmh.OAIPMHRecord.t) (datestamp : Time)
    (identifier : string) : oaipmh.OAIPMHRecord.t :=
  {| oaipmh.OAIPMHRecord.Header :=
       match oaipmh.OAIPMHRecord.Header record with
       | Some h =>
           Some {| oaipmh.OAIPMHRecordHeader.Status :=
                     oaipmh.OAIPMHRecordHeader.Status h;
                   oaipmh.OAIPMHRecordHeader.Identifier := identifier;
                   oaipmh.OAIPMHRecordHeader.Datestamp := datestamp;
                   oaipmh.OAIPMHRecordHeader.SetSpec :=
                     oaipmh.OAIPMHRecordHeader.SetSpec h |}
       | None => None
       end;
     oaipmh.OAIPMHRecord.Metadata := oaipmh.OAIPMHRecord.Metadata record |}.

Definition dcDescription (data : cncdb.DBData) : formats.MultilangArray :=
  let d := formats.Description formats.NewDublinCore in
  let d := if sql.Valid (cncdb.DescCS data)
           then formats.Add d (sql.String_ (cncdb.DescCS data)) "cs" else d in
  if sql.Valid (cncdb.DescEN data)
  then formats.Add d (sql.String_ (cncdb.DescEN data)) "en" else d.

Definition dcLanguage (data : cncdb.DBData) : formats.MultilangArray :=
  let l := formats.Language formats.NewDublinCore in
  if String.eqb (cncdb.Type_ data) CorpusMetadataType then
    match cncdb.Locale (cncdb.Corpus data) with
    | Some tag => formats.Add l (Tag_Base tag) ""
    | None => l
    end
  else l.

Definition dcMetadata (data : cncdb.DBData) : formats.DublinCore :=
  let z := formats.NewDublinCore in
  {| formats.XMLNSOAIDC := formats.XMLNSOAIDC z;
     formats.XMLNSDC := formats.XMLNSDC z;
     formats.XMLNSXSI := formats.XMLNSXSI z;
     formats.XSISchemaLocation := formats.XSISchemaLocation z;
     formats.Title :=
       formats.Add (formats.Add (formats.Title z) (cncdb.TitleEN data) "en")
                   (cncdb.TitleCS data) "cs";
     formats.Creator :=
       fold_left (fun c author => formats.Add c (creatorOf author) "")
                 (getAuthorList data) (formats.Creator z);
     formats.Subject := formats.Subject z;
     formats.Description := dcDescription data;
     formats.Publisher := formats.Publisher z;
     formats.Contributor := formats.Contributor z;
     formats.Date :=
       formats.Add (formats.Date z)
         (time_Format time.RFC3339 (time.In_UTC (cncdb.Date data))) "";
     formats.Type_ := formats.Add (formats.Type_ z) (cncdb.Type_ data) "";
     formats.Format := formats.Format z;
     formats.Identifier := formats.Add (formats.Identifier z) (cncdb.Name data) "";
     formats.Source := formats.Source z;
     formats.Language := dcLanguage data;
     formats.Relation := formats.Relation z;
     formats.Coverage := formats.Coverage z;
     formats.Rights := formats.Add (formats.Rights z) (cncdb.License data) "" |}.

Definition dcRecordFromData (data : cncdb.DBData) : oaipmh.OAIPMHRecord.t :=
  let recordID := Sprint_int (cncdb.ID data) in
  let record := oaipmh.NewOAIPMHRecord (oaipmh.DublinCoreValue (dcMetadata data)) in
  setHeader record (time.In_UTC (cncdb.Date data)) recordID.

Record CNCHook := {
  conf : cnf.Conf;
  db : cncdb.CNCMySQLHandler;
}.

Section methods.
Variable c : CNCHook.

Definition cmdiProfile (data : cncdb.DBData) : profiles.CNCResourceProfile :=
  let corpus := String.eqb (cncdb.Type_ data) CorpusMetadataType in
  {| profiles.BibliographicInfo :=
       {| components.Titles :=
            [{| formats.Lang := "en"; formats.Value := cncdb.TitleEN data |};
             {| formats.Lang := "cs"; formats.Value := cncdb.TitleCS data |}];
          components.Authors := getAuthorList data;
          components.Dates :=
            if String.eqb (cncdb.DateIssued data) ""
            then Some {| components.DateIssued := cncdb.DateIssued data |}
            else None;
          components.Identifiers :=
            [{| formats.TType := ""; formats.TValue := cncdb.Name data |}];
          components.ContactPerson :=
            {| components.CLastName := cncdb.Lastname (cncdb.ContactPerson data);
               components.CFirstName := cncdb.Firstname (cncdb.ContactPerson data);
               components.Email := cncdb.Email (cncdb.ContactPerson data);
               components.Affiliation :=
                 sql.String_ (cncdb.Affiliation (cncdb.ContactPerson data)) |};
          components.Publishers := [cnf.Publisher (cnf.Metadata (conf c))] |};
     profiles.DataInfo :=
       {| components.Type_ := cncdb.Type_ data;
          components.Description :=
            [{| formats.Lang := "en";
                formats.Value := sql.String_ (cncdb.DescEN data) |};
             {| formats.Lang := "cs";
                formats.Value := sql.String_ (cncdb.DescCS data) |}];
          components.Languages :=
            if corpus then
              match cncdb.Locale (cncdb.Corpus data) with
              | Some tag =>
                  Some [{| components.Name := display_Name tag;
                           components.Code := Tag_Base tag |}]
              | None => None
              end
            else None;
          components.Keywords :=
            if corpus &&
               negb (String.eqb (sql.String_ (cncdb.Keywords (cncdb.Corpus data))) "")
            then Some (strings.Split
                         (sql.String_ (cncdb.Keywords (cncdb.Corpus data))) ",")
            else None;
          components.SizeInfo :=
            if corpus then
              Some [{| components.Size :=
                         Sprint_int (sql.Int64 (cncdb.Size (cncdb.Corpus data)));
                       components.Unit := "words" |}]
            else None |};
     profiles.LicenseInfo :=
       [{| profiles.LName := ""; profiles.URI := cncdb.License data |}] |}.

Definition cmdiResources (data : cncdb.DBData) : list formats.CMDIResourceProxy :=
  let recordID := Sprint_int (cncdb.ID data) in
  (if String.eqb (cncdb.Type_ data) CorpusMetadataType then
     [{| formats.ID := "sp_" +:+ recordID;
         formats.ResourceType :=
           {| formats.MimeType := "text/html";
              formats.RTValue := formats.RTSearchPage |};
         formats.ResourceRef := getKontextPath (cncdb.Name data) |}]
   else []) ++
  (if negb (String.eqb (sql.String_ (cncdb.Link data)) "") then
     let link := sql.String_ (cncdb.Link data) in
     let link := if strings.Contains link "wiki.korpus.cz"
                 then strings.ReplaceAll link "/cnk:" "/en:cnk:" else link in
     [{| formats.ID := "uri_" +:+ recordID;
         formats.ResourceType :=
           {| formats.MimeType := "text/html";
              formats.RTValue := formats.RTResource |};
         formats.ResourceRef := link |}]
   else []).

Definition cmdiLindatClarinRecordFromData (data : cncdb.DBData)
  : oaipmh.OAIPMHRecord.t :=
  let recordID := Sprint_int (cncdb.ID data) in
  let m := cmdi.NewCMDI (cmdiProfile data) in
  let metadata :=
    {| cmdi.XMLNSXSI := cmdi.XMLNSXSI m; cmdi.XMLNSCMD := cmdi.XMLNSCMD m;
       cmdi.XMLNSCMDP := cmdi.XMLNSCMDP m;
       cmdi.XSISchemaLocation := cmdi.XSISchemaLocation m;
       cmdi.Version := cmdi.Version m;
       cmdi.Header :=
         {| cmdi.MdSelfLink :=
              cnf.BaseURL (cnf.Repository (conf c)) +:+ "/record/" +:+
              recordID +:+ "?format=cmdi";
            cmdi.MdProfile := cmdi.MdProfile (cmdi.Header m) |};
       cmdi.ResourceProxyList := cmdi.ResourceProxyList m ++ cmdiResources data;
       cmdi.Components := cmdi.Components m |} in
  setHeader (oaipmh.NewOAIPMHRecord (oaipmh.CMDIValue metadata))
            (time.In_UTC (cncdb.Date data)) recordID.

Definition GetDublinCoreFormat : oaipmh.OAIPMHMetadataFormat.t :=
  {| oaipmh.OAIPMHMetadataFormat.MetadataPrefix := formats.DublinCoreMetadataPrefix;
     oaipmh.OAIPMHMetadataFormat.Schema :=
       "http://www.openarchives.org/OAI/2.0/oai_dc.xsd";
     oaipmh.OAIPMHMetadataFormat.MetadataNamespace :=
       "http://www.openarchives.org/OAI/2.0/oai_dc/" |}.

Definition GetCMDIFormat (schemaURL : string) : oaipmh.OAIPMHMetadataFormat.t :=
  {| oaipmh.OAIPMHMetadataFormat.MetadataPrefix := formats.CMDIMetadataPrefix;
     oaipmh.OAIPMHMetadataFormat.Schema := schemaURL;
     oaipmh.OAIPMHMetadataFormat.MetadataNamespace := "http://www.clarin.eu/cmd/" |}.

Definition LindatClarinSchemaURL : string :=
  "https://catalog.clarin.eu/ds/ComponentRegistry/rest/registry/1.x/profiles/clarin.eu:cr1:p_1403526079380/xsd".

Definition withCode {T} (w : oaipmh.ResultWrapper.t T) (code : Z)
  : oaipmh.ResultWrapper.t T :=
  {| oaipmh.ResultWrapper.Data := oaipmh.ResultWrapper.Data w;
     oaipmh.ResultWrapper.Errors := oaipmh.ResultWrapper.Errors w;
     oaipmh.ResultWrapper.HTTPCode := code |}.

Definition withError {T} (w : oaipmh.ResultWrapper.t T) (code message : string)
  : oaipmh.ResultWrapper.t T :=
  {| oaipmh.ResultWrapper.Data := oaipmh.ResultWrapper.Data w;
     oaipmh.ResultWrapper.Errors :=
       oaipmh.OAIPMHErrors.Add (oaipmh.ResultWrapper.Errors w) code message;
     oaipmh.ResultWrapper.HTTPCode := oaipmh.ResultWrapper.HTTPCode w |}.

Definition withData {T} (w : oaipmh.ResultWrapper.t T) (data : T)
  : oaipmh.ResultWrapper.t T :=
  {| oaipmh.ResultWrapper.Data := data;
     oaipmh.ResultWrapper.Errors := oaipmh.ResultWrapper.Errors w;
     oaipmh.ResultWrapper.HTTPCode := oaipmh.ResultWrapper.HTTPCode w |}.

Definition Identify : M (oaipmh.ResultWrapper.t oaipmh.OAIPMHIdentify.t) :=
  r ← cncdb.GetFirstDate (db c);
  let earliestDatestamp := match r with Ok t => t | Err _ => time.Zero end in
  let result := oaipmh.NewResultWrapper
    {| oaipmh.OAIPMHIdentify.RepositoryName := cnf.Name (cnf.Repository (conf c));
       oaipmh.OAIPMHIdentify.BaseURL := cnf.BaseURL (cnf.Repository (conf c));
       oaipmh.OAIPMHIdentify.AdminEmail := cnf.AdminEmail (cnf.Repository (conf c));
       oaipmh.OAIPMHIdentify.EarliestDatestamp := time.In_UTC earliestDatestamp;
       oaipmh.OAIPMHIdentify.DeletedRecord := "no";
       oaipmh.OAIPMHIdentify.Granularity := "YYYY-MM-DDThh:mm:ssZ";
       oaipmh.OAIPMHIdentify.ProtocolVersion := "" |} in
  mret match r with
       | Err _ => withCode result http.StatusInternalServerError
       | Ok _ => result
       end.

Definition ListMetadataFormats (req : oaipmh.OAIPMHRequest.t)
  : M (oaipmh.ResultWrapper.t (list oaipmh.OAIPMHMetadataFormat.t)) :=
  let ans := oaipmh.NewResultWrapper
               [GetDublinCoreFormat; GetCMDIFormat LindatClarinSchemaURL] in
  if negb (String.eqb (oaipmh.OAIPMHRequest.Identifier req) "") then
    r ← cncdb.IdentifierExists (db c) (oaipmh.OAIPMHRequest.Identifier req);
    mret match r with
         | Err _ => withCode ans http.StatusInternalServerError
         | Ok false =>
             withCode
               (withError ans oaipmh.ErrorCodeIDDoesNotExist
                  ("Result for ID = " +:+ oaipmh.OAIPMHRequest.Identifier req +:+
                   " not found"))
               http.StatusNotFound
         | Ok true => ans
         end
  else mret ans.

Definition GetRecord (req : oaipmh.OAIPMHRequest.t)
  : M (oaipmh.ResultWrapper.t oaipmh.OAIPMHRecord.t) :=
  let ans := oaipmh.NewResultWrapper oaipmh.OAIPMHRecord.zero in
  r ← cncdb.GetRecordInfo (db c) (oaipmh.OAIPMHRequest.Identifier req);
  mret match r with
       | Err _ => withCode ans http.StatusInternalServerError
       | Ok None =>
           withCode
             (withError ans oaipmh.ErrorCodeIDDoesNotExist
                ("Result for ID = " +:+ oaipmh.OAIPMHRequest.Identifier req +:+
                 " not found"))
             http.StatusNotFound
       | Ok (Some data) =>
           let prefix := oaipmh.OAIPMHRequest.MetadataPrefix req in
           if String.eqb prefix formats.DublinCoreMetadataPrefix then
             withData ans (dcRecordFromData data)
           else if String.eqb prefix formats.CMDIMetadataPrefix then
             withData ans (cmdiLindatClarinRecordFromData data)
           else
             withCode
               (withError ans oaipmh.ErrorCodeCannotDisseminateFormat
                  "Unknown metadata format")
               http.StatusBadRequest
       end.

(** [*record.Header] of a converted record. *)
Definition headerOf (record : oaipmh.OAIPMHRecord.t) : oaipmh.OAIPMHRecordHeader.t :=
  default oaipmh.OAIPMHRecordHeader.zero (oaipmh.OAIPMHRecord.Header record).

Definition ListIdentifiers (req : oaipmh.OAIPMHRequest.t)
  : M (oaipmh.ResultWrapper.t (list oaipmh.OAIPMHRecordHeader.t)) :=
  let ans := oaipmh.NewResultWrapper [] in
  r ← cncdb.ListRecordInfo (db c) (oaipmh.OAIPMHRequest.From req)
                           (oaipmh.OAIPMHRequest.Until req);
  mret match r with
       | Err _ => withCode ans http.StatusInternalServerError
       | Ok data =>
           if (length data =? 0)%nat then
             withError ans oaipmh.ErrorCodeNoRecordsMatch "No records"
           else
             let prefix := oaipmh.OAIPMHRequest.MetadataPrefix req in
             if String.eqb prefix formats.DublinCoreMetadataPrefix then
               withData ans
                 (fold_left (fun acc d => acc ++ [headerOf (dcRecordFromData d)])
                            data (oaipmh.ResultWrapper.Data ans))
             else if String.eqb prefix formats.CMDIMetadataPrefix then
               withData ans
                 (fold_left
                    (fun acc d => acc ++ [headerOf (cmdiLindatClarinRecordFromData d)])
                    data (oaipmh.ResultWrapper.Data ans))
             else
               withCode
                 (withError ans oaipmh.ErrorCodeCannotDisseminateFormat
                    "Unknown metadata format")
                 http.StatusBadRequest
       end.

Definition ListRecords (req : oaipmh.OAIPMHRequest.t)
  : M (oaipmh.ResultWrapper.t (list oaipmh.OAIPMHRecord.t)) :=
  let ans := oaipmh.NewResultWrapper [] in
  r ← cncdb.ListRecordInfo (db c) (oaipmh.OAIPMHRequest.From req)
                           (oaipmh.OAIPMHRequest.Until req);
  mret match r with
       | Err _ => withCode ans http.StatusInternalServerError
       | Ok data =>
           if (length data =? 0)%nat then
             withError ans oaipmh.ErrorCodeNoRecordsMatch "No records"
           else
             let prefix := oaipmh.OAIPMHRequest.MetadataPrefix req in
             if String.eqb prefix formats.DublinCoreMetadataPrefix then
               withData ans
                 (fold_left (fun acc d => acc ++ [dcRecordFromData d])
                            data (oaipmh.ResultWrapper.Data ans))
             else if String.eqb prefix formats.CMDIMetadataPrefix then
               withData ans
                 (fold_left (fun acc d => acc ++ [cmdiLindatClarinRecordFromData d])
                            data (oaipmh.ResultWrapper.Data ans))
             else
               withCode
                 (withError ans oaipmh.ErrorCodeCannotDisseminateFormat
                    "Unknown metadata format")
                 http.StatusBadRequest
       end.

Definition ListSets (req : oaipmh.OAIPMHRequest.t)
  : M (oaipmh.ResultWrapper.t (list oaipmh.OAIPMHSet.t)) :=
  mret (oaipmh.NewResultWrapper []).

Definition SupportsSets : bool := false.

Definition SupportedMetadataPrefixes : list string :=
  [formats.DublinCoreMetadataPrefix; formats.CMDIMetadataPrefix].

(** [CNCHook] as the [VLOHook] that [NewVLOHandler] receives. *)
Definition asVLOHook : oaipmh.VLOHook.t :=
  {| oaipmh.VLOHook.Identify := Identify;
     oaipmh.VLOHook.GetRecord := GetRecord;
     oaipmh.VLOHook.ListIdentifiers := ListIdentifiers;
     oaipmh.VLOHook.ListMetadataFormats := ListMetadataFormats;
     oaipmh.VLOHook.ListRecords := ListRecords;
     oaipmh.VLOHook.ListSets := ListSets;
     oaipmh.VLOHook.SupportsSets := SupportsSets;
     oaipmh.VLOHook.SupportedMetadataPrefixes := SupportedMetadataPrefixes |}.

End methods.

Definition NewCNCHook (conf : cnf.Conf) (db : cncdb.CNCMySQLHandler) : CNCHook :=
  {| conf := conf; db := db |}.

End cnchook.
End cnchook.

(** ** A reference behaviour of the outside packages

    One instance of [GoLibs], used to run the code on concrete requests:
    dates after [time.Parse] for the two layouts of the handler, language
    tags over a small registry of subtags, keys enumerated in the order
    of the map's domain. *)

Module GoModel.

Definition digit (c : ascii) : option Z :=
  let n := Z.of_nat (nat_of_ascii c) in
  if (48 <=? n) && (n <=? 57) then Some (n - 48) else None.

(** Exactly [n] decimal digits at the head of [s]. *)
Fixpoint getnum (n : nat) (s : string) (acc : Z) : option (Z * string) :=
  match n with
  | O => Some (acc, s)
  | S n' =>
      match s with
      | String c s' =>
          match digit c with
          | Some d => getnum n' s' (10 * acc + d)
          | None => None
          end
      | EmptyString => None
      end
  end.

Definition expect (c : string) (s : string) : option string :=
  if strings.HasPrefix s c
  then Some (String.substring (String.length c)
               (String.length s - String.length c) s)
  else None.

Definition isLeap (y : Z) : bool :=
  (y mod 4 =? 0) && (negb (y mod 100 =? 0) || (y mod 400 =? 0)).

Definition daysIn (m y : Z) : Z :=
  if m =? 2 then (if isLeap y then 29 else 28)
  else if (m =? 4) || (m =? 6) || (m =? 9) || (m =? 11) then 30 else 31.

(** Days from 1970-01-01 to the civil date [y]-[m]-[d]. *)
Definition daysFromCivil (y m d : Z) : Z :=
  let y' := if m <=? 2 then y - 1 else y in
  let era := y' / 400 in
  let yoe := y' - era * 400 in
  let mp := (m + 9) mod 12 in
  let doy := (153 * mp + 2) / 5 + d - 1 in
  let doe := yoe * 365 + yoe / 4 - yoe / 100 + doy in
  era * 146097 + doe - 719468.

Definition civilFromDays (z : Z) : Z * Z * Z :=
  let z := z + 719468 in
  let era := z / 146097 in
  let doe := z - era * 146097 in
  let yoe := (doe - doe / 1460 + doe / 36524 - doe / 146096) / 365 in
  let doy := doe - (365 * yoe + yoe / 4 - yoe / 100) in
  let mp := (5 * doy + 2) / 153 in
  let d := doy - (153 * mp + 2) / 5 + 1 in
  let m := if mp <? 10 then mp + 3 else mp - 9 in
  (yoe + era * 400 + (if m <=? 2 then 1 else 0), m, d).

Definition parseDate (s : string) : option (Z * string) :=
  '(y, s) ← getnum 4 s 0;
  s ← expect "-" s;
  '(m, s) ← getnum 2 s 0;
  s ← expect "-" s;
  '(d, s) ← getnum 2 s 0;
  if (1 <=? m) && (m <=? 12) && (1 <=? d) && (d <=? daysIn m y)
  then Some (daysFromCivil y m d * 24 * time.Hour, s)
  else None.

(** The digits of a fraction of a second, as nanoseconds. *)
Fixpoint fraction (s : string) (scale acc : Z) : Z * string :=
  match s with
  | String c s' =>
      match digit c with
      | Some d => fraction s' (scale / 10) (acc + d * scale)
      | None => (acc, s)
      end
  | EmptyString => (acc, s)
  end.

Definition parseZone (s : string) : option Z :=
  match s with
  | "Z" => Some 0
  | String sign s' =>
      '(hh, s') ← getnum 2 s' 0;
      s' ← expect ":" s';
      '(mm, s') ← getnum 2 s' 0;
      if String.eqb s' "" && (hh <? 24) && (mm <? 60) then
        if Ascii.eqb sign "+" then Some ((hh * 60 + mm) * 60 * time.Second)
        else if Ascii.eqb sign "-" then Some (- ((hh * 60 + mm) * 60 * time.Second))
        else None
      else None
  | EmptyString => None
  end.

Definition parseRFC3339 (s : string) : option Time :=
  '(date, s) ← parseDate s;
  s ← expect "T" s;
  '(hh, s) ← getnum 2 s 0;
  s ← expect ":" s;
  '(mm, s) ← getnum 2 s 0;
  s ← expect ":" s;
  '(ss, s) ← getnum 2 s 0;
  let '(ns, s) :=
    match s with
    | String "." (String c r) =>
        if digit c is Some _ then fraction (String c r) 100000000 0 else (0, s)
    | _ => (0, s)
    end in
  offset ← parseZone s;
  if (hh <? 24) && (mm <? 60) && (ss <? 60)
  then Some (date + ((hh * 60 + mm) * 60 + ss) * time.Second + ns - offset)
  else None.

Definition Parse (layout : time.Layout) (value : string) : result Time :=
  match layout with
  | time.DateOnly =>
      match parseDate value with
      | Some (t, "") => Ok t
      | _ => Err ("parsing time " +:+ value +:+ " as 2006-01-02")
      end
  | time.RFC3339 =>
      match parseRFC3339 value with
      | Some t => Ok t
      | None => Err ("parsing time " +:+ value +:+ " as 2006-01-02T15:04:05Z07:00")
      end
  end.

Definition pad (width : nat) (n : Z) : string :=
  let s := pretty n in
  String.concat "" (replicate (width - String.length s) "0") +:+ s.

Definition Format (layout : time.Layout) (t : Time) : string :=
  let secs := t / time.Second in
  let days := secs / 86400 in
  let rest := secs mod 86400 in
  let '(y, m, d) := civilFromDays days in
  let date := pad 4 y +:+ "-" +:+ pad 2 m +:+ "-" +:+ pad 2 d in
  match layout with
  | time.DateOnly => date
  | time.RFC3339 =>
      date +:+ "T" +:+ pad 2 (rest / 3600) +:+ ":" +:+
      pad 2 (rest mod 3600 / 60) +:+ ":" +:+ pad 2 (rest mod 60) +:+ "Z"
  end.

(** Language tags: a base language and an optional region, each from a
    registry of known subtags; [_] separates like [-]. *)
Record LangTag := { base : string; region : option string }.

Definition languages : list (string * string) :=
  [("en", "English"); ("cs", "Czech"); ("de", "German"); ("sk", "Slovak");
   ("pl", "Polish"); ("fr", "French")].

Definition regions : list string := ["US"; "GB"; "CZ"; "DE"; "SK"; "PL"; "FR"].

Definition known (x : string) (l : list string) : bool := existsb (String.eqb x) l.

Definition languageParse (s : string) : result LangTag :=
  match strings.Split (strings.ReplaceAll s "_" "-") "-" with
  | [b] =>
      if known b (map fst languages)
      then Ok {| base := b; region := None |}
      else Err "language: tag is not well-formed"
  | [b; r] =>
      if known b (map fst languages) then
        if known r regions
        then Ok {| base := b; region := Some r |}
        else Err "language: subtag unknown"
      else Err "language: tag is not well-formed"
  | _ => Err "language: tag is not well-formed"
  end.

Definition languageName (t : LangTag) : string :=
  match find (fun p => String.eqb (fst p) (base t)) languages with
  | Some p => snd p
  | None => ""
  end.

Definition JoinPath (b elem : string) : result string :=
  if String.eqb b "" then Ok elem
  else Ok (strings.TrimRight b "/" +:+ "/" +:+ elem).

Definition rangeKeys (m : gmap string (list string)) : list string :=
  elements (dom m).

#[export] Instance libs : GoLibs := {|
  Tag := LangTag;
  language_Parse := languageParse;
  Tag_Base := base;
  display_Name := languageName;
  time_Parse := Parse;
  time_Format := Format;
  url_JoinPath := JoinPath;
  range_keys := rangeKeys;
  range_keys_perm := fun m => Permutation_refl (elements (dom m));
  sql_id_eq := fun id s => String.eqb (Sprint_int id) s;
|}.

End GoModel.

(** * Vocabulary of the properties *)

(** ** Locales, authors and descriptions *)

(** The part of a locale before its first dot, which [parseLocale] hands
    to [language.Parse] first. *)
Definition localeBase (loc : string) : string := hd "" (strings.Split loc ".").

(** The author of a line, from the tokens of the line: none without a
    token, the last name alone from one token, first and last name from
    the first two of several tokens. *)
Definition authorOfTokens (toks : list string) : list components.AuthorComponent :=
  match toks with
  | [] => []
  | [w] => [{| components.LastName := w; components.FirstName := "" |}]
  | a :: b :: _ => [{| components.LastName := b; components.FirstName := a |}]
  end.






(** A record with the given type, author block and descriptions. *)
Definition sampleData `{GoLibs} (type authors : string) (descCS descEN : sql.NullString)
    (date : Time) : cncdb.DBData :=
  {| cncdb.ID := 7; cncdb.Date := date; cncdb.Hosted := false;
     cncdb.Type_ := type; cncdb.Name := "syn2020";
     cncdb.DescEN := descEN; cncdb.DescCS := descCS;
     cncdb.DateIssued := "2020"; cncdb.TitleEN := "SYN2020";
     cncdb.TitleCS := "SYN2020"; cncdb.Link := sql.null;
     cncdb.License := "CC-BY"; cncdb.Authors := authors;
     cncdb.ContactPerson :=
       {| cncdb.Firstname := "Jan"; cncdb.Lastname := "Novak";
          cncdb.Email := "jan@example.org"; cncdb.Affiliation := sql.null |};
     cncdb.Corpus :=
       {| cncdb.Size := {| sql.Int64 := 0; sql.Int64Valid := false |};
          cncdb.Locale := None; cncdb.Keywords := sql.null |} |}.

(** The Dublin Core document that a record carries, if it carries one. *)
Definition dcOf (record : oaipmh.OAIPMHRecord.t) : option formats.DublinCore :=
  match oaipmh.OAIPMHRecord.Metadata record with
  | Some {| oaipmh.Value := oaipmh.DublinCoreValue d |} => Some d
  | _ => None
  end.

(** The description elements of the Dublin Core record of [data]. *)
Definition dcDescriptions `{GoLibs} (data : cncdb.DBData) : list formats.MultilangElement :=
  match dcOf (cnchook.dcRecordFromData data) with
  | Some d => formats.Description d
  | None => []
  end.

Definition element (lang : string) (d : sql.NullString) : list formats.MultilangElement :=
  if sql.Valid d
  then [{| formats.Lang := lang; formats.Value := sql.String_ d |}]
  else [].

(** ** The grammar of requests *)

(** The six verbs of the protocol. *)
Definition verbs : list string :=
  [oaipmh.VerbIdentify; oaipmh.VerbGetRecord; oaipmh.VerbListIdentifiers;
   oaipmh.VerbListMetadataFormats; oaipmh.VerbListRecords; oaipmh.VerbListSets].

(** The grammar of the specification: for each verb the arguments it
    requires and the arguments it allows besides [verb]. *)
Definition grammar : list (string * (list string * list string)) :=
  let harvest := [oaipmh.ArgMetadataPrefix; oaipmh.ArgFrom; oaipmh.ArgUntil;
                  oaipmh.ArgSet; oaipmh.ArgResumptionToken] in
  [(oaipmh.VerbIdentify, ([], []));
   (oaipmh.VerbGetRecord,
      ([oaipmh.ArgIdentifier; oaipmh.ArgMetadataPrefix],
       [oaipmh.ArgIdentifier; oaipmh.ArgMetadataPrefix]));
   (oaipmh.VerbListMetadataFormats, ([], [oaipmh.ArgIdentifier]));
   (oaipmh.VerbListIdentifiers, ([oaipmh.ArgMetadataPrefix], harvest));
   (oaipmh.VerbListRecords, ([oaipmh.ArgMetadataPrefix], harvest));
   (oaipmh.VerbListSets, ([], [oaipmh.ArgResumptionToken]))].

Definition rule (v : string) : list string * list string :=
  match find (fun p => String.eqb (fst p) v) grammar with
  | Some p => snd p
  | None => ([], [])
  end.

Definition requiredArgs (v : string) : list string := fst (rule v).
Definition allowedArgs (v : string) : list string := snd (rule v).

Definition supplied (q : url.Values) (k : string) : Prop := is_Some (q !! k).

(** A parameter map that passes the four checks of the grammar. *)
Definition wellFormed (q : url.Values) : Prop :=
  supplied q oaipmh.ArgVerb /\
  In (url.Get q oaipmh.ArgVerb) verbs /\
  (forall arg, In arg (requiredArgs (url.Get q oaipmh.ArgVerb)) -> supplied q arg) /\
  (forall k, supplied q k ->
     k = oaipmh.ArgVerb \/ In k (allowedArgs (url.Get q oaipmh.ArgVerb))).

Definition oneError (code message : string) : oaipmh.OAIPMHErrors.t :=
  [{| oaipmh.Code := code; oaipmh.Message := message |}].

(** Validation succeeds: a typed request and a response without errors. *)
Definition accepted `{GoLibs} (a : oaipmh.VLOHandler.t) (now : Time)
    (q : url.Values) : Prop :=
  exists req resp,
    oaipmh.VLOHandler.getReqResp a now q = Ok (req, resp) /\
    oaipmh.OAIPMHResponse.Errors resp = [].

(** Validation stops with exactly one error: the response carries it and
    no payload, it is written with status 400, and nothing else happens:
    no dispatch, no call of the hook, no query of the repository. *)
Definition rejects `{GoLibs} (a : oaipmh.VLOHandler.t) (now : Time)
    (q : url.Values) (code message : string) : Prop :=
  exists req resp,
    oaipmh.VLOHandler.getReqResp a now q = Ok (req, resp) /\
    oaipmh.OAIPMHResponse.Errors resp = oneError code message /\
    oaipmh.OAIPMHResponse.payloads resp = 0%nat /\
    oaipmh.VLOHandler.HandleOAIGet a now q =
      ([], oaipmh.WriteXML http.StatusBadRequest (oaipmh.XMLEnvelope resp)).

(** The five ways through [getReqResp], in the order of its checks. *)
Inductive Path `{GoLibs} (a : oaipmh.VLOHandler.t) (now : Time) (OAIURL : string)
    (q : url.Values) : Prop :=
| NoVerb :
    ~ supplied q oaipmh.ArgVerb ->
    oaipmh.VLOHandler.getReqResp a now q =
      oaipmh.VLOHandler.rejected now (oaipmh.VLOHandler.mkRequest OAIURL "")
        oaipmh.ErrorCodeBadArgument
        ("Missing required argument `" +:+ oaipmh.ArgVerb +:+ "`") ->
    Path a now OAIURL q
| BadVerb :
    supplied q oaipmh.ArgVerb ->
    ~ In (url.Get q oaipmh.ArgVerb) verbs ->
    oaipmh.VLOHandler.getReqResp a now q =
      oaipmh.VLOHandler.rejected now
        (oaipmh.VLOHandler.mkRequest OAIURL (url.Get q oaipmh.ArgVerb))
        oaipmh.ErrorCodeBadVerb
        ("Invalid verb `" +:+ url.Get q oaipmh.ArgVerb +:+ "`") ->
    Path a now OAIURL q
| MissingArg arg :
    supplied q oaipmh.ArgVerb ->
    In (url.Get q oaipmh.ArgVerb) verbs ->
    In arg (requiredArgs (url.Get q oaipmh.ArgVerb)) ->
    ~ supplied q arg ->
    oaipmh.VLOHandler.getReqResp a now q =
      oaipmh.VLOHandler.rejected now
        (oaipmh.VLOHandler.mkRequest OAIURL (url.Get q oaipmh.ArgVerb))
        oaipmh.ErrorCodeBadArgument
        ("Missing required argument `" +:+ arg +:+ "` for verb `" +:+
         url.Get q oaipmh.ArgVerb +:+ "`") ->
    Path a now OAIURL q
| InvalidArg k :
    supplied q oaipmh.ArgVerb ->
    In (url.Get q oaipmh.ArgVerb) verbs ->
    (forall arg, In arg (requiredArgs (url.Get q oaipmh.ArgVerb)) -> supplied q arg) ->
    supplied q k ->
    ~ (k = oaipmh.ArgVerb \/ In k (allowedArgs (url.Get q oaipmh.ArgVerb))) ->
    oaipmh.VLOHandler.getReqResp a now q =
      oaipmh.VLOHandler.rejected now
        (oaipmh.VLOHandler.mkRequest OAIURL (url.Get q oaipmh.ArgVerb))
        oaipmh.ErrorCodeBadArgument
        ("Invalid argument `" +:+ k +:+ "` for verb `" +:+
         url.Get q oaipmh.ArgVerb +:+ "`") ->
    Path a now OAIURL q
| Grammatical :
    wellFormed q ->
    oaipmh.VLOHandler.getReqResp a now q =
      match oaipmh.VLOHandler.parseFrom q with
      | Err e => Err e
      | Ok from =>
          match oaipmh.VLOHandler.parseUntil q with
          | Err e => Err e
          | Ok until =>
              let req :=
                {| oaipmh.OAIPMHRequest.URL := OAIURL;
                   oaipmh.OAIPMHRequest.Verb := url.Get q oaipmh.ArgVerb;
                   oaipmh.OAIPMHRequest.Identifier := url.Get q oaipmh.ArgIdentifier;
                   oaipmh.OAIPMHRequest.MetadataPrefix :=
                     url.Get q oaipmh.ArgMetadataPrefix;
                   oaipmh.OAIPMHRequest.From := from;
                   oaipmh.OAIPMHRequest.Until := until;
                   oaipmh.OAIPMHRequest.Set_ := url.Get q oaipmh.ArgSet;
                   oaipmh.OAIPMHRequest.ResumptionToken :=
                     url.Get q oaipmh.ArgResumptionToken |} in
              Ok (req, oaipmh.NewOAIPMHResponse now req)
          end
      end ->
    Path a now OAIURL q.

(** ** A small repository to run requests on *)

Module Sample.

(** Midnight UTC of 2024-01-16. *)
Definition midnight_2024_01_16 : Time := 1705363200 * time.Second.

(** The record [id] of the corpus [name], without keywords. *)
Definition corpusRow (id : Z) (date : Time) (gone : bool) (name : string)
    (loc : sql.NullString) : cncdb.SQLRow (H := GoModel.libs) :=
  {| cncdb.deleted := gone;
     cncdb.in_public_corplist := true;
     cncdb.in_public_parallel := false;
     cncdb.created := date;
     cncdb.c_name := sql.text name;
     cncdb.scanned :=
       cncdb.set_Locale
         (H := GoModel.libs)
         {| cncdb.ID := id; cncdb.Date := date; cncdb.Hosted := false;
            cncdb.Type_ := "corpus"; cncdb.Name := name;
            cncdb.DescEN := sql.text "A corpus"; cncdb.DescCS := sql.text "";
            cncdb.DateIssued := "2020"; cncdb.TitleEN := "SYN2020";
            cncdb.TitleCS := "SYN2020"; cncdb.Link := sql.null;
            cncdb.License := "CC-BY"; cncdb.Authors := "Doe";
            cncdb.ContactPerson :=
              {| cncdb.Firstname := "Jan"; cncdb.Lastname := "Novak";
                 cncdb.Email := "jan@example.org";
                 cncdb.Affiliation := sql.null |};
            cncdb.Corpus :=
              {| cncdb.Size := {| sql.Int64 := 100; sql.Int64Valid := true |};
                 cncdb.Locale := None; cncdb.Keywords := sql.null |} |}
         None;
     cncdb.keyword_rows := [];
     cncdb.locale := loc;
     cncdb.scan_error := None |}.

Definition row (id : Z) (date : Time) (gone : bool) : cncdb.SQLRow (H := GoModel.libs) :=
  corpusRow id date gone "syn2020" (sql.text "cs_CZ.UTF-8").

(** Record 7 was last modified at midnight of 2024-01-16; record 8 is
    marked deleted. *)
Definition db : cncdb.CNCMySQLHandler (H := GoModel.libs) :=
  {| cncdb.rows := [row 7 midnight_2024_01_16 false;
                    row 8 midnight_2024_01_16 true];
     cncdb.failure := None |}.

Definition conf : cnf.Conf :=
  {| cnf.Repository :=
       {| cnf.Name := "CNC"; cnf.BaseURL := "https://vlo.example.org";
          cnf.AdminEmail := ["admin@example.org"] |};
     cnf.Metadata := {| cnf.Publisher := "ICNC" |} |}.

Definition hook : cnchook.CNCHook (H := GoModel.libs) := cnchook.NewCNCHook conf db.

Definition handler : oaipmh.VLOHandler.t :=
  {| oaipmh.VLOHandler.basePath := "https://vlo.example.org";
     oaipmh.VLOHandler.hook := cnchook.asVLOHook hook |}.

Definition query (args : list (string * string)) : url.Values :=
  list_to_map (map (fun p => (fst p, [snd p])) args).

End Sample.

(** The grammar, decided on the keys of a parameter map. *)
Definition wellFormedb (q : url.Values) : bool :=
  let v := url.Get q oaipmh.ArgVerb in
  url.Has q oaipmh.ArgVerb &&
  existsb (String.eqb v) verbs &&
  forallb (url.Has q) (requiredArgs v) &&
  forallb (fun k => String.eqb k oaipmh.ArgVerb || existsb (String.eqb k) (allowedArgs v))
          (elements (dom q)).

(** ** Envelopes and replies *)






Definition unknownFormat (now : Time) (req : oaipmh.OAIPMHRequest.t) : oaipmh.Reply :=
  oaipmh.WriteXML http.StatusBadRequest
    (oaipmh.XMLEnvelope
       (oaipmh.OAIPMHResponse.set_Errors (oaipmh.NewOAIPMHResponse now req)
          (oneError oaipmh.ErrorCodeCannotDisseminateFormat "Unknown metadata format"))).

(** The reply built from the wrapper of [ListRecords]. *)
Definition listRecordsReply (now : Time) (req : oaipmh.OAIPMHRequest.t)
    (ans : oaipmh.ResultWrapper.t (list oaipmh.OAIPMHRecord.t)) : oaipmh.Reply :=
  let resp := oaipmh.NewOAIPMHResponse now req in
  oaipmh.VLOHandler.finish
    (if oaipmh.ResultWrapper.NoError ans
     then oaipmh.OAIPMHResponse.set_ListRecords resp (Some (oaipmh.ResultWrapper.Data ans))
     else resp)
    (oaipmh.ResultWrapper.Errors ans) (oaipmh.ResultWrapper.HTTPCode ans).

(** The reply built from the wrapper of [ListIdentifiers]. *)
Definition listIdentifiersReply (now : Time) (req : oaipmh.OAIPMHRequest.t)
    (ans : oaipmh.ResultWrapper.t (list oaipmh.OAIPMHRecordHeader.t)) : oaipmh.Reply :=
  let resp := oaipmh.NewOAIPMHResponse now req in
  oaipmh.VLOHandler.finish
    (if oaipmh.ResultWrapper.NoError ans
     then oaipmh.OAIPMHResponse.set_ListIdentifiers resp
            (Some (oaipmh.ResultWrapper.Data ans))
     else resp)
    (oaipmh.ResultWrapper.Errors ans) (oaipmh.ResultWrapper.HTTPCode ans).

Definition supportedPrefix (a : oaipmh.VLOHandler.t) (req : oaipmh.OAIPMHRequest.t)
  : bool :=
  oaipmh.SliceContains
    (oaipmh.VLOHook.SupportedMetadataPrefixes (oaipmh.VLOHandler.hook a))
    (oaipmh.OAIPMHRequest.MetadataPrefix req).

Definition notFound (req : oaipmh.OAIPMHRequest.t) : oaipmh.OAIPMHErrors.t :=
  oneError oaipmh.ErrorCodeIDDoesNotExist
    ("Result for ID = " +:+ oaipmh.OAIPMHRequest.Identifier req +:+ " not found").

Definition noRecords : oaipmh.OAIPMHErrors.t :=
  oneError oaipmh.ErrorCodeNoRecordsMatch "No records".

(** The envelope of a request that carries the given errors and nothing
    else. *)
Definition errorEnvelope (now : Time) (req : oaipmh.OAIPMHRequest.t)
    (errors : oaipmh.OAIPMHErrors.t) : oaipmh.Body :=
  oaipmh.XMLEnvelope
    (oaipmh.OAIPMHResponse.set_Errors (oaipmh.NewOAIPMHResponse now req) errors).

(** ** Handlers of the corpus hook and their events *)

(** The handler that [NewVLOHandler] builds over the hook of the corpus. *)
Definition handlerOf `{GoLibs} (basePath : string) (c : cnchook.CNCHook)
  : oaipmh.VLOHandler.t :=
  {| oaipmh.VLOHandler.basePath := basePath;
     oaipmh.VLOHandler.hook := cnchook.asVLOHook c |}.

Definition is_repo (e : Event) : bool :=
  match e with EvRepo _ => true | _ => false end.

Definition is_hook (e : Event) : bool :=
  match e with EvHook _ => true | _ => false end.

Definition setsRefused (now : Time) (req : oaipmh.OAIPMHRequest.t) : oaipmh.Reply :=
  oaipmh.WriteXML http.StatusNotImplemented
    (errorEnvelope now req
       (oneError oaipmh.ErrorCodeNoSetHierarchy "Sets functionality not implemented")).

(** The CMDI document that a record carries, if it carries one. *)
Definition cmdiOf (record : oaipmh.OAIPMHRecord.t) : option cmdi.CMDIFormat :=
  match oaipmh.OAIPMHRecord.Metadata record with
  | Some {| oaipmh.Value := oaipmh.CMDIValue m |} => Some m
  | _ => None
  end.

(** Identifier and last modification of a record of the repository. *)
Definition stamp `{GoLibs} (d : cncdb.DBData) : Z * Time :=
  (cncdb.ID d, cncdb.Date d).


(** The header that both converters give to a record. *)
Definition headerFor `{GoLibs} (d : cncdb.DBData) : oaipmh.OAIPMHRecordHeader.t :=
  {| oaipmh.OAIPMHRecordHeader.Status := "";
     oaipmh.OAIPMHRecordHeader.Identifier := Sprint_int (cncdb.ID d);
     oaipmh.OAIPMHRecordHeader.Datestamp := cncdb.Date d;
     oaipmh.OAIPMHRecordHeader.SetSpec := [] |}.

(** The requests on which the dispatcher reaches a method of the hook
    that queries the repository. *)
Definition reachesRepository `{GoLibs} (a : oaipmh.VLOHandler.t)
    (req : oaipmh.OAIPMHRequest.t) : Prop :=
  let v := oaipmh.OAIPMHRequest.Verb req in
  v = oaipmh.VerbIdentify \/
  (v = oaipmh.VerbGetRecord /\ supportedPrefix a req = true) \/
  ((v = oaipmh.VerbListRecords \/ v = oaipmh.VerbListIdentifiers) /\
   supportedPrefix a req = true /\ oaipmh.OAIPMHRequest.Set_ req = "") \/
  (v = oaipmh.VerbListMetadataFormats /\ oaipmh.OAIPMHRequest.Identifier req <> "").

(** The formats that [ListMetadataFormats] advertises. *)
Definition advertisedFormats : list oaipmh.OAIPMHMetadataFormat.t :=
  [cnchook.GetDublinCoreFormat; cnchook.GetCMDIFormat cnchook.LindatClarinSchemaURL].

(** The [Identify] payload of the corpus hook for a request, with the
    earliest datestamp [t]. *)
Definition identifyPayload (conf : cnf.Conf) (req : oaipmh.OAIPMHRequest.t)
    (t : Time) : oaipmh.OAIPMHIdentify.t :=
  {| oaipmh.OAIPMHIdentify.RepositoryName := cnf.Name (cnf.Repository conf);
     oaipmh.OAIPMHIdentify.BaseURL := oaipmh.OAIPMHRequest.URL req;
     oaipmh.OAIPMHIdentify.AdminEmail := cnf.AdminEmail (cnf.Repository conf);
     oaipmh.OAIPMHIdentify.EarliestDatestamp := t;
     oaipmh.OAIPMHIdentify.DeletedRecord := "no";
     oaipmh.OAIPMHIdentify.Granularity := "YYYY-MM-DDThh:mm:ssZ";
     oaipmh.OAIPMHIdentify.ProtocolVersion := "2.0" |}.

(** A request with the given verb, identifier and prefix and nothing
    else. *)
Definition plainRequest (verb identifier prefix : string) : oaipmh.OAIPMHRequest.t :=
  {| oaipmh.OAIPMHRequest.URL := "https://vlo.example.org/oai";
     oaipmh.OAIPMHRequest.Verb := verb;
     oaipmh.OAIPMHRequest.Identifier := identifier;
     oaipmh.OAIPMHRequest.MetadataPrefix := prefix;
     oaipmh.OAIPMHRequest.From := None; oaipmh.OAIPMHRequest.Until := None;
     oaipmh.OAIPMHRequest.Set_ := ""; oaipmh.OAIPMHRequest.ResumptionToken := "" |}.

(** The hook of the sample repository with the connection down. *)
Definition downHook : cnchook.CNCHook (H := GoModel.libs) :=
  cnchook.NewCNCHook Sample.conf
    {| cncdb.rows := cncdb.rows Sample.db;
       cncdb.failure := Some "dial tcp: connection refused" |}.


(** Record [id] of a second corpus with the given locale column, and the
    sample repository with that record added after record 7. *)
Definition localeRow (id : Z) (loc : sql.NullString) : cncdb.SQLRow (H := GoModel.libs) :=
  Sample.corpusRow id Sample.midnight_2024_01_16 false "ortofon" loc.

Definition localeDb (loc : sql.NullString) : cncdb.CNCMySQLHandler (H := GoModel.libs) :=
  {| cncdb.rows := [Sample.row 7 Sample.midnight_2024_01_16 false; localeRow 9 loc];
     cncdb.failure := None |}.

(** Record 7 of the sample repository as a listing returns it. *)
Definition record7 : cncdb.DBData (H := GoModel.libs) :=
  cncdb.set_Locale
    (cncdb.columns (Sample.row 7 Sample.midnight_2024_01_16 false))
    (Some {| GoModel.base := "cs"; GoModel.region := Some "CZ" |}).

(** A row that the grouped query delivers stands for a row of the
    repository: all its columns but the aggregate are those of the
    row. *)
Definition sameRecord `{GoLibs} (r' r : cncdb.SQLRow) : Prop :=
  cncdb.deleted r' = cncdb.deleted r /\
  cncdb.created r' = cncdb.created r /\
  cncdb.c_name r' = cncdb.c_name r /\
  cncdb.scanned r' = cncdb.scanned r /\
  cncdb.locale r' = cncdb.locale r /\
  cncdb.scan_error r' = cncdb.scan_error r.



(** A string without the byte [c]. *)
Definition without (c : ascii) (w : string) : Prop :=
  strings.Contains w (String c "") = false.

(** The CMDI document of a record of the repository and its data
    component. *)
Definition cmdiDocument `{GoLibs} (c : cnchook.CNCHook) (data : cncdb.DBData)
  : cmdi.CMDIFormat :=
  default (cmdi.NewCMDI (cnchook.cmdiProfile c data))
          (cmdiOf (cnchook.cmdiLindatClarinRecordFromData c data)).

Definition cmdiInfo `{GoLibs} (c : cnchook.CNCHook) (data : cncdb.DBData)
  : components.DataInfoComponent :=
  profiles.DataInfo (cmdi.Components (cmdiDocument c data)).


(** The events of one request: none, or entering the dispatcher
    followed by at most one call of the hook, which makes at most one
    query. *)
Definition oneCall (tr : list Event) : Prop :=
  tr = [] \/ tr = [EvDispatch] \/
  (exists m, tr = [EvDispatch; EvHook m]) \/
  (exists m qry, tr = [EvDispatch; EvHook m; EvRepo qry]).

(** A record of the given type with the given keywords column. *)
Definition keywordData (type keywords : string) : cncdb.DBData (H := GoModel.libs) :=
  {| cncdb.ID := 7; cncdb.Date := Sample.midnight_2024_01_16; cncdb.Hosted := false;
     cncdb.Type_ := type; cncdb.Name := "syn2020";
     cncdb.DescEN := sql.text "A corpus"; cncdb.DescCS := sql.null;
     cncdb.DateIssued := "2020"; cncdb.TitleEN := "SYN2020";
     cncdb.TitleCS := "SYN2020"; cncdb.Link := sql.null;
     cncdb.License := "CC-BY"; cncdb.Authors := "Doe";
     cncdb.ContactPerson :=
       {| cncdb.Firstname := "Jan"; cncdb.Lastname := "Novak";
          cncdb.Email := "jan@example.org"; cncdb.Affiliation := sql.null |};
     cncdb.Corpus :=
       {| cncdb.Size := {| sql.Int64 := 0; sql.Int64Valid := false |};
          cncdb.Locale := None; cncdb.Keywords := sql.text keywords |} |}.

(** * Properties *)

(** ** Splitting *)

Lemma split_go_nonempty sep s acc k : strings.split_go sep s acc k <> [].
Proof.
  revert acc k. induction s as [|c s IH]; intros acc k; cbn [strings.split_go]; [done|].
  destruct k; [|apply IH].
  destruct (strings.HasPrefix (String c s) sep); [done|apply IH].
Qed.

(** [strings.Split] with a separator that is not empty returns at least
    one component. *)
Lemma Split_nonempty s sep : sep <> "" -> strings.Split s sep <> [].
Proof.
  destruct sep; [done|]. intros _. apply split_go_nonempty.
Qed.

Lemma Split_length_pos s sep : sep <> "" -> (1 <= length (strings.Split s sep))%nat.
Proof.
  intros Hs. pose proof (Split_nonempty s sep Hs).
  destruct (strings.Split s sep); simpl; [done|lia].
Qed.

Lemma append_cons (x : ascii) (a b : string) : String x a +:+ b = String x (a +:+ b).
Proof. reflexivity. Qed.

Lemma append_assoc (a b c : string) : (a +:+ b) +:+ c = a +:+ (b +:+ c).
Proof. induction a as [|x a IH]; [done|]. by rewrite !append_cons, IH. Qed.

Lemma append_empty_r (a : string) : a +:+ "" = a.
Proof. induction a as [|x a IH]; [done|]. by rewrite append_cons, IH. Qed.

(** A string without the one-byte separator is a single component. *)
Lemma split_go_absent (c : ascii) s acc :
  strings.Contains s (String c "") = false ->
  strings.split_go (String c "") s acc 0 = [acc +:+ s].
Proof.
  revert acc. induction s as [|d s IH]; intros acc Hc.
  - simpl. by rewrite append_empty_r.
  - cbn [strings.Contains] in Hc. apply orb_false_iff in Hc as [Hp Hc].
    cbn [strings.split_go]. rewrite Hp, (IH _ Hc), append_assoc. done.
Qed.

Lemma Split_absent (c : ascii) s :
  strings.Contains s (String c "") = false ->
  strings.Split s (String c "") = [s].
Proof. intros Hc. unfold strings.Split. by rewrite split_go_absent. Qed.

(** ** The locale parser *)

Section locale.
Context `{GoLibs}.

Lemma parseLocale_direct loc t :
  language_Parse (localeBase loc) = Ok t -> cncdb.parseLocale loc = Ok t.
Proof. unfold cncdb.parseLocale, localeBase. by intros ->. Qed.

Lemma underscore_guard loc : (length (strings.Split loc "_") =? 0)%nat = false.
Proof.
  apply Nat.eqb_neq. pose proof (Split_length_pos loc "_" ltac:(done)). lia.
Qed.

(** After a failed direct parse the outcome is decided by the components
    of the whole locale between underscores. *)
Lemma parseLocale_fallback loc e :
  language_Parse (localeBase loc) = Err e ->
  cncdb.parseLocale loc =
    if (length (strings.Split loc "_") =? 2)%nat
    then language_Parse (hd "" (strings.Split loc "_"))
    else Err ("unable to parse locale " +:+ loc).
Proof.
  intros He. unfold cncdb.parseLocale. fold (localeBase loc). rewrite He.
  rewrite underscore_guard. by destruct (length (strings.Split loc "_") =? 2)%nat.
Qed.

(** C10. In [parseLocale] the guard [len(tmp) == 0] of the split on "-"
    is false for every input, because a split on "_" has at least one
    component. Hence a locale whose part before the dot fails to parse is
    accepted only if its split on "_" has exactly two components, and a
    locale without any "_" that fails to parse directly is an error. *)
Theorem parseLocale_dash_branch_dead (loc : string) :
  (1 <= length (strings.Split loc "_"))%nat /\
  (length (strings.Split loc "_") =? 0)%nat = false /\
  (forall e t,
     language_Parse (localeBase loc) = Err e ->
     cncdb.parseLocale loc = Ok t ->
     length (strings.Split loc "_") = 2%nat) /\
  (forall e,
     language_Parse (localeBase loc) = Err e ->
     strings.Contains loc "_" = false ->
     cncdb.parseLocale loc = Err ("unable to parse locale " +:+ loc)).
Proof.
  split; [by apply Split_length_pos|].
  split; [apply underscore_guard|].
  split.
  - intros e t He Hok. rewrite (parseLocale_fallback _ _ He) in Hok.
    destruct (length (strings.Split loc "_") =? 2)%nat eqn:E; [|discriminate].
    by apply Nat.eqb_eq.
  - intros e He Hno. rewrite (parseLocale_fallback _ _ He).
    by rewrite (Split_absent "_" loc Hno).
Qed.

(** C8. Whenever the tag library rejects "en_EN" and resolves "en" to a
    tag of base language [en], [parseLocale "en_EN"] returns that tag
    without error; whenever it rejects "xx_YY_ZZ", [parseLocale] returns
    the parse error, the split on "_" having three components. *)
Theorem parseLocale_broken_region (e e' : string) (t : Tag) :
  language_Parse "en_EN" = Err e ->
  language_Parse "en" = Ok t ->
  Tag_Base t = "en" ->
  language_Parse "xx_YY_ZZ" = Err e' ->
  cncdb.parseLocale "en_EN" = Ok t /\
  Tag_Base t = "en" /\
  length (strings.Split "xx_YY_ZZ" "_") = 3%nat /\
  cncdb.parseLocale "xx_YY_ZZ" = Err "unable to parse locale xx_YY_ZZ".
Proof.
  intros Hen Hok Hb Hxx. repeat split; try done.
  - rewrite (parseLocale_fallback "en_EN" e); [|exact Hen]. exact Hok.
  - by rewrite (parseLocale_fallback "xx_YY_ZZ" e').
Qed.

End locale.

Lemma parseLocale_dash_branch_dead_witness :
  cncdb.parseLocale (H := GoModel.libs) "en-EN" = Err "unable to parse locale en-EN".
Proof.
  refine (proj2 (proj2 (proj2
    (parseLocale_dash_branch_dead (H := GoModel.libs) "en-EN")))
    "language: subtag unknown" _ _); reflexivity.
Defined.

Lemma parseLocale_broken_region_witness :
  cncdb.parseLocale (H := GoModel.libs) "en_EN"
    = Ok {| GoModel.base := "en"; GoModel.region := None |} /\
  cncdb.parseLocale (H := GoModel.libs) "xx_YY_ZZ"
    = Err "unable to parse locale xx_YY_ZZ".
Proof.
  pose proof (parseLocale_broken_region (H := GoModel.libs)
    "language: subtag unknown" "language: tag is not well-formed"
    {| GoModel.base := "en"; GoModel.region := None |}
    eq_refl eq_refl eq_refl eq_refl) as (H1 & _ & _ & H2).
  exact (conj H1 H2).
Defined.

(** ** The author list *)

Lemma fold_left_app_flat_map {A B} (f : A -> list B) (l : list A) (init : list B) :
  fold_left (fun acc x => acc ++ f x) l init = init ++ flat_map f l.
Proof.
  revert init. induction l as [|x l IH]; intros init; simpl.
  - by rewrite app_nil_r.
  - by rewrite IH, app_assoc.
Qed.

Lemma authorOfLine_tokens line :
  cnchook.authorOfLine line =
  authorOfTokens (strings.Split (strings.Trim line " ") " ").
Proof.
  unfold cnchook.authorOfLine.
  pose proof (Split_nonempty (strings.Trim line " ") " " ltac:(done)) as Hne.
  destruct (strings.Split (strings.Trim line " ") " ") as [|a [|b r]]; done.
Qed.





Section authors.
Context `{GoLibs}.


End authors.



(** ** Dublin Core descriptions *)

Section dublin_core.
Context `{GoLibs}.

Lemma dcDescriptions_eq data :
  dcDescriptions data = element "cs" (cncdb.DescCS data) ++ element "en" (cncdb.DescEN data).
Proof.
  unfold dcDescriptions, dcOf, cnchook.dcRecordFromData, cnchook.setHeader.
  cbn [oaipmh.OAIPMHRecord.Metadata oaipmh.NewOAIPMHRecord
       cnchook.dcMetadata formats.Description].
  unfold cnchook.dcDescription, element, formats.Add.
  cbn [formats.Description formats.NewDublinCore].
  destruct (sql.Valid (cncdb.DescCS data)), (sql.Valid (cncdb.DescEN data)); done.
Qed.

(** C6 (amended). The Dublin Core record of every record carries, in
    this order, one description tagged [cs] if the Czech description is
    not NULL and one tagged [en] if the English description is not NULL,
    each with the text of the column as it is. So a record whose Czech
    description is NULL and whose English description is not NULL has
    exactly one description element, tagged [en]; and no description
    element is emitted for a NULL column. *)
Theorem dcRecordFromData_descriptions (data : cncdb.DBData) :
  dcDescriptions data =
    element "cs" (cncdb.DescCS data) ++ element "en" (cncdb.DescEN data) /\
  (sql.Valid (cncdb.DescCS data) = false ->
   sql.Valid (cncdb.DescEN data) = true ->
   dcDescriptions data =
     [{| formats.Lang := "en";
         formats.Value := sql.String_ (cncdb.DescEN data) |}]) /\
  (sql.Valid (cncdb.DescCS data) = false ->
   sql.Valid (cncdb.DescEN data) = false ->
   dcDescriptions data = []).
Proof.
  rewrite dcDescriptions_eq. unfold element. split; [done|].
  split; intros -> ->; done.
Qed.

End dublin_core.

Lemma dcRecordFromData_descriptions_witness :
  dcDescriptions (H := GoModel.libs)
    (sampleData "corpus" "Doe" sql.null (sql.text "A corpus") 0) =
    [{| formats.Lang := "en"; formats.Value := "A corpus" |}] /\
  dcDescriptions (H := GoModel.libs)
    (sampleData "corpus" "Doe" sql.null sql.null 0) = [].
Proof.
  split.
  - exact (proj1 (proj2 (dcRecordFromData_descriptions (H := GoModel.libs)
      (sampleData "corpus" "Doe" sql.null (sql.text "A corpus") 0)))
      eq_refl eq_refl).
  - exact (proj2 (proj2 (dcRecordFromData_descriptions (H := GoModel.libs)
      (sampleData "corpus" "Doe" sql.null sql.null 0)))
      eq_refl eq_refl).
Defined.

(** C6, as stated, fails: a Czech description that is the empty string
    (not NULL) is emitted as a blank element before the English one. *)
Lemma dcRecordFromData_blank_description :
  let data := sampleData (H := GoModel.libs) "corpus" "Doe"
                (sql.text "") (sql.text "A corpus") 0 in
  dcDescriptions data =
    [{| formats.Lang := "cs"; formats.Value := "" |};
     {| formats.Lang := "en"; formats.Value := "A corpus" |}] /\
  length (dcDescriptions data) <> 1%nat /\
  In {| formats.Lang := "cs"; formats.Value := "" |} (dcDescriptions data).
Proof.
  split; [reflexivity|]. split; [discriminate|]. left. reflexivity.
Qed.

(** ** Request validation *)

Section validation.
Context `{GoLibs}.

Lemma Has_supplied (q : url.Values) k : url.Has q k = true <-> supplied q k.
Proof.
  unfold url.Has, supplied. destruct (q !! k); split; intros Hx; try done.
  all: first [by eexists | by destruct Hx].
Qed.

Lemma Has_not_supplied (q : url.Values) k : url.Has q k = false <-> ~ supplied q k.
Proof.
  rewrite <- Has_supplied. destruct (url.Has q k); split; intros Hx; try done.
Qed.

Lemma Validate_verbs v : is_ok (oaipmh.Verb.Validate v) = true <-> In v verbs.
Proof.
  unfold oaipmh.Verb.Validate, verbs.
  destruct (String.eqb v oaipmh.VerbGetRecord) eqn:E1;
    [apply String.eqb_eq in E1 as ->; cbn; tauto|].
  destruct (String.eqb v oaipmh.VerbIdentify) eqn:E2;
    [apply String.eqb_eq in E2 as ->; cbn; tauto|].
  destruct (String.eqb v oaipmh.VerbListIdentifiers) eqn:E3;
    [apply String.eqb_eq in E3 as ->; cbn; tauto|].
  destruct (String.eqb v oaipmh.VerbListMetadataFormats) eqn:E4;
    [apply String.eqb_eq in E4 as ->; cbn; tauto|].
  destruct (String.eqb v oaipmh.VerbListRecords) eqn:E5;
    [apply String.eqb_eq in E5 as ->; cbn; tauto|].
  destruct (String.eqb v oaipmh.VerbListSets) eqn:E6;
    [apply String.eqb_eq in E6 as ->; cbn; tauto|].
  apply String.eqb_neq in E1, E2, E3, E4, E5, E6.
  cbn. split; [done|]. intros [|[|[|[|[|[|[]]]]]]]; congruence.
Qed.

Lemma existsb_eqb_In k l : existsb (String.eqb k) l = true <-> In k l.
Proof.
  rewrite existsb_exists. split.
  - intros (x & Hx & E). by apply String.eqb_eq in E as ->.
  - intros Hk. exists k. split; [done|apply String.eqb_refl].
Qed.

(** The allowed set as the code tests it. *)
Lemma ValidateArg_existsb v k :
  In v verbs ->
  oaipmh.Verb.ValidateArg v k =
  existsb (String.eqb k) (oaipmh.ArgVerb :: allowedArgs v).
Proof.
  intros Hv. cbn [In verbs] in Hv.
  destruct Hv as [<-|[<-|[<-|[<-|[<-|[<-|[]]]]]]];
    cbv [oaipmh.Verb.ValidateArg allowedArgs rule grammar find fst snd
         oaipmh.VerbGetRecord oaipmh.VerbIdentify oaipmh.VerbListIdentifiers
         oaipmh.VerbListMetadataFormats oaipmh.VerbListRecords
         oaipmh.VerbListSets];
    repeat match goal with
    | |- context [String.eqb ?x ?y] =>
        lazymatch x with
        | String _ _ => let b := eval vm_compute in (String.eqb x y) in
                        change (String.eqb x y) with b
        end
    end; cbv iota; cbn [existsb]; rewrite ?orb_false_r, ?orb_assoc; reflexivity.
Qed.

Lemma ValidateArg_allowed v k :
  In v verbs ->
  oaipmh.Verb.ValidateArg v k = true <-> k = oaipmh.ArgVerb \/ In k (allowedArgs v).
Proof.
  intros Hv. rewrite (ValidateArg_existsb v k Hv), existsb_eqb_In.
  cbn [In]. split; intros [Hx|Hx]; auto.
Qed.

Lemma reqArgs_table v :
  In v verbs -> oaipmh.Verb.reqArgs v = oaipmh.ArgVerb :: requiredArgs v.
Proof.
  intros Hv. cbn [In verbs] in Hv.
  destruct Hv as [<-|[<-|[<-|[<-|[<-|[<-|[]]]]]]]; reflexivity.
Qed.

Lemma reqArgs_named v arg : In arg (oaipmh.Verb.reqArgs v) -> arg <> "".
Proof.
  unfold oaipmh.Verb.reqArgs.
  destruct (String.eqb v oaipmh.VerbGetRecord);
    [|destruct (String.eqb v oaipmh.VerbListIdentifiers);
      [|destruct (String.eqb v oaipmh.VerbListRecords)]];
    cbn [In app]; intros Hin; intuition (subst; discriminate).
Qed.

(** The argument that [ValidateRequiredArgs] reports is the first one
    of the verb's list that is not supplied. *)
Lemma ValidateRequiredArgs_found v (q : url.Values) :
  match find (fun arg => negb (url.Has q arg)) (oaipmh.Verb.reqArgs v) with
  | Some arg =>
      oaipmh.Verb.ValidateRequiredArgs v q = arg /\ arg <> "" /\
      In arg (oaipmh.Verb.reqArgs v) /\ ~ supplied q arg
  | None =>
      oaipmh.Verb.ValidateRequiredArgs v q = "" /\
      forall arg, In arg (oaipmh.Verb.reqArgs v) -> supplied q arg
  end.
Proof.
  unfold oaipmh.Verb.ValidateRequiredArgs.
  destruct (find _ _) as [arg|] eqn:E.
  - apply find_some in E as [Hin Hno]. apply negb_true_iff in Hno.
    split; [done|]. split; [by eapply reqArgs_named|].
    split; [done|]. by apply Has_not_supplied.
  - split; [done|]. intros arg Hin.
    pose proof (find_none _ _ E arg Hin) as Hx. apply negb_false_iff in Hx.
    by apply Has_supplied.
Qed.

Lemma range_keys_supplied (q : url.Values) k : In k (range_keys q) <-> supplied q k.
Proof.
  unfold supplied. rewrite <- elem_of_dom, <- elem_of_elements, <- list_elem_of_In.
  by rewrite (range_keys_perm q).
Qed.

End validation.

Section validation_main.
Context `{GoLibs}.
Variable a : oaipmh.VLOHandler.t.
Variable now : Time.
Variable OAIURL : string.
Hypothesis HJoin : url_JoinPath (oaipmh.VLOHandler.basePath a) "oai" = Ok OAIURL.

Lemma rejected_rejects q req code message :
  oaipmh.VLOHandler.getReqResp a now q =
    oaipmh.VLOHandler.rejected now req code message ->
  rejects a now q code message.
Proof.
  intros E. unfold rejects. unfold oaipmh.VLOHandler.rejected in E.
  eexists _, _. split; [exact E|]. split; [reflexivity|]. split; [reflexivity|].
  unfold oaipmh.VLOHandler.HandleOAIGet. rewrite E. reflexivity.
Qed.

Lemma rejected_not_accepted q req code message :
  oaipmh.VLOHandler.getReqResp a now q =
    oaipmh.VLOHandler.rejected now req code message ->
  ~ accepted a now q.
Proof.
  intros E (req' & resp' & E' & Herr). rewrite E in E'.
  unfold oaipmh.VLOHandler.rejected in E'. injection E' as _ <-.
  discriminate Herr.
Qed.

Lemma getReqResp_path q : Path a now OAIURL q.
Proof.
  pose proof (ValidateRequiredArgs_found (url.Get q oaipmh.ArgVerb) q) as Hreq.
  destruct (url.Has q oaipmh.ArgVerb) eqn:Hverb.
  2:{ apply NoVerb; [by apply Has_not_supplied|].
      unfold oaipmh.VLOHandler.getReqResp. by rewrite HJoin, Hverb. }
  apply Has_supplied in Hverb as Hsup.
  destruct (oaipmh.Verb.Validate (url.Get q oaipmh.ArgVerb)) as [[]|e] eqn:Hval.
  2:{ apply BadVerb; [done| |].
      - rewrite <- Validate_verbs, Hval. done.
      - unfold oaipmh.VLOHandler.getReqResp, oaipmh.getTypedArg.
        by rewrite HJoin, Hverb, Hval. }
  assert (Hin : In (url.Get q oaipmh.ArgVerb) verbs)
    by (apply Validate_verbs; by rewrite Hval).
  rewrite (reqArgs_table _ Hin) in Hreq.
  destruct (find _ (oaipmh.ArgVerb :: requiredArgs _)) as [arg|] eqn:Hfind.
  { destruct Hreq as (Harg & Hne & Hmem & Hno).
    destruct Hmem as [<-|Hmem]; [done|].
    apply (MissingArg a now OAIURL q arg); try done.
    unfold oaipmh.VLOHandler.getReqResp, oaipmh.getTypedArg.
    rewrite HJoin, Hverb, Hval, Harg. cbn [negb].
    apply String.eqb_neq in Hne. by rewrite Hne. }
  destruct Hreq as [Harg Hall].
  destruct (find (fun k => negb (oaipmh.Verb.ValidateArg (url.Get q oaipmh.ArgVerb) k))
                 (range_keys q)) as [k|] eqn:Hk.
  { apply find_some in Hk as Hk'. destruct Hk' as [Hmem Hbad].
    apply negb_true_iff in Hbad.
    apply (InvalidArg a now OAIURL q k); try done.
    - intros arg Hi. apply Hall. by right.
    - by apply range_keys_supplied.
    - rewrite <- (ValidateArg_allowed _ k Hin), Hbad. done.
    - unfold oaipmh.VLOHandler.getReqResp, oaipmh.getTypedArg.
      by rewrite HJoin, Hverb, Hval, Harg, Hk. }
  apply Grammatical.
  - split; [done|]. split; [done|]. split.
    + intros arg Hi. apply Hall. by right.
    + intros k Hs. apply (ValidateArg_allowed _ k Hin).
      apply range_keys_supplied in Hs.
      pose proof (find_none _ _ Hk k Hs) as Hx. by apply negb_false_iff in Hx.
  - unfold oaipmh.VLOHandler.getReqResp, oaipmh.getTypedArg.
    by rewrite HJoin, Hverb, Hval, Harg, Hk.
Qed.

(** C1 (amended). With a base path that joins, validation succeeds, with
    a typed request and an empty error list, exactly for the parameter
    maps that satisfy the grammar (verb supplied, one of the six verbs,
    required arguments supplied, supplied arguments allowed) and whose
    [from] and [until] values parse. The first violated check of the
    grammar, in the order missing verb, unknown verb, missing required
    argument, disallowed argument, yields exactly one error, [badVerb]
    for the unknown verb and [badArgument] naming the argument otherwise,
    written with status 400 with no dispatch, no call of the hook and no
    query of the repository. *)
Theorem getReqResp_grammar (q : url.Values) :
  (accepted a now q <->
     wellFormed q /\
     is_ok (oaipmh.VLOHandler.parseFrom q) = true /\
     is_ok (oaipmh.VLOHandler.parseUntil q) = true) /\
  (~ supplied q oaipmh.ArgVerb ->
     rejects a now q oaipmh.ErrorCodeBadArgument
       "Missing required argument `verb`") /\
  (supplied q oaipmh.ArgVerb -> ~ In (url.Get q oaipmh.ArgVerb) verbs ->
     rejects a now q oaipmh.ErrorCodeBadVerb
       ("Invalid verb `" +:+ url.Get q oaipmh.ArgVerb +:+ "`")) /\
  (supplied q oaipmh.ArgVerb -> In (url.Get q oaipmh.ArgVerb) verbs ->
   ~ (forall arg, In arg (requiredArgs (url.Get q oaipmh.ArgVerb)) -> supplied q arg) ->
     exists arg,
       In arg (requiredArgs (url.Get q oaipmh.ArgVerb)) /\ ~ supplied q arg /\
       rejects a now q oaipmh.ErrorCodeBadArgument
         ("Missing required argument `" +:+ arg +:+ "` for verb `" +:+
          url.Get q oaipmh.ArgVerb +:+ "`")) /\
  (supplied q oaipmh.ArgVerb -> In (url.Get q oaipmh.ArgVerb) verbs ->
   (forall arg, In arg (requiredArgs (url.Get q oaipmh.ArgVerb)) -> supplied q arg) ->
   ~ (forall k, supplied q k ->
        k = oaipmh.ArgVerb \/ In k (allowedArgs (url.Get q oaipmh.ArgVerb))) ->
     exists k,
       supplied q k /\
       ~ (k = oaipmh.ArgVerb \/ In k (allowedArgs (url.Get q oaipmh.ArgVerb))) /\
       rejects a now q oaipmh.ErrorCodeBadArgument
         ("Invalid argument `" +:+ k +:+ "` for verb `" +:+
          url.Get q oaipmh.ArgVerb +:+ "`")).
Proof.
  destruct (getReqResp_path q) as [Hno E|Hs Hbad E|arg Hs Hin Harg Hno E
                                  |k Hs Hin Hall Hk Hbad E|Hwf E].
  - pose proof (rejected_rejects _ _ _ _ E) as R.
    pose proof (rejected_not_accepted _ _ _ _ E) as N.
    split; [split; [done|intros ([] & _); done]|].
    repeat split; try done.
  - pose proof (rejected_rejects _ _ _ _ E) as R.
    pose proof (rejected_not_accepted _ _ _ _ E) as N.
    split; [split; [done|intros ((_ & ? & _) & _); done]|].
    repeat split; try done.
  - pose proof (rejected_rejects _ _ _ _ E) as R.
    pose proof (rejected_not_accepted _ _ _ _ E) as N.
    split; [split; [done|intros ((_ & _ & Hr & _) & _); by destruct Hno; apply Hr]|].
    split; [done|]. split; [done|]. split.
    + intros _ _ _. by exists arg.
    + intros _ _ Hall. destruct Hno. by apply Hall.
  - pose proof (rejected_rejects _ _ _ _ E) as R.
    pose proof (rejected_not_accepted _ _ _ _ E) as N.
    split; [split; [done|intros ((_ & _ & _ & Hr) & _); by destruct Hbad; apply Hr]|].
    split; [done|]. split; [done|]. split; [done|].
    intros _ _ _ _. by exists k.
  - destruct Hwf as (Hs & Hin & Hall & Hkeys).
    split.
    + unfold accepted. rewrite E.
      destruct (oaipmh.VLOHandler.parseFrom q) as [from|e1];
        [destruct (oaipmh.VLOHandler.parseUntil q) as [until|e2]|].
      * split; [done|]. intros _. by eexists _, _.
      * split; [intros (? & ? & ? & _); done|intros (_ & _ & ?); done].
      * split; [intros (? & ? & ? & _); done|intros (_ & ? & _); done].
    + repeat split; done.
Qed.

End validation_main.

Lemma wellFormedb_sound q : wellFormedb q = true -> wellFormed q.
Proof.
  unfold wellFormedb. rewrite !andb_true_iff.
  intros (((Hv & Hin) & Hreq) & Hall).
  split; [by apply Has_supplied|]. split; [by apply existsb_eqb_In|]. split.
  - intros arg Hi. apply Has_supplied.
    rewrite forallb_forall in Hreq. by apply Hreq.
  - intros k Hk. rewrite forallb_forall in Hall.
    assert (Hi : In k (elements (dom q))).
    { apply list_elem_of_In, elem_of_elements, elem_of_dom. exact Hk. }
    specialize (Hall k Hi). apply orb_true_iff in Hall as [E|E].
    + left. by apply String.eqb_eq.
    + right. by apply existsb_eqb_In.
Qed.

(** C1, as stated, fails: a grammatical request with a [from] value that
    is no date is not validated; [getReqResp] returns an error instead
    of a request and a response. *)
Lemma grammatical_request_not_validated :
  let q := Sample.query [("verb", "ListRecords"); ("metadataPrefix", "oai_dc");
                         ("from", "yesterday")] in
  wellFormed q /\
  ~ accepted (H := GoModel.libs) Sample.handler 0 q /\
  is_ok (oaipmh.VLOHandler.getReqResp (H := GoModel.libs) Sample.handler 0 q) = false.
Proof.
  intros q.
  assert (E : is_ok (oaipmh.VLOHandler.getReqResp (H := GoModel.libs)
                       Sample.handler 0 q) = false) by (vm_compute; reflexivity).
  split; [apply wellFormedb_sound; vm_compute; reflexivity|].
  split; [|exact E].
  intros (req & resp & E' & _). rewrite E' in E. discriminate E.
Qed.

Lemma getReqResp_grammar_witness :
  accepted (H := GoModel.libs) Sample.handler 0
    (Sample.query [("verb", "GetRecord"); ("identifier", "7");
                   ("metadataPrefix", "oai_dc")]) /\
  rejects (H := GoModel.libs) Sample.handler 0 (Sample.query [("set", "a")])
    "badArgument" "Missing required argument `verb`" /\
  rejects (H := GoModel.libs) Sample.handler 0 (Sample.query [("verb", "Harvest")])
    "badVerb" "Invalid verb `Harvest`" /\
  (exists arg,
     rejects (H := GoModel.libs) Sample.handler 0
       (Sample.query [("verb", "GetRecord"); ("metadataPrefix", "oai_dc")])
       "badArgument"
       ("Missing required argument `" +:+ arg +:+ "` for verb `GetRecord`")) /\
  (exists k,
     rejects (H := GoModel.libs) Sample.handler 0
       (Sample.query [("verb", "ListSets"); ("identifier", "7")])
       "badArgument" ("Invalid argument `" +:+ k +:+ "` for verb `ListSets`")).
Proof.
  pose (G := getReqResp_grammar (H := GoModel.libs) Sample.handler 0
               "https://vlo.example.org/oai" eq_refl).
  split; [|split; [|split; [|split]]].
  - apply (proj2 (proj1 (G _))).
    split; [apply wellFormedb_sound; vm_compute; reflexivity|].
    split; vm_compute; reflexivity.
  - apply (proj1 (proj2 (G _))).
    intros [x Hx]. vm_compute in Hx. discriminate Hx.
  - apply (proj1 (proj2 (proj2 (G (Sample.query [("verb", "Harvest")]))))).
    + exists ["Harvest"]. vm_compute. reflexivity.
    + vm_compute. intuition discriminate.
  - destruct (proj1 (proj2 (proj2 (proj2 (G
        (Sample.query [("verb", "GetRecord"); ("metadataPrefix", "oai_dc")]))))))
      as (arg & _ & _ & R).
    + exists ["GetRecord"]. vm_compute. reflexivity.
    + vm_compute. tauto.
    + intros Hall. destruct (Hall "identifier") as [x Hx].
      * vm_compute. tauto.
      * vm_compute in Hx. discriminate Hx.
    + exists arg. exact R.
  - destruct (proj2 (proj2 (proj2 (proj2 (G
        (Sample.query [("verb", "ListSets"); ("identifier", "7")]))))))
      as (k & _ & _ & R).
    + exists ["ListSets"]. vm_compute. reflexivity.
    + vm_compute. tauto.
    + intros arg Hi. vm_compute in Hi. destruct Hi.
    + intros Hall. destruct (Hall "identifier") as [E|E].
      * exists ["7"]. vm_compute. reflexivity.
      * discriminate E.
      * vm_compute in E. intuition discriminate.
    + exists k. exact R.
Defined.

(** ** The response envelope *)



Lemma Errors_set_Errors r e :
  oaipmh.OAIPMHResponse.Errors (oaipmh.OAIPMHResponse.set_Errors r e) = e.
Proof. reflexivity. Qed.


Lemma value_bind {A B} (c : M A) (k : A -> M B) :
  value (bind c k) = value (k (value c)).
Proof. unfold value, bind. destruct c as [t x]. cbn. by destruct (k x). Qed.

Lemma trace_bind {A B} (c : M A) (k : A -> M B) :
  trace (bind c k) = trace c ++ trace (k (value c)).
Proof. unfold value, trace, bind. destruct c as [t x]. cbn. by destruct (k x). Qed.

Lemma value_ret {A} (x : A) : value (ret x) = x.
Proof. reflexivity. Qed.

Lemma trace_ret {A} (x : A) : trace (ret x) = [].
Proof. reflexivity. Qed.

Ltac step_handler :=
  unfold mbind, M_bind, mret, M_ret;
  rewrite ?value_bind, ?trace_bind, ?value_ret, ?trace_ret.

Section envelope.
Variable a : oaipmh.VLOHandler.t.
Variable now : Time.



End envelope.

Section envelope_main.
Context `{GoLibs}.
Variable a : oaipmh.VLOHandler.t.
Variable now : Time.




End envelope_main.


(** ** Preconditions of the dispatcher *)

(** Decide the comparisons of two literal strings in the goal. *)
Ltac decide_literals :=
  repeat match goal with
  | |- context [String.eqb ?x ?y] =>
      let b := eval vm_compute in (String.eqb x y) in
      lazymatch b with
      | true => change (String.eqb x y) with true
      | false => change (String.eqb x y) with false
      end
  end.

(** Each listing of the hook is one query of the repository. *)
Lemma CNCHook_listing_queries `{GoLibs} (c : cnchook.CNCHook) req :
  cnchook.SupportsSets = false /\
  trace (cnchook.ListRecords c req) =
    [EvRepo (QListRecordInfo (oaipmh.OAIPMHRequest.From req)
                             (oaipmh.OAIPMHRequest.Until req))] /\
  trace (cnchook.ListIdentifiers c req) =
    [EvRepo (QListRecordInfo (oaipmh.OAIPMHRequest.From req)
                             (oaipmh.OAIPMHRequest.Until req))].
Proof.
  split; [reflexivity|].
  unfold cnchook.ListRecords, cnchook.ListIdentifiers, cncdb.ListRecordInfo.
  step_handler. split; reflexivity.
Qed.

Section dispatch.
Context `{GoLibs}.
Variable a : oaipmh.VLOHandler.t.
Variable now : Time.

(** A validated request is the parameter map, field by field. *)
Lemma getReqResp_fields q req resp :
  oaipmh.VLOHandler.getReqResp a now q = Ok (req, resp) ->
  oaipmh.OAIPMHResponse.Errors resp = [] ->
  resp = oaipmh.NewOAIPMHResponse now req /\
  oaipmh.OAIPMHRequest.Verb req = url.Get q oaipmh.ArgVerb /\
  oaipmh.OAIPMHRequest.MetadataPrefix req = url.Get q oaipmh.ArgMetadataPrefix /\
  oaipmh.OAIPMHRequest.Identifier req = url.Get q oaipmh.ArgIdentifier /\
  oaipmh.OAIPMHRequest.Set_ req = url.Get q oaipmh.ArgSet /\
  oaipmh.VLOHandler.parseFrom q = Ok (oaipmh.OAIPMHRequest.From req) /\
  oaipmh.VLOHandler.parseUntil q = Ok (oaipmh.OAIPMHRequest.Until req) /\
  oaipmh.VLOHandler.HandleOAIGet a now q =
    oaipmh.VLOHandler.handleRequest a req (oaipmh.NewOAIPMHResponse now req).
Proof.
  intros E Herr.
  assert (Hget : oaipmh.VLOHandler.HandleOAIGet a now q =
                 oaipmh.VLOHandler.handleRequest a req resp).
  { unfold oaipmh.VLOHandler.HandleOAIGet. by rewrite E, Herr. }
  revert E. unfold oaipmh.VLOHandler.getReqResp, oaipmh.VLOHandler.rejected.
  destruct (url_JoinPath _ _); [|done].
  destruct (negb (url.Has q oaipmh.ArgVerb));
    [intros [= <- <-]; discriminate Herr|].
  destruct (oaipmh.Verb.Validate _);
    [|intros [= <- <-]; discriminate Herr].
  destruct (negb (String.eqb _ ""));
    [intros [= <- <-]; discriminate Herr|].
  destruct (find _ _);
    [intros [= <- <-]; discriminate Herr|].
  destruct (oaipmh.VLOHandler.parseFrom q); [|done].
  destruct (oaipmh.VLOHandler.parseUntil q); [|done].
  intros [= <- <-]. repeat split; try done.
Qed.

Lemma handleRequest_ListRecords req :
  oaipmh.OAIPMHRequest.Verb req = oaipmh.VerbListRecords ->
  oaipmh.VLOHandler.handleRequest a req (oaipmh.NewOAIPMHResponse now req) =
    if negb (supportedPrefix a req) then ([EvDispatch], unknownFormat now req)
    else if negb (String.eqb (oaipmh.OAIPMHRequest.Set_ req) "") &&
            negb (oaipmh.VLOHook.SupportsSets (oaipmh.VLOHandler.hook a))
    then ([EvDispatch],
          oaipmh.VLOHandler.refuse (oaipmh.NewOAIPMHResponse now req)
            oaipmh.ErrorCodeNoSetHierarchy "Sets functionality not implemented"
            http.StatusNotImplemented)
    else
      let c := oaipmh.VLOHook.ListRecords (oaipmh.VLOHandler.hook a) req in
      (EvDispatch :: EvHook MListRecords :: trace c,
       listRecordsReply now req (value c)).
Proof.
  intros Hv. unfold oaipmh.VLOHandler.handleRequest, supportedPrefix.
  rewrite Hv. cbv zeta. decide_literals. cbv iota.
  destruct (negb (oaipmh.SliceContains _ _)); [reflexivity|].
  destruct (_ && _); [reflexivity|].
  destruct (oaipmh.VLOHook.ListRecords _ _) as [t ans].
  unfold mbind, M_bind, mret, M_ret, bind, ret, tell. cbn [app trace value fst snd].
  by rewrite app_nil_r.
Qed.

Lemma handleRequest_ListIdentifiers req :
  oaipmh.OAIPMHRequest.Verb req = oaipmh.VerbListIdentifiers ->
  oaipmh.VLOHandler.handleRequest a req (oaipmh.NewOAIPMHResponse now req) =
    if negb (supportedPrefix a req) then ([EvDispatch], unknownFormat now req)
    else if negb (String.eqb (oaipmh.OAIPMHRequest.Set_ req) "") &&
            negb (oaipmh.VLOHook.SupportsSets (oaipmh.VLOHandler.hook a))
    then ([EvDispatch],
          oaipmh.VLOHandler.refuse (oaipmh.NewOAIPMHResponse now req)
            oaipmh.ErrorCodeNoSetHierarchy "Sets functionality not implemented"
            http.StatusNotImplemented)
    else
      let c := oaipmh.VLOHook.ListIdentifiers (oaipmh.VLOHandler.hook a) req in
      (EvDispatch :: EvHook MListIdentifiers :: trace c,
       listIdentifiersReply now req (value c)).
Proof.
  intros Hv. unfold oaipmh.VLOHandler.handleRequest, supportedPrefix.
  rewrite Hv. cbv zeta. decide_literals. cbv iota.
  destruct (negb (oaipmh.SliceContains _ _)); [reflexivity|].
  destruct (_ && _); [reflexivity|].
  destruct (oaipmh.VLOHook.ListIdentifiers _ _) as [t ans].
  unfold mbind, M_bind, mret, M_ret, bind, ret, tell. cbn [app trace value fst snd].
  by rewrite app_nil_r.
Qed.

(** C9. A validated ListRecords or ListIdentifiers request whose [set]
    parameter is supplied with the empty value goes past the set check,
    whether or not the hook supports sets: with a supported metadata
    prefix the dispatcher calls the operation of the hook and the reply
    is built from its wrapper alone. With an unsupported prefix the
    reply is [cannotDisseminateFormat] with status 400, whatever the
    [set] value: the format check precedes the set check. The hook of the
    corpus does not support sets, and its two listings query the
    repository once. *)
Theorem empty_set_passes_set_check q req resp :
  oaipmh.VLOHandler.getReqResp a now q = Ok (req, resp) ->
  oaipmh.OAIPMHResponse.Errors resp = [] ->
  supplied q oaipmh.ArgSet ->
  url.Get q oaipmh.ArgSet = "" ->
  (oaipmh.OAIPMHRequest.Verb req = oaipmh.VerbListRecords ->
   oaipmh.VLOHandler.HandleOAIGet a now q =
     if supportedPrefix a req then
       let c := oaipmh.VLOHook.ListRecords (oaipmh.VLOHandler.hook a) req in
       (EvDispatch :: EvHook MListRecords :: trace c,
        listRecordsReply now req (value c))
     else ([EvDispatch], unknownFormat now req)) /\
  (oaipmh.OAIPMHRequest.Verb req = oaipmh.VerbListIdentifiers ->
   oaipmh.VLOHandler.HandleOAIGet a now q =
     if supportedPrefix a req then
       let c := oaipmh.VLOHook.ListIdentifiers (oaipmh.VLOHandler.hook a) req in
       (EvDispatch :: EvHook MListIdentifiers :: trace c,
        listIdentifiersReply now req (value c))
     else ([EvDispatch], unknownFormat now req)) /\
  (forall req',
     oaipmh.OAIPMHRequest.Verb req' = oaipmh.VerbListRecords \/
     oaipmh.OAIPMHRequest.Verb req' = oaipmh.VerbListIdentifiers ->
     supportedPrefix a req' = false ->
     oaipmh.VLOHandler.handleRequest a req' (oaipmh.NewOAIPMHResponse now req') =
       ([EvDispatch], unknownFormat now req')) /\
  (forall c : cnchook.CNCHook,
     oaipmh.VLOHandler.hook a = cnchook.asVLOHook c ->
     oaipmh.VLOHook.SupportsSets (oaipmh.VLOHandler.hook a) = false /\
     trace (oaipmh.VLOHook.ListRecords (oaipmh.VLOHandler.hook a) req) =
       [EvRepo (QListRecordInfo (oaipmh.OAIPMHRequest.From req)
                                (oaipmh.OAIPMHRequest.Until req))] /\
     trace (oaipmh.VLOHook.ListIdentifiers (oaipmh.VLOHandler.hook a) req) =
       [EvRepo (QListRecordInfo (oaipmh.OAIPMHRequest.From req)
                                (oaipmh.OAIPMHRequest.Until req))]).
Proof.
  intros E Herr Hsup Hset.
  destruct (getReqResp_fields q req resp E Herr)
    as (-> & _ & _ & _ & Hs & _ & _ & Hget).
  rewrite Hset in Hs. split; [|split; [|split]]; cycle 3.
  { intros c ->. apply (CNCHook_listing_queries c req). }
  - intros Hv. rewrite Hget, (handleRequest_ListRecords req Hv), Hs.
    by destruct (supportedPrefix a req).
  - intros Hv. rewrite Hget, (handleRequest_ListIdentifiers req Hv), Hs.
    by destruct (supportedPrefix a req).
  - intros req' [Hv|Hv] Hno.
    + by rewrite (handleRequest_ListRecords req' Hv), Hno.
    + by rewrite (handleRequest_ListIdentifiers req' Hv), Hno.
Qed.

End dispatch.

Lemma empty_set_passes_set_check_witness :
  let q := Sample.query [("verb", "ListRecords"); ("metadataPrefix", "oai_dc");
                         ("set", "")] in
  supplied q oaipmh.ArgSet /\
  trace (oaipmh.VLOHandler.HandleOAIGet (H := GoModel.libs) Sample.handler 0 q) =
    [EvDispatch; EvHook MListRecords; EvRepo (QListRecordInfo None None)].
Proof.
  intros q.
  assert (Hs : supplied q oaipmh.ArgSet) by (exists [""]; vm_compute; reflexivity).
  split; [exact Hs|].
  destruct (oaipmh.VLOHandler.getReqResp (H := GoModel.libs) Sample.handler 0 q)
    as [[req resp]|e] eqn:E; [|vm_compute in E; discriminate E].
  assert (Herr : oaipmh.OAIPMHResponse.Errors resp = [])
    by (vm_compute in E; injection E as _ <-; reflexivity).
  assert (Hv : oaipmh.OAIPMHRequest.Verb req = oaipmh.VerbListRecords)
    by (vm_compute in E; injection E as <- _; reflexivity).
  assert (Hp : supportedPrefix Sample.handler req = true)
    by (vm_compute in E; injection E as <- _; reflexivity).
  pose proof (empty_set_passes_set_check (H := GoModel.libs) Sample.handler 0
                q req resp E Herr Hs eq_refl) as (HLR & _ & _ & Hrepo).
  rewrite (HLR Hv), Hp. cbv zeta. cbn [trace fst].
  destruct (Hrepo Sample.hook eq_refl) as (_ & -> & _).
  vm_compute in E. injection E as <- _. reflexivity.
Defined.

(** ** Operations of the hook on missing and empty results *)

Section operations.
Context `{GoLibs}.
Variable c : cnchook.CNCHook.
Variable now : Time.

Lemma handleRequest_GetRecord a req :
  oaipmh.OAIPMHRequest.Verb req = oaipmh.VerbGetRecord ->
  supportedPrefix a req = true ->
  value (oaipmh.VLOHandler.handleRequest a req (oaipmh.NewOAIPMHResponse now req)) =
    let ans := value (oaipmh.VLOHook.GetRecord (oaipmh.VLOHandler.hook a) req) in
    let resp := oaipmh.NewOAIPMHResponse now req in
    oaipmh.VLOHandler.finish
      (if oaipmh.ResultWrapper.NoError ans
       then oaipmh.OAIPMHResponse.set_GetRecord resp (Some (oaipmh.ResultWrapper.Data ans))
       else resp)
      (oaipmh.ResultWrapper.Errors ans) (oaipmh.ResultWrapper.HTTPCode ans).
Proof.
  intros Hv Hp. unfold oaipmh.VLOHandler.handleRequest. unfold supportedPrefix in Hp.
  rewrite Hv, Hp. cbv zeta. decide_literals. cbv iota. cbn [negb].
  step_handler. reflexivity.
Qed.

(** A lookup that finds no row which matches the identifier and is not
    deleted answers "not found", not an error. *)
Lemma GetRecordInfo_no_live_row identifier :
  cncdb.failure (cnchook.db c) = None ->
  (forall r, In r (cncdb.rows (cnchook.db c)) ->
     sql_id_eq (cncdb.ID (cncdb.columns r)) identifier = true ->
     cncdb.deleted r = true) ->
  value (cncdb.GetRecordInfo (cnchook.db c) identifier) = Ok None.
Proof.
  intros Hf Hrows. unfold cncdb.GetRecordInfo. step_handler.
  unfold tell. cbn [value snd]. rewrite Hf.
  assert (E : cncdb.select (cnchook.db c)
            [cncdb.IdIs identifier; cncdb.NotDeleted; cncdb.Visible] = []).
  { unfold cncdb.select. induction (cncdb.rows (cnchook.db c)) as [|r rs IH]; [done|].
    cbn [List.filter forallb cncdb.eval_cond].
    destruct (sql_id_eq _ identifier) eqn:Hid.
    - rewrite (Hrows r (or_introl eq_refl) Hid). cbn [negb andb].
      apply IH. intros r' Hi. apply Hrows. by right.
    - cbn [andb]. apply IH. intros r' Hi. apply Hrows. by right. }
  by rewrite E.
Qed.

(** C4. When the lookup of the repository answers "not found", which it
    does whenever no row matches the identifier and is not deleted,
    [GetRecord] returns exactly one [idDoesNotExist] error with status
    404 and a record without metadata; the dispatcher writes an envelope
    with that error alone and no result field, with status 404, and the
    self link answers the bare status 404 without body. *)
Theorem GetRecord_not_found (req : oaipmh.OAIPMHRequest.t) :
  (cncdb.failure (cnchook.db c) = None ->
   (forall r, In r (cncdb.rows (cnchook.db c)) ->
      sql_id_eq (cncdb.ID (cncdb.columns r)) (oaipmh.OAIPMHRequest.Identifier req) = true ->
      cncdb.deleted r = true) ->
   value (cncdb.GetRecordInfo (cnchook.db c) (oaipmh.OAIPMHRequest.Identifier req))
     = Ok None) /\
  (value (cncdb.GetRecordInfo (cnchook.db c) (oaipmh.OAIPMHRequest.Identifier req))
     = Ok None ->
   let ans := value (cnchook.GetRecord c req) in
   oaipmh.ResultWrapper.Errors ans = notFound req /\
   oaipmh.ResultWrapper.HTTPCode ans = http.StatusNotFound /\
   oaipmh.ResultWrapper.Data ans = oaipmh.OAIPMHRecord.zero /\
   oaipmh.OAIPMHRecord.Metadata (oaipmh.ResultWrapper.Data ans) = None /\
   (forall a,
      oaipmh.VLOHandler.hook a = cnchook.asVLOHook c ->
      oaipmh.OAIPMHRequest.Verb req = oaipmh.VerbGetRecord ->
      supportedPrefix a req = true ->
      value (oaipmh.VLOHandler.handleRequest a req (oaipmh.NewOAIPMHResponse now req))
        = oaipmh.WriteXML http.StatusNotFound (errorEnvelope now req (notFound req))) /\
   (forall a host path format,
      oaipmh.VLOHandler.hook a = cnchook.asVLOHook c ->
      value (oaipmh.VLOHandler.HandleSelfLink a host path
               (oaipmh.OAIPMHRequest.Identifier req) format)
        = oaipmh.AbortWithStatus http.StatusNotFound)).
Proof.
  split; [apply GetRecordInfo_no_live_row|].
  intros Hnone.
  assert (Hans : forall req',
    oaipmh.OAIPMHRequest.Identifier req' = oaipmh.OAIPMHRequest.Identifier req ->
    value (cnchook.GetRecord c req') =
      {| oaipmh.ResultWrapper.Data := oaipmh.OAIPMHRecord.zero;
         oaipmh.ResultWrapper.Errors := notFound req;
         oaipmh.ResultWrapper.HTTPCode := http.StatusNotFound |}).
  { intros req' Hid. unfold cnchook.GetRecord. cbv zeta. step_handler.
    rewrite Hid, Hnone. reflexivity. }
  cbv zeta. rewrite (Hans req eq_refl).
  split; [done|]. split; [done|]. split; [done|]. split; [done|]. split.
  - intros a Ha Hv Hp. rewrite (handleRequest_GetRecord a req Hv Hp).
    rewrite Ha. cbn [oaipmh.VLOHook.GetRecord cnchook.asVLOHook].
    rewrite (Hans req eq_refl). reflexivity.
  - intros a host path format Ha. unfold oaipmh.VLOHandler.HandleSelfLink.
    cbv zeta. step_handler. rewrite Ha.
    cbn [oaipmh.VLOHook.GetRecord cnchook.asVLOHook].
    rewrite Hans; [reflexivity|reflexivity].
Qed.

(** C5. When the listing of the repository returns no record, both
    [ListRecords] and [ListIdentifiers] return the wrapper with the one
    error [noRecordsMatch], the status left at 200 and an empty list;
    for a request with a supported prefix and no set the dispatcher
    writes an envelope with that error alone, with status 200. *)
Theorem listing_no_records (req : oaipmh.OAIPMHRequest.t) :
  value (cncdb.ListRecordInfo (cnchook.db c) (oaipmh.OAIPMHRequest.From req)
                              (oaipmh.OAIPMHRequest.Until req)) = Ok [] ->
  value (cnchook.ListRecords c req) =
    {| oaipmh.ResultWrapper.Data := [];
       oaipmh.ResultWrapper.Errors := noRecords;
       oaipmh.ResultWrapper.HTTPCode := http.StatusOK |} /\
  value (cnchook.ListIdentifiers c req) =
    {| oaipmh.ResultWrapper.Data := [];
       oaipmh.ResultWrapper.Errors := noRecords;
       oaipmh.ResultWrapper.HTTPCode := http.StatusOK |} /\
  (forall a,
     oaipmh.VLOHandler.hook a = cnchook.asVLOHook c ->
     supportedPrefix a req = true ->
     oaipmh.OAIPMHRequest.Set_ req = "" ->
     oaipmh.OAIPMHRequest.Verb req = oaipmh.VerbListRecords \/
     oaipmh.OAIPMHRequest.Verb req = oaipmh.VerbListIdentifiers ->
     value (oaipmh.VLOHandler.handleRequest a req (oaipmh.NewOAIPMHResponse now req))
       = oaipmh.WriteXML http.StatusOK (errorEnvelope now req noRecords)).
Proof.
  intros Hnone.
  assert (HLR : value (cnchook.ListRecords c req) =
    {| oaipmh.ResultWrapper.Data := [];
       oaipmh.ResultWrapper.Errors := noRecords;
       oaipmh.ResultWrapper.HTTPCode := http.StatusOK |}).
  { unfold cnchook.ListRecords. cbv zeta. step_handler. by rewrite Hnone. }
  assert (HLI : value (cnchook.ListIdentifiers c req) =
    {| oaipmh.ResultWrapper.Data := [];
       oaipmh.ResultWrapper.Errors := noRecords;
       oaipmh.ResultWrapper.HTTPCode := http.StatusOK |}).
  { unfold cnchook.ListIdentifiers. cbv zeta. step_handler. by rewrite Hnone. }
  split; [exact HLR|]. split; [exact HLI|].
  intros a Ha Hp Hs [Hv|Hv].
  - rewrite (handleRequest_ListRecords a now req Hv), Hp, Hs, Ha.
    cbn [negb String.eqb andb value snd oaipmh.VLOHook.ListRecords cnchook.asVLOHook].
    unfold listRecordsReply. rewrite HLR. reflexivity.
  - rewrite (handleRequest_ListIdentifiers a now req Hv), Hp, Hs, Ha.
    cbn [negb String.eqb andb value snd oaipmh.VLOHook.ListIdentifiers
         cnchook.asVLOHook].
    unfold listIdentifiersReply. rewrite HLI. reflexivity.
Qed.

End operations.

Lemma GetRecord_not_found_witness :
  let req :=
    {| oaipmh.OAIPMHRequest.URL := "https://vlo.example.org/oai";
       oaipmh.OAIPMHRequest.Verb := "GetRecord";
       oaipmh.OAIPMHRequest.Identifier := "8";
       oaipmh.OAIPMHRequest.MetadataPrefix := "oai_dc";
       oaipmh.OAIPMHRequest.From := None; oaipmh.OAIPMHRequest.Until := None;
       oaipmh.OAIPMHRequest.Set_ := ""; oaipmh.OAIPMHRequest.ResumptionToken := "" |} in
  value (oaipmh.VLOHandler.handleRequest Sample.handler req
           (oaipmh.NewOAIPMHResponse 0 req)) =
    oaipmh.WriteXML 404 (errorEnvelope 0 req (notFound req)) /\
  value (oaipmh.VLOHandler.HandleSelfLink Sample.handler "vlo.example.org"
           "/record/8" "8" None) = oaipmh.AbortWithStatus 404.
Proof.
  intros req.
  destruct (GetRecord_not_found (H := GoModel.libs) Sample.hook 0 req)
    as [Hlookup Hop].
  assert (Hnone : value (cncdb.GetRecordInfo (cnchook.db Sample.hook)
                           (oaipmh.OAIPMHRequest.Identifier req)) = Ok None).
  { apply Hlookup; [reflexivity|].
    intros r [<-|[<-|[]]]; vm_compute; intros E; [discriminate E|reflexivity]. }
  destruct (Hop Hnone) as (_ & _ & _ & _ & Hdisp & Hself).
  split.
  - exact (Hdisp Sample.handler eq_refl eq_refl eq_refl).
  - exact (Hself Sample.handler "vlo.example.org" "/record/8" None eq_refl).
Defined.

Lemma listing_no_records_witness :
  let req :=
    {| oaipmh.OAIPMHRequest.URL := "https://vlo.example.org/oai";
       oaipmh.OAIPMHRequest.Verb := "ListRecords";
       oaipmh.OAIPMHRequest.Identifier := "";
       oaipmh.OAIPMHRequest.MetadataPrefix := "oai_dc";
       oaipmh.OAIPMHRequest.From := Some (Sample.midnight_2024_01_16 + 1);
       oaipmh.OAIPMHRequest.Until := None;
       oaipmh.OAIPMHRequest.Set_ := ""; oaipmh.OAIPMHRequest.ResumptionToken := "" |} in
  value (oaipmh.VLOHandler.handleRequest Sample.handler req
           (oaipmh.NewOAIPMHResponse 0 req)) =
    oaipmh.WriteXML 200 (errorEnvelope 0 req noRecords).
Proof.
  intros req.
  assert (Hnone :
    value (cncdb.ListRecordInfo (cnchook.db Sample.hook)
             (oaipmh.OAIPMHRequest.From req) (oaipmh.OAIPMHRequest.Until req))
      = Ok []) by reflexivity.
  pose proof (listing_no_records (H := GoModel.libs) Sample.hook 0 req Hnone)
    as Hthm.
  exact (proj2 (proj2 Hthm) Sample.handler eq_refl eq_refl eq_refl
           (or_introl eq_refl)).
Defined.

(** ** The upper bound of selective harvesting *)

Section until.
Context `{GoLibs}.

(** C3. An [until] value that is a bare date parses to the start of the
    date plus 24 hours, the same bound as a full timestamp of the next
    midnight; the WHERE clause compares with [<=], so a record last
    modified exactly at that midnight satisfies the bound and is
    listed. *)
Theorem until_bare_date_bound (q : url.Values) (d : string) (t : Time) :
  url.Get q oaipmh.ArgUntil = d ->
  d <> "" ->
  strings.Contains d "T" = false ->
  time_Parse time.DateOnly d = Ok t ->
  oaipmh.VLOHandler.parseUntil q = Ok (Some (t + 24 * time.Hour)) /\
  (forall q',
     url.Get q' oaipmh.ArgUntil <> "" ->
     strings.Contains (url.Get q' oaipmh.ArgUntil) "T" = true ->
     time_Parse time.RFC3339 (url.Get q' oaipmh.ArgUntil) = Ok (t + 24 * time.Hour) ->
     oaipmh.VLOHandler.parseUntil q' = oaipmh.VLOHandler.parseUntil q) /\
  (forall from (db : cncdb.CNCMySQLHandler) (r : cncdb.SQLRow),
     In r (cncdb.rows db) ->
     forallb (cncdb.eval_cond r) (cncdb.whereClause from None) = true ->
     cncdb.Date (cncdb.columns r) = t + 24 * time.Hour ->
     In r (cncdb.select db (cncdb.whereClause from (Some (t + 24 * time.Hour))))).
Proof.
  intros Hd Hne HT Hp.
  assert (E : oaipmh.VLOHandler.parseUntil q = Ok (Some (t + 24 * time.Hour))).
  { unfold oaipmh.VLOHandler.parseUntil, oaipmh.getTypedArg. rewrite Hd.
    apply String.eqb_neq in Hne. rewrite Hne, HT, Hp. reflexivity. }
  split; [exact E|]. split.
  - intros q' Hne' HT' Hp'. rewrite E.
    unfold oaipmh.VLOHandler.parseUntil, oaipmh.getTypedArg.
    apply String.eqb_neq in Hne'. rewrite Hne', HT', Hp'. reflexivity.
  - intros from db r Hin Hrest Hdate. unfold cncdb.select.
    apply filter_In. split; [exact Hin|].
    unfold cncdb.whereClause in *. rewrite app_nil_r in Hrest.
    rewrite app_assoc, forallb_app, Hrest.
    cbn [forallb cncdb.eval_cond andb]. rewrite Hdate, andb_true_r.
    apply Z.leb_refl.
Qed.

End until.

Lemma until_bare_date_bound_witness :
  let q := Sample.query [("verb", "ListRecords"); ("metadataPrefix", "oai_dc");
                         ("until", "2024-01-15")] in
  let q' := Sample.query [("verb", "ListRecords"); ("metadataPrefix", "oai_dc");
                          ("until", "2024-01-16T00:00:00Z")] in
  oaipmh.VLOHandler.parseUntil (H := GoModel.libs) q =
    Ok (Some Sample.midnight_2024_01_16) /\
  oaipmh.VLOHandler.parseUntil (H := GoModel.libs) q' =
    oaipmh.VLOHandler.parseUntil (H := GoModel.libs) q /\
  In (Sample.row 7 Sample.midnight_2024_01_16 false)
     (cncdb.select Sample.db
        (cncdb.whereClause None (Some Sample.midnight_2024_01_16))) /\
  match value (oaipmh.VLOHandler.HandleOAIGet (H := GoModel.libs) Sample.handler 0 q) with
  | oaipmh.WriteXML 200 (oaipmh.XMLEnvelope resp) =>
      oaipmh.OAIPMHResponse.Errors resp = [] /\
      option_map (map (fun r => option_map oaipmh.OAIPMHRecordHeader.Identifier
                                  (oaipmh.OAIPMHRecord.Header r)))
                 (oaipmh.OAIPMHResponse.ListRecords resp) = Some [Some "7"]
  | _ => False
  end.
Proof.
  intros q q'.
  destruct (until_bare_date_bound (H := GoModel.libs) q "2024-01-15"
              (1705276800 * time.Second) eq_refl ltac:(discriminate) eq_refl eq_refl)
    as (H1 & H2 & H3).
  split; [exact H1|]. split.
  - apply (H2 q'); [discriminate|reflexivity|reflexivity].
  - split.
    + apply (H3 None Sample.db (Sample.row 7 Sample.midnight_2024_01_16 false));
        [left; reflexivity|reflexivity|reflexivity].
    + vm_compute. split; reflexivity.
Defined.

(** * Further properties of the code *)

(** ** The dispatcher, verb by verb *)

Section dispatcher_cases.
Variable a : oaipmh.VLOHandler.t.
Variable now : Time.

Lemma handleRequest_Identify req :
  oaipmh.OAIPMHRequest.Verb req = oaipmh.VerbIdentify ->
  oaipmh.VLOHandler.handleRequest a req (oaipmh.NewOAIPMHResponse now req) =
    let c := oaipmh.VLOHook.Identify (oaipmh.VLOHandler.hook a) in
    let resp := oaipmh.NewOAIPMHResponse now req in
    (EvDispatch :: EvHook MIdentify :: trace c,
     oaipmh.VLOHandler.finish
       (if oaipmh.ResultWrapper.NoError (value c)
        then oaipmh.OAIPMHResponse.set_Identify resp
               (Some (oaipmh.VLOHandler.fillIdentify req resp
                        (oaipmh.ResultWrapper.Data (value c))))
        else resp)
       (oaipmh.ResultWrapper.Errors (value c))
       (oaipmh.ResultWrapper.HTTPCode (value c))).
Proof.
  intros Hv. unfold oaipmh.VLOHandler.handleRequest.
  rewrite Hv. cbv zeta. decide_literals. cbv iota.
  destruct (oaipmh.VLOHook.Identify _) as [t ans].
  unfold mbind, M_bind, mret, M_ret, bind, ret, tell. cbn [app trace value fst snd].
  by rewrite app_nil_r.
Qed.

Lemma handleRequest_GetRecord_run req :
  oaipmh.OAIPMHRequest.Verb req = oaipmh.VerbGetRecord ->
  oaipmh.VLOHandler.handleRequest a req (oaipmh.NewOAIPMHResponse now req) =
    if negb (supportedPrefix a req) then ([EvDispatch], unknownFormat now req)
    else
      let c := oaipmh.VLOHook.GetRecord (oaipmh.VLOHandler.hook a) req in
      let resp := oaipmh.NewOAIPMHResponse now req in
      (EvDispatch :: EvHook MGetRecord :: trace c,
       oaipmh.VLOHandler.finish
         (if oaipmh.ResultWrapper.NoError (value c)
          then oaipmh.OAIPMHResponse.set_GetRecord resp
                 (Some (oaipmh.ResultWrapper.Data (value c)))
          else resp)
         (oaipmh.ResultWrapper.Errors (value c))
         (oaipmh.ResultWrapper.HTTPCode (value c))).
Proof.
  intros Hv. unfold oaipmh.VLOHandler.handleRequest, supportedPrefix.
  rewrite Hv. cbv zeta. decide_literals. cbv iota.
  destruct (negb (oaipmh.SliceContains _ _)); [reflexivity|].
  destruct (oaipmh.VLOHook.GetRecord _ _) as [t ans].
  unfold mbind, M_bind, mret, M_ret, bind, ret, tell. cbn [app trace value fst snd].
  by rewrite app_nil_r.
Qed.

Lemma handleRequest_ListMetadataFormats req :
  oaipmh.OAIPMHRequest.Verb req = oaipmh.VerbListMetadataFormats ->
  oaipmh.VLOHandler.handleRequest a req (oaipmh.NewOAIPMHResponse now req) =
    let c := oaipmh.VLOHook.ListMetadataFormats (oaipmh.VLOHandler.hook a) req in
    let resp := oaipmh.NewOAIPMHResponse now req in
    (EvDispatch :: EvHook MListMetadataFormats :: trace c,
     oaipmh.VLOHandler.finish
       (if oaipmh.ResultWrapper.NoError (value c)
        then oaipmh.OAIPMHResponse.set_ListMetadataFormats resp
               (Some (oaipmh.ResultWrapper.Data (value c)))
        else resp)
       (oaipmh.ResultWrapper.Errors (value c))
       (oaipmh.ResultWrapper.HTTPCode (value c))).
Proof.
  intros Hv. unfold oaipmh.VLOHandler.handleRequest.
  rewrite Hv. cbv zeta. decide_literals. cbv iota.
  destruct (oaipmh.VLOHook.ListMetadataFormats _ _) as [t ans].
  unfold mbind, M_bind, mret, M_ret, bind, ret, tell. cbn [app trace value fst snd].
  by rewrite app_nil_r.
Qed.

Lemma handleRequest_ListSets req :
  oaipmh.OAIPMHRequest.Verb req = oaipmh.VerbListSets ->
  oaipmh.VLOHandler.handleRequest a req (oaipmh.NewOAIPMHResponse now req) =
    if negb (oaipmh.VLOHook.SupportsSets (oaipmh.VLOHandler.hook a))
    then ([EvDispatch], setsRefused now req)
    else
      let c := oaipmh.VLOHook.ListSets (oaipmh.VLOHandler.hook a) req in
      let resp := oaipmh.NewOAIPMHResponse now req in
      (EvDispatch :: EvHook MListSets :: trace c,
       oaipmh.VLOHandler.finish
         (if oaipmh.ResultWrapper.NoError (value c)
          then oaipmh.OAIPMHResponse.set_ListSets resp
                 (Some (oaipmh.ResultWrapper.Data (value c)))
          else resp)
         (oaipmh.ResultWrapper.Errors (value c))
         (oaipmh.ResultWrapper.HTTPCode (value c))).
Proof.
  intros Hv. unfold oaipmh.VLOHandler.handleRequest.
  rewrite Hv. cbv zeta. decide_literals. cbv iota.
  destruct (negb (oaipmh.VLOHook.SupportsSets _)); [reflexivity|].
  destruct (oaipmh.VLOHook.ListSets _ _) as [t ans].
  unfold mbind, M_bind, mret, M_ret, bind, ret, tell. cbn [app trace value fst snd].
  by rewrite app_nil_r.
Qed.

End dispatcher_cases.

(** ** The corpus hook behind the dispatcher *)

Section corpus_handler.
Context `{GoLibs}.
Variable c : cnchook.CNCHook.
Variable basePath : string.
Variable now : Time.

Lemma supportedPrefix_corpus req :
  supportedPrefix (handlerOf basePath c) req =
  String.eqb (oaipmh.OAIPMHRequest.MetadataPrefix req) formats.DublinCoreMetadataPrefix ||
  String.eqb (oaipmh.OAIPMHRequest.MetadataPrefix req) formats.CMDIMetadataPrefix.
Proof.
  unfold supportedPrefix, oaipmh.SliceContains. cbn. by rewrite orb_false_r.
Qed.

(** X1. The hook of the corpus does not support sets: every ListSets
    request is answered by the dispatcher alone, with the one error
    [noSetHierarchy] and status 501, without calling the hook. *)
Theorem ListSets_always_refused (req : oaipmh.OAIPMHRequest.t) :
  oaipmh.OAIPMHRequest.Verb req = oaipmh.VerbListSets ->
  oaipmh.VLOHandler.handleRequest (handlerOf basePath c) req
    (oaipmh.NewOAIPMHResponse now req) = ([EvDispatch], setsRefused now req).
Proof.
  intros Hv. by rewrite (handleRequest_ListSets _ now req Hv).
Qed.

Lemma failure_GetFirstDate e :
  cncdb.failure (cnchook.db c) = Some e ->
  value (cncdb.GetFirstDate (cnchook.db c)) = Err e.
Proof. intros Hf. unfold cncdb.GetFirstDate. step_handler. by rewrite Hf. Qed.

Lemma failure_wrappers e req :
  cncdb.failure (cnchook.db c) = Some e ->
  (oaipmh.ResultWrapper.Errors (value (cnchook.Identify c)) = [] /\
   oaipmh.ResultWrapper.HTTPCode (value (cnchook.Identify c)) = 500) /\
  (oaipmh.ResultWrapper.Errors (value (cnchook.GetRecord c req)) = [] /\
   oaipmh.ResultWrapper.HTTPCode (value (cnchook.GetRecord c req)) = 500) /\
  (oaipmh.ResultWrapper.Errors (value (cnchook.ListRecords c req)) = [] /\
   oaipmh.ResultWrapper.HTTPCode (value (cnchook.ListRecords c req)) = 500) /\
  (oaipmh.ResultWrapper.Errors (value (cnchook.ListIdentifiers c req)) = [] /\
   oaipmh.ResultWrapper.HTTPCode (value (cnchook.ListIdentifiers c req)) = 500) /\
  (oaipmh.OAIPMHRequest.Identifier req <> "" ->
   oaipmh.ResultWrapper.Errors (value (cnchook.ListMetadataFormats c req)) = [] /\
   oaipmh.ResultWrapper.HTTPCode (value (cnchook.ListMetadataFormats c req)) = 500).
Proof.
  intros Hf.
  split; [|split; [|split; [|split]]].
  - unfold cnchook.Identify. step_handler. by rewrite (failure_GetFirstDate e Hf).
  - unfold cnchook.GetRecord, cncdb.GetRecordInfo. cbv zeta. step_handler.
    unfold tell. cbn [value snd]. by rewrite Hf.
  - unfold cnchook.ListRecords, cncdb.ListRecordInfo. cbv zeta. step_handler.
    unfold tell. cbn [value snd]. by rewrite Hf.
  - unfold cnchook.ListIdentifiers, cncdb.ListRecordInfo. cbv zeta. step_handler.
    unfold tell. cbn [value snd]. by rewrite Hf.
  - intros Hne. apply String.eqb_neq in Hne.
    unfold cnchook.ListMetadataFormats, cncdb.IdentifierExists. cbv zeta.
    rewrite Hne. cbn [negb]. step_handler.
    unfold tell. cbn [value snd]. by rewrite Hf.
Qed.

(** A wrapper with status 500 and no error ends in the bare status. *)
Lemma finish_internal {T} (ans : oaipmh.ResultWrapper.t T) r0 r1 :
  oaipmh.OAIPMHResponse.Errors r0 = [] ->
  oaipmh.ResultWrapper.Errors ans = [] ->
  oaipmh.ResultWrapper.HTTPCode ans = 500 ->
  oaipmh.VLOHandler.finish
    (if oaipmh.ResultWrapper.NoError ans then r1 else r0)
    (oaipmh.ResultWrapper.Errors ans) (oaipmh.ResultWrapper.HTTPCode ans)
  = oaipmh.AbortWithStatus 500.
Proof.
  intros E0 Ee Hc. unfold oaipmh.ResultWrapper.NoError. rewrite Ee, Hc.
  cbn [oaipmh.OAIPMHErrors.HasErrors negb andb Z.ltb Z.compare Pos.compare
       Pos.compare_cont].
  unfold oaipmh.VLOHandler.finish. rewrite Errors_set_Errors, E0. reflexivity.
Qed.

(** X2. When the connection to the database is down, every request that
    reaches an operation querying the repository (Identify, GetRecord,
    the two listings, ListMetadataFormats with an identifier) ends in
    the bare status 500: no envelope, no protocol error. *)
Theorem repository_failure_is_500 (req : oaipmh.OAIPMHRequest.t) (e : string) :
  cncdb.failure (cnchook.db c) = Some e ->
  reachesRepository (handlerOf basePath c) req ->
  value (oaipmh.VLOHandler.handleRequest (handlerOf basePath c) req
           (oaipmh.NewOAIPMHResponse now req))
    = oaipmh.AbortWithStatus http.StatusInternalServerError.
Proof.
  intros Hf Hreach.
  destruct (failure_wrappers e req Hf)
    as ([I1 I2] & [G1 G2] & [R1 R2] & [L1 L2] & HM).
  destruct Hreach as [Hv|[[Hv Hp]|[[Hv [Hp Hs]]|[Hv Hid]]]].
  - rewrite (handleRequest_Identify _ now req Hv). cbv zeta. cbn [value snd].
    by apply finish_internal.
  - rewrite (handleRequest_GetRecord_run _ now req Hv), Hp. cbv zeta.
    cbn [negb value snd]. by apply finish_internal.
  - destruct Hv as [Hv|Hv].
    + rewrite (handleRequest_ListRecords _ now req Hv), Hp, Hs. cbv zeta.
      cbn [negb String.eqb andb value snd]. unfold listRecordsReply.
      by apply finish_internal.
    + rewrite (handleRequest_ListIdentifiers _ now req Hv), Hp, Hs. cbv zeta.
      cbn [negb String.eqb andb value snd]. unfold listIdentifiersReply.
      by apply finish_internal.
  - destruct (HM Hid) as [M1 M2].
    rewrite (handleRequest_ListMetadataFormats _ now req Hv). cbv zeta.
    cbn [value snd]. by apply finish_internal.
Qed.

Lemma IdentifierExists_trace identifier :
  trace (cncdb.IdentifierExists (cnchook.db c) identifier) =
    [EvRepo (QIdentifierExists identifier)].
Proof. reflexivity. Qed.

(** X3. [ListMetadataFormats] without identifier returns the two formats
    of the hook without querying the repository, and their prefixes are
    the supported prefixes; with an identifier it asks the repository
    once: an identifier that does not exist gives [idDoesNotExist] with
    status 404 and no format list, an existing one gives the two
    formats. *)
Theorem ListMetadataFormats_cases (req : oaipmh.OAIPMHRequest.t) :
  map oaipmh.OAIPMHMetadataFormat.MetadataPrefix advertisedFormats =
    cnchook.SupportedMetadataPrefixes /\
  (oaipmh.OAIPMHRequest.Identifier req = "" ->
   cnchook.ListMetadataFormats c req = ([], oaipmh.NewResultWrapper advertisedFormats)) /\
  (oaipmh.OAIPMHRequest.Verb req = oaipmh.VerbListMetadataFormats ->
   oaipmh.OAIPMHRequest.Identifier req <> "" ->
   forall found,
   value (cncdb.IdentifierExists (cnchook.db c) (oaipmh.OAIPMHRequest.Identifier req))
     = Ok found ->
   oaipmh.VLOHandler.handleRequest (handlerOf basePath c) req
     (oaipmh.NewOAIPMHResponse now req) =
     ([EvDispatch; EvHook MListMetadataFormats;
       EvRepo (QIdentifierExists (oaipmh.OAIPMHRequest.Identifier req))],
      if found then
        oaipmh.WriteXML http.StatusOK
          (oaipmh.XMLEnvelope
             (oaipmh.OAIPMHResponse.set_ListMetadataFormats
                (oaipmh.NewOAIPMHResponse now req) (Some advertisedFormats)))
      else
        oaipmh.WriteXML http.StatusNotFound (errorEnvelope now req (notFound req)))).
Proof.
  split; [reflexivity|]. split.
  - intros Hid. unfold cnchook.ListMetadataFormats. by rewrite Hid.
  - intros Hv Hid found Hex. apply String.eqb_neq in Hid.
    rewrite (handleRequest_ListMetadataFormats _ now req Hv). cbv zeta.
    cbn [oaipmh.VLOHandler.hook handlerOf oaipmh.VLOHook.ListMetadataFormats
         cnchook.asVLOHook].
    unfold cnchook.ListMetadataFormats. rewrite Hid. cbn [negb].
    step_handler. rewrite Hex, IdentifierExists_trace.
    destruct found; reflexivity.
Qed.

(** X4. On Identify with a reachable repository the envelope carries the
    payload of the hook with two fields overwritten by the handler: the
    base URL is the URL of the request, not the configured one, and the
    protocol version is 2.0; the earliest datestamp is the one the
    repository reports. *)
Theorem Identify_payload (req : oaipmh.OAIPMHRequest.t) (t : Time) :
  oaipmh.OAIPMHRequest.Verb req = oaipmh.VerbIdentify ->
  value (cncdb.GetFirstDate (cnchook.db c)) = Ok t ->
  oaipmh.VLOHandler.handleRequest (handlerOf basePath c) req
    (oaipmh.NewOAIPMHResponse now req) =
    ([EvDispatch; EvHook MIdentify; EvRepo QGetFirstDate],
     oaipmh.WriteXML http.StatusOK
       (oaipmh.XMLEnvelope
          (oaipmh.OAIPMHResponse.set_Identify (oaipmh.NewOAIPMHResponse now req)
             (Some (identifyPayload (cnchook.conf c) req t))))).
Proof.
  intros Hv Ht. rewrite (handleRequest_Identify _ now req Hv). cbv zeta.
  cbn [oaipmh.VLOHandler.hook handlerOf oaipmh.VLOHook.Identify cnchook.asVLOHook].
  unfold cnchook.Identify. step_handler. rewrite Ht. reflexivity.
Qed.

End corpus_handler.

Lemma ListSets_always_refused_witness :
  oaipmh.VLOHandler.handleRequest (handlerOf "https://vlo.example.org" Sample.hook)
    (plainRequest "ListSets" "" "") (oaipmh.NewOAIPMHResponse 0 (plainRequest "ListSets" "" ""))
    = ([EvDispatch], setsRefused 0 (plainRequest "ListSets" "" "")).
Proof.
  exact (ListSets_always_refused (H := GoModel.libs) Sample.hook
           "https://vlo.example.org" 0 (plainRequest "ListSets" "" "") eq_refl).
Defined.

Lemma repository_failure_is_500_witness :
  value (oaipmh.VLOHandler.handleRequest (handlerOf "https://vlo.example.org" downHook)
           (plainRequest "GetRecord" "7" "oai_dc")
           (oaipmh.NewOAIPMHResponse 0 (plainRequest "GetRecord" "7" "oai_dc")))
    = oaipmh.AbortWithStatus 500.
Proof.
  apply (repository_failure_is_500 (H := GoModel.libs) downHook
           "https://vlo.example.org" 0 (plainRequest "GetRecord" "7" "oai_dc")
           "dial tcp: connection refused" eq_refl).
  right. left. split; reflexivity.
Defined.

Lemma ListMetadataFormats_cases_witness :
  cnchook.ListMetadataFormats Sample.hook (plainRequest "ListMetadataFormats" "" "")
    = ([], oaipmh.NewResultWrapper advertisedFormats) /\
  value (oaipmh.VLOHandler.handleRequest (handlerOf "https://vlo.example.org" Sample.hook)
           (plainRequest "ListMetadataFormats" "8" "")
           (oaipmh.NewOAIPMHResponse 0 (plainRequest "ListMetadataFormats" "8" "")))
    = oaipmh.WriteXML 404
        (errorEnvelope 0 (plainRequest "ListMetadataFormats" "8" "")
           (notFound (plainRequest "ListMetadataFormats" "8" ""))).
Proof.
  split.
  - exact (proj1 (proj2 (ListMetadataFormats_cases (H := GoModel.libs) Sample.hook
             "https://vlo.example.org" 0 (plainRequest "ListMetadataFormats" "" "")))
             eq_refl).
  - rewrite (proj2 (proj2 (ListMetadataFormats_cases (H := GoModel.libs) Sample.hook
             "https://vlo.example.org" 0 (plainRequest "ListMetadataFormats" "8" "")))
             eq_refl ltac:(discriminate) false eq_refl).
    reflexivity.
Defined.

Lemma Identify_payload_witness :
  value (oaipmh.VLOHandler.handleRequest (handlerOf "https://vlo.example.org" Sample.hook)
           (plainRequest "Identify" "" "")
           (oaipmh.NewOAIPMHResponse 0 (plainRequest "Identify" "" "")))
    = oaipmh.WriteXML 200
        (oaipmh.XMLEnvelope
           (oaipmh.OAIPMHResponse.set_Identify
              (oaipmh.NewOAIPMHResponse 0 (plainRequest "Identify" "" ""))
              (Some (identifyPayload Sample.conf (plainRequest "Identify" "" "")
                       Sample.midnight_2024_01_16)))).
Proof.
  rewrite (Identify_payload (H := GoModel.libs) Sample.hook
             "https://vlo.example.org" 0 (plainRequest "Identify" "" "")
             Sample.midnight_2024_01_16 eq_refl eq_refl).
  reflexivity.
Defined.

(** ** Listing and looking up in the repository *)

Lemma fold_left_snoc_map {A B} (f : A -> B) (l : list A) (init : list B) :
  fold_left (fun acc x => acc ++ [f x]) l init = init ++ map f l.
Proof.
  revert init. induction l as [|x l IH]; intros init; cbn [fold_left map].
  - by rewrite app_nil_r.
  - by rewrite IH, <- app_assoc.
Qed.

Lemma fold_right_min_le (x : Z) (l : list Z) :
  fold_right Z.min x l <= x /\ Forall (fun y => fold_right Z.min x l <= y) l.
Proof.
  induction l as [|y l [IH1 IH2]]; cbn [fold_right]; [split; [lia|constructor]|].
  split; [lia|]. constructor; [lia|].
  eapply List.Forall_impl; [|exact IH2]. cbn. intros z Hz. lia.
Qed.

Section repository.
Context `{GoLibs}.
Variable db : cncdb.CNCMySQLHandler.

Lemma select_In r w :
  In r (cncdb.select db w) <->
  In r (cncdb.rows db) /\ forallb (cncdb.eval_cond r) w = true.
Proof. unfold cncdb.select. apply filter_In. Qed.


Lemma stamp_set_Locale d l : stamp (cncdb.set_Locale d l) = stamp d.
Proof. reflexivity. Qed.

Lemma scan_rows_stamps rs acc data :
  cncdb.scan_rows rs acc = Ok data ->
  map stamp data = map stamp acc ++ map (fun r => stamp (cncdb.columns r)) rs.
Proof.
  revert acc. induction rs as [|r rs IH]; intros acc; cbn [cncdb.scan_rows map].
  - intros [= ->]. by rewrite app_nil_r.
  - destruct (cncdb.scan_error r); [done|].
    destruct (negb _).
    + destruct (cncdb.parseLocale _); [|done].
      intros E. rewrite (IH _ E), map_app. cbn [map].
      by rewrite stamp_set_Locale, <- app_assoc.
    + intros E. rewrite (IH _ E), map_app. cbn [map]. by rewrite <- app_assoc.
Qed.


Lemma ListRecordInfo_value from until :
  value (cncdb.ListRecordInfo db from until) =
    match cncdb.failure db with
    | Some e => Err ("failed to list record info: " +:+ e)
    | None =>
        cncdb.scan_rows
          (cncdb.group_by_c_name (cncdb.select db (cncdb.whereClause from until))) []
    end.
Proof. unfold cncdb.ListRecordInfo. step_handler. reflexivity. Qed.

Lemma same_group_iff r r' :
  cncdb.same_group r r' = true <-> cncdb.group_key r = cncdb.group_key r'.
Proof.
  unfold cncdb.same_group.
  destruct (cncdb.group_key r) as [n|], (cncdb.group_key r') as [n'|];
    split; try done.
  - intros E. apply String.eqb_eq in E. by subst.
  - intros [= ->]. apply String.eqb_refl.
Qed.

Lemma group_row_sameRecord r rest : sameRecord (cncdb.group_row r rest) r.
Proof. by repeat split. Qed.

Lemma sameRecord_stamp r' r :
  sameRecord r' r -> stamp (cncdb.columns r') = stamp (cncdb.columns r).
Proof.
  intros (_ & _ & _ & Hs & _). unfold stamp, cncdb.columns.
  cbn [cncdb.set_Keywords cncdb.ID cncdb.Date]. by rewrite Hs.
Qed.


(** The grouping delivers one row for each value of [c.name]: the rows
    it delivers stand for rows of its input with pairwise different
    values, and every row of the input shares its value with one of
    them. *)
Lemma group_rows_spec seen rs :
  exists firsts,
    Forall2 sameRecord (cncdb.group_rows seen rs) firsts /\
    (forall r, In r firsts ->
       In r rs /\ existsb (fun s => cncdb.same_group s r) seen = false) /\
    List.NoDup (map cncdb.group_key firsts) /\
    (forall r, In r rs ->
       existsb (fun s => cncdb.same_group s r) seen = true \/
       exists r', In r' firsts /\ cncdb.group_key r' = cncdb.group_key r).
Proof.
  revert seen. induction rs as [|r rs IH]; intros seen; cbn [cncdb.group_rows].
  - exists []. repeat split; try done; constructor.
  - destruct (existsb (fun s => cncdb.same_group s r) seen) eqn:Hseen.
    + destruct (IH seen) as (firsts & HF & Hin & Hnd & Hcov).
      exists firsts. split; [done|]. split; [|split; [done|]].
      * intros r0 Hr0. destruct (Hin r0 Hr0). split; [by right|done].
      * intros r0 [<-|Hr0]; [by left|by apply Hcov].
    + destruct (IH (r :: seen)) as (firsts & HF & Hin & Hnd & Hcov).
      exists (r :: firsts). split; [|split; [|split]].
      * constructor; [apply group_row_sameRecord|done].
      * intros r0 [<-|Hr0]; [split; [by left|done]|].
        destruct (Hin r0 Hr0) as [Hrs Hex]. cbn [existsb] in Hex.
        apply orb_false_iff in Hex as [_ Hex]. split; [by right|done].
      * cbn [map]. constructor; [|done]. intros Hk.
        apply in_map_iff in Hk as (r0 & Hk & Hr0).
        destruct (Hin r0 Hr0) as [_ Hex]. cbn [existsb] in Hex.
        apply orb_false_iff in Hex as [Hsame _].
        assert (cncdb.same_group r r0 = true) by (by apply same_group_iff).
        congruence.
      * intros r0 [<-|Hr0]; [right; exists r; split; [by left|done]|].
        destruct (Hcov r0 Hr0) as [Hex|(r' & Hr' & Hk)].
        -- cbn [existsb] in Hex. apply orb_true_iff in Hex as [Hsame|Hex]; [|by left].
           right. exists r. split; [by left|by apply same_group_iff].
        -- right. exists r'. split; [by right|done].
Qed.

(** What a listing that succeeds returns: one record for each value of
    [c.name] among the rows that pass the WHERE clause. *)
Lemma ListRecordInfo_groups from until data :
  value (cncdb.ListRecordInfo db from until) = Ok data ->
  exists delivered rs,
    cncdb.scan_rows delivered [] = Ok data /\
    Forall2 sameRecord delivered rs /\
    map stamp data = map (fun r => stamp (cncdb.columns r)) rs /\
    (forall r, In r rs -> In r (cncdb.select db (cncdb.whereClause from until))) /\
    List.NoDup (map cncdb.group_key rs) /\
    (forall r, In r (cncdb.select db (cncdb.whereClause from until)) ->
       exists r', In r' rs /\ cncdb.group_key r' = cncdb.group_key r).
Proof.
  rewrite ListRecordInfo_value. destruct (cncdb.failure db); [done|].
  intros E. unfold cncdb.group_by_c_name in E.
  destruct (group_rows_spec [] (cncdb.select db (cncdb.whereClause from until)))
    as (rs & HF & Hin & Hnd & Hcov).
  exists (cncdb.group_rows [] (cncdb.select db (cncdb.whereClause from until))), rs.
  split; [done|]. split; [done|]. split; [|split; [|split; [done|]]].
  - rewrite (scan_rows_stamps _ _ _ E). cbn [map app].
    clear -HF. induction HF as [|r' r l l' HR _ IH]; [done|].
    cbn [map]. by rewrite (sameRecord_stamp _ _ HR), IH.
  - intros r Hr. by destruct (Hin r Hr).
  - intros r Hr. destruct (Hcov r Hr) as [Hex|Hr']; [done|done].
Qed.

Lemma GetRecordInfo_value identifier :
  value (cncdb.GetRecordInfo db identifier) =
    match cncdb.failure db with
    | Some e => Err ("failed to get record info: " +:+ e)
    | None =>
        match cncdb.select db [cncdb.IdIs identifier; cncdb.NotDeleted; cncdb.Visible] with
        | [] => Ok None
        | r :: _ =>
            match cncdb.scan_error r with
            | Some e => Err ("failed to get record info: " +:+ e)
            | None =>
                if sql.Valid (cncdb.locale r) then
                  match cncdb.parseLocale (sql.String_ (cncdb.locale r)) with
                  | Err e => Err ("failed to get record info: " +:+ e)
                  | Ok tag => Ok (Some (cncdb.set_Locale (cncdb.columns r) (Some tag)))
                  end
                else Ok (Some (cncdb.columns r))
            end
        end
    end.
Proof. unfold cncdb.GetRecordInfo. step_handler. reflexivity. Qed.




(** X6. The earliest datestamp that Identify reports is a lower bound
    of the datestamps of all listed records, provided the last
    modification of a row is not before its creation (it is the
    greatest of [created] and [updated]). *)
Theorem earliest_datestamp_lower_bound (from until : option Time) (t : Time)
    (data : list cncdb.DBData) :
  (forall r, In r (cncdb.rows db) -> cncdb.created r <= cncdb.Date (cncdb.columns r)) ->
  value (cncdb.GetFirstDate db) = Ok t ->
  value (cncdb.ListRecordInfo db from until) = Ok data ->
  Forall (fun d => t <= cncdb.Date d) data.
Proof.
  intros Hgreatest Ht E.
  destruct (ListRecordInfo_groups _ _ _ E) as (dl & rs & _ & _ & Hs & Hin & _).
  unfold cncdb.GetFirstDate in Ht. revert Ht. step_handler. cbn [value snd tell].
  destruct (cncdb.failure db); [done|].
  destruct (cncdb.rows db) as [|r0 rows] eqn:Hrows; [done|].
  intros [= <-].
  assert (Hd : Forall (fun p => fold_right Z.min (cncdb.created r0)
                                  (map cncdb.created rows) <= snd p) (map stamp data)).
  { rewrite Hs. apply List.Forall_map. apply List.Forall_forall. intros r Hr.
    apply Hin, select_In in Hr as [Hr _].
    rewrite Hrows in Hr. specialize (Hgreatest r Hr). cbn [stamp snd].
    destruct (fold_right_min_le (cncdb.created r0) (map cncdb.created rows)) as [H0 Hall].
    destruct Hr as [<-|Hr]; [lia|].
    rewrite List.Forall_forall in Hall.
    specialize (Hall (cncdb.created r) (in_map _ _ _ Hr)). lia. }
  apply List.Forall_forall. intros d Hd'. rewrite List.Forall_forall in Hd.
  exact (Hd (stamp d) (in_map stamp data d Hd')).
Qed.


(** X8. A record that [GetRecordInfo] returns is a row of the
    repository with the requested identifier that is not deleted and is
    visible; it carries the identifier and the date of that row, and,
    when the locale column of the row is not NULL, the tag that the
    column parses to. *)
Theorem GetRecordInfo_sound (identifier : string) (d : cncdb.DBData) :
  value (cncdb.GetRecordInfo db identifier) = Ok (Some d) ->
  exists r,
    In r (cncdb.rows db) /\
    sql_id_eq (cncdb.ID (cncdb.columns r)) identifier = true /\
    cncdb.deleted r = false /\
    cncdb.eval_cond r cncdb.Visible = true /\
    stamp d = stamp (cncdb.columns r) /\
    (sql.Valid (cncdb.locale r) = true ->
     exists tag, cncdb.parseLocale (sql.String_ (cncdb.locale r)) = Ok tag /\
                 cncdb.Locale (cncdb.Corpus d) = Some tag).
Proof.
  rewrite GetRecordInfo_value. destruct (cncdb.failure db); [done|].
  destruct (cncdb.select db [cncdb.IdIs identifier; cncdb.NotDeleted; cncdb.Visible])
    as [|r rs] eqn:E; [done|].
  assert (Hr : In r (r :: rs)) by (by left). rewrite <- E in Hr.
  apply select_In in Hr as [Hin Hc]. cbn [forallb] in Hc.
  apply andb_true_iff in Hc as [Hid Hc]. apply andb_true_iff in Hc as [Hdel Hc].
  apply andb_true_iff in Hc as [Hvis _].
  cbn [cncdb.eval_cond] in Hid, Hdel. apply negb_true_iff in Hdel.
  destruct (cncdb.scan_error r); [done|].
  destruct (sql.Valid (cncdb.locale r)) eqn:Hv.
  - destruct (cncdb.parseLocale (sql.String_ (cncdb.locale r))) as [tag|e] eqn:Hp; [|done].
    intros [= <-]. exists r. repeat split; try done. intros _. by exists tag.
  - intros [= <-]. exists r. repeat split; try done. by rewrite Hv.
Qed.

(** X9. A corpus whose locale column is the empty string, not NULL, is
    listed without a locale, but looking it up by identifier fails when
    the tag library rejects the empty tag: the lookup parses every
    locale that is not NULL, the listing only those that are not
    empty. *)
Theorem empty_locale_listed_but_not_found (identifier e : string)
    (from until : option Time) (r : cncdb.SQLRow) (rest : list cncdb.SQLRow) :
  language_Parse "" = Err e ->
  cncdb.failure db = None ->
  cncdb.scan_error r = None ->
  cncdb.locale r = sql.text "" ->
  (cncdb.select db [cncdb.IdIs identifier; cncdb.NotDeleted; cncdb.Visible] = r :: rest ->
   value (cncdb.GetRecordInfo db identifier) =
     Err "failed to get record info: unable to parse locale ") /\
  (cncdb.select db (cncdb.whereClause from until) = [r] ->
   value (cncdb.ListRecordInfo db from until) = Ok [cncdb.columns r]).
Proof.
  intros Hp Hf Hs Hl. split; intros Hsel.
  - rewrite GetRecordInfo_value, Hf, Hsel, Hs, Hl. cbn [sql.Valid sql.text sql.String_].
    unfold cncdb.parseLocale. cbn [strings.Split strings.split_go hd]. by rewrite Hp.
  - rewrite ListRecordInfo_value, Hf, Hsel.
    unfold cncdb.group_by_c_name.
    cbn [cncdb.group_rows existsb cncdb.scan_rows cncdb.group_row
         cncdb.scan_error cncdb.locale List.filter flat_map].
    rewrite Hs, Hl. cbn [sql.text sql.String_ String.eqb negb app].
    unfold cncdb.columns.
    cbn [cncdb.group_row cncdb.keyword_rows cncdb.scanned List.filter flat_map].
    by rewrite app_nil_r.
Qed.

End repository.


Lemma earliest_datestamp_lower_bound_witness :
  Forall (fun d => Sample.midnight_2024_01_16 <= cncdb.Date d) [record7].
Proof.
  apply (earliest_datestamp_lower_bound (H := GoModel.libs) Sample.db None None
           Sample.midnight_2024_01_16 [record7]); [|reflexivity|reflexivity].
  intros r [<-|[<-|[]]]; cbn; lia.
Defined.


Lemma GetRecordInfo_sound_witness :
  exists r,
    In r (cncdb.rows Sample.db) /\
    sql_id_eq (GoLibs := GoModel.libs) (cncdb.ID (cncdb.columns r)) "7" = true /\
    cncdb.deleted r = false /\
    cncdb.eval_cond r cncdb.Visible = true /\
    stamp record7 = stamp (cncdb.columns r) /\
    (sql.Valid (cncdb.locale r) = true ->
     exists tag, cncdb.parseLocale (sql.String_ (cncdb.locale r)) = Ok tag /\
                 cncdb.Locale (cncdb.Corpus record7) = Some tag).
Proof.
  exact (GetRecordInfo_sound (H := GoModel.libs) Sample.db "7" record7 eq_refl).
Defined.

Lemma empty_locale_listed_but_not_found_witness :
  value (cncdb.GetRecordInfo (localeDb (sql.text "")) "9") =
    Err "failed to get record info: unable to parse locale " /\
  value (cncdb.ListRecordInfo
           {| cncdb.rows := [localeRow 9 (sql.text "")]; cncdb.failure := None |}
           None None) = Ok [cncdb.columns (localeRow 9 (sql.text ""))].
Proof.
  split.
  - exact (proj1 (empty_locale_listed_but_not_found (H := GoModel.libs)
             (localeDb (sql.text "")) "9" "language: tag is not well-formed"
             None None (localeRow 9 (sql.text "")) []
             eq_refl eq_refl eq_refl eq_refl) eq_refl).
  - exact (proj2 (empty_locale_listed_but_not_found (H := GoModel.libs)
             {| cncdb.rows := [localeRow 9 (sql.text "")]; cncdb.failure := None |}
             "9" "language: tag is not well-formed"
             None None (localeRow 9 (sql.text "")) []
             eq_refl eq_refl eq_refl eq_refl) eq_refl).
Defined.

(** ** Headers and listings of the hook *)

Section listings.
Context `{GoLibs}.
Variable c : cnchook.CNCHook.

Lemma headerOf_dc d : cnchook.headerOf (cnchook.dcRecordFromData d) = headerFor d.
Proof. reflexivity. Qed.

Lemma headerOf_cmdi d :
  cnchook.headerOf (cnchook.cmdiLindatClarinRecordFromData c d) = headerFor d.
Proof. reflexivity. Qed.

(** X10. [ListIdentifiers] is [ListRecords] reduced to headers: for every
    request the two wrappers have the same errors and status and the
    identifiers' data are the headers of the records' data. With either
    supported prefix the headers are those of the listed rows in the
    order of the repository, the decimal row id with the last
    modification, so they do not depend on the prefix. *)
Theorem ListIdentifiers_headers_of_ListRecords (req : oaipmh.OAIPMHRequest.t) :
  let li := value (cnchook.ListIdentifiers c req) in
  let lr := value (cnchook.ListRecords c req) in
  oaipmh.ResultWrapper.Data li = map cnchook.headerOf (oaipmh.ResultWrapper.Data lr) /\
  oaipmh.ResultWrapper.Errors li = oaipmh.ResultWrapper.Errors lr /\
  oaipmh.ResultWrapper.HTTPCode li = oaipmh.ResultWrapper.HTTPCode lr /\
  (forall data,
     value (cncdb.ListRecordInfo (cnchook.db c) (oaipmh.OAIPMHRequest.From req)
              (oaipmh.OAIPMHRequest.Until req)) = Ok data ->
     oaipmh.OAIPMHRequest.MetadataPrefix req = formats.DublinCoreMetadataPrefix \/
     oaipmh.OAIPMHRequest.MetadataPrefix req = formats.CMDIMetadataPrefix ->
     oaipmh.ResultWrapper.Data li = map headerFor data).
Proof.
  cbv zeta. unfold cnchook.ListIdentifiers, cnchook.ListRecords. cbv zeta.
  step_handler.
  destruct (value (cncdb.ListRecordInfo _ _ _)) as [data|e].
  2:{ repeat split; try done. }
  destruct data as [|d data].
  { repeat split; try done. intros data' [= <-] _. reflexivity. }
  cbn [length Nat.eqb].
  set (prefix := oaipmh.OAIPMHRequest.MetadataPrefix req).
  destruct (String.eqb_spec prefix formats.DublinCoreMetadataPrefix) as [Edc|Edc].
  { cbn [cnchook.withData oaipmh.ResultWrapper.Data oaipmh.ResultWrapper.Errors
         oaipmh.ResultWrapper.HTTPCode oaipmh.NewResultWrapper].
    rewrite !fold_left_snoc_map. cbn [app]. rewrite map_map.
    repeat split; try done. intros data' [= <-] _.
    apply map_ext. intros x. apply headerOf_dc. }
  destruct (String.eqb_spec prefix formats.CMDIMetadataPrefix) as [Ecm|Ecm].
  { cbn [cnchook.withData oaipmh.ResultWrapper.Data oaipmh.ResultWrapper.Errors
         oaipmh.ResultWrapper.HTTPCode oaipmh.NewResultWrapper].
    rewrite !fold_left_snoc_map. cbn [app]. rewrite map_map.
    repeat split; try done. intros data' [= <-] _.
    apply map_ext. intros x. apply headerOf_cmdi. }
  repeat split; try done. intros data' _ [E|E]; done.
Qed.

End listings.

Lemma ListIdentifiers_headers_of_ListRecords_witness :
  oaipmh.ResultWrapper.Data
    (value (cnchook.ListIdentifiers Sample.hook (plainRequest "ListIdentifiers" "" "cmdi")))
  = map headerFor [record7].
Proof.
  exact (proj2 (proj2 (proj2
    (ListIdentifiers_headers_of_ListRecords (H := GoModel.libs) Sample.hook
       (plainRequest "ListIdentifiers" "" "cmdi")))) [record7] eq_refl
    (or_intror eq_refl)).
Defined.

(** ** Splitting at one byte *)

Lemma HasPrefix_char c d s :
  strings.HasPrefix (String d s) (String c "") = Ascii.eqb c d.
Proof.
  cbn [strings.HasPrefix]. destruct (Ascii.eqb c d); [by destruct s|done].
Qed.

Lemma split_go_word_char c a s acc :
  without c a ->
  strings.split_go (String c "") (a +:+ s) acc 0 =
  strings.split_go (String c "") s (acc +:+ a) 0.
Proof.
  revert acc. induction a as [|d a IH]; intros acc Ha.
  - by rewrite append_empty_r.
  - unfold without in Ha. cbn [strings.Contains] in Ha.
    apply orb_false_iff in Ha as [Hp Ha].
    rewrite append_cons. cbn [strings.split_go].
    rewrite HasPrefix_char in *. rewrite Hp, (IH _ Ha), append_assoc. done.
Qed.

Lemma split_go_sep_char c s acc :
  strings.split_go (String c "") (String c s) acc 0 =
  acc :: strings.split_go (String c "") s "" 0.
Proof.
  cbn [strings.split_go]. rewrite HasPrefix_char, Ascii.eqb_refl. reflexivity.
Qed.

Lemma Split_head_char c a s :
  without c a -> hd "" (strings.Split (a +:+ String c s) (String c "")) = a.
Proof.
  intros Ha. unfold strings.Split.
  by rewrite (split_go_word_char c a _ "" Ha), split_go_sep_char.
Qed.

Lemma Split_pair_char c a b :
  without c a -> without c b ->
  strings.Split (a +:+ String c b) (String c "") = [a; b].
Proof.
  intros Ha Hb. unfold strings.Split.
  rewrite (split_go_word_char c a _ "" Ha), split_go_sep_char.
  by rewrite (split_go_absent c b "" Hb).
Qed.

Lemma split_go_Join c (ws : list string) w acc :
  Forall (without c) (w :: ws) ->
  strings.split_go (String c "") (strings.Join (w :: ws) (String c "")) acc 0 =
  (acc +:+ w) :: ws.
Proof.
  revert w acc. induction ws as [|w2 ws IH]; intros w acc Hall.
  - cbn [strings.Join]. apply split_go_absent. by inversion Hall.
  - inversion Hall as [|? ? Hw Hrest]; subst.
    change (strings.Join (w :: w2 :: ws) (String c ""))
      with (w +:+ String c (strings.Join (w2 :: ws) (String c ""))).
    rewrite (split_go_word_char c w _ acc Hw), split_go_sep_char.
    by rewrite (IH w2 "" Hrest).
Qed.

(** Joining words that are free of the separator byte and splitting again
    gives the words back. *)
Lemma Split_Join_char c (ws : list string) :
  ws <> [] -> Forall (without c) ws ->
  strings.Split (strings.Join ws (String c "")) (String c "") = ws.
Proof.
  destruct ws as [|w ws]; [done|]. intros _ Hall. unfold strings.Split.
  by rewrite (split_go_Join c ws w "" Hall).
Qed.

(** ** More on locales, authors and the grammar *)

Section more_parsers.
Context `{GoLibs}.

(** X11. What follows the first dot of a locale is ignored when the part
    before it parses: the tag is that of the part before the dot. When
    that part does not parse and the locale has exactly one underscore,
    the result is the parse of the text before the underscore, whatever
    follows it (region, encoding). *)
Theorem parseLocale_ignores_suffix :
  (forall base enc t,
     without "." base ->
     language_Parse base = Ok t ->
     cncdb.parseLocale (base +:+ "." +:+ enc) = Ok t) /\
  (forall a rest e,
     without "_" a -> without "_" rest ->
     language_Parse (localeBase (a +:+ "_" +:+ rest)) = Err e ->
     cncdb.parseLocale (a +:+ "_" +:+ rest) = language_Parse a).
Proof.
  split.
  - intros base enc t Hb Hp. apply parseLocale_direct. unfold localeBase.
    change (base +:+ "." +:+ enc) with (base +:+ String "." enc).
    by rewrite (Split_head_char "." base enc Hb).
  - intros a rest e Ha Hr He. rewrite (parseLocale_fallback _ e He).
    change (a +:+ "_" +:+ rest) with (a +:+ String "_" rest).
    by rewrite (Split_pair_char "_" a rest Ha Hr).
Qed.

Lemma authorOfLine_one line : length (cnchook.authorOfLine line) = 1%nat.
Proof.
  rewrite authorOfLine_tokens.
  pose proof (Split_nonempty (strings.Trim line " ") " " ltac:(done)) as Hne.
  destruct (strings.Split (strings.Trim line " ") " ") as [|a [|b r]]; done.
Qed.

Lemma flat_map_ones {A B} (f : A -> list B) (l : list A) :
  (forall x, length (f x) = 1%nat) -> length (flat_map f l) = length l.
Proof.
  intros Hf. induction l as [|x l IH]; [done|].
  cbn [flat_map]. rewrite length_app, Hf, IH. reflexivity.
Qed.

Lemma length_fold_Add {A} (f : A -> string) (l : list A) (init : formats.MultilangArray) :
  length (fold_left (fun c x => formats.Add c (f x) "") l init) =
  (length init + length l)%nat.
Proof.
  revert init. induction l as [|x l IH]; intros init; cbn [fold_left length]; [lia|].
  rewrite IH. unfold formats.Add. rewrite length_app. cbn [length]. lia.
Qed.

(** X12. [getAuthorList] yields exactly one author per line of the block
    and never skips a line: the list is never empty, an empty block
    gives one author with empty names, and the Dublin Core record has
    one creator per line. *)
Theorem getAuthorList_one_per_line (data : cncdb.DBData) :
  let lines := strings.Split (strings.ReplaceAll (cncdb.Authors data) CRLF LF) LF in
  length (cnchook.getAuthorList data) = length lines /\
  (1 <= length (cnchook.getAuthorList data))%nat /\
  length (formats.Creator (cnchook.dcMetadata data)) = length lines /\
  (cncdb.Authors data = "" ->
   cnchook.getAuthorList data =
     [{| components.LastName := ""; components.FirstName := "" |}]).
Proof.
  cbv zeta.
  assert (Hlen : length (cnchook.getAuthorList data) =
    length (strings.Split (strings.ReplaceAll (cncdb.Authors data) CRLF LF) LF)).
  { unfold cnchook.getAuthorList, cnchook.authorsOfBlock.
    rewrite fold_left_app_flat_map. cbn [app].
    apply flat_map_ones, authorOfLine_one. }
  split; [exact Hlen|]. split; [|split].
  - rewrite Hlen. apply Split_length_pos. done.
  - cbn [cnchook.dcMetadata formats.Creator]. rewrite length_fold_Add.
    cbn [formats.NewDublinCore formats.Creator length]. by rewrite Hlen.
  - intros Hempty. unfold cnchook.getAuthorList. rewrite Hempty. reflexivity.
Qed.

(** X13. In the grammar of the code every argument that a verb requires
    is an argument that the verb allows, for the six verbs and for any
    other string: no request is rejected for supplying a required
    argument. *)
Theorem required_args_are_allowed (v arg : string) :
  In arg (oaipmh.Verb.reqArgs v) -> oaipmh.Verb.ValidateArg v arg = true.
Proof.
  unfold oaipmh.Verb.reqArgs, oaipmh.Verb.ValidateArg.
  destruct (String.eqb_spec v oaipmh.VerbGetRecord) as [->|_];
    [cbn; intuition (subst; reflexivity)|].
  destruct (String.eqb_spec v oaipmh.VerbListIdentifiers) as [->|_];
    [cbn; intuition (subst; reflexivity)|].
  destruct (String.eqb_spec v oaipmh.VerbListMetadataFormats) as [->|_];
    [cbn; intuition (subst; reflexivity)|].
  destruct (String.eqb_spec v oaipmh.VerbListRecords) as [->|_];
    [cbn; intuition (subst; reflexivity)|].
  destruct (String.eqb v oaipmh.VerbListSets);
    cbn; intuition (subst; reflexivity).
Qed.


End more_parsers.

Lemma parseLocale_ignores_suffix_witness :
  cncdb.parseLocale (H := GoModel.libs) "cs_CZ.UTF-8"
    = Ok {| GoModel.base := "cs"; GoModel.region := Some "CZ" |} /\
  cncdb.parseLocale (H := GoModel.libs) "en_EN.UTF-8"
    = Ok {| GoModel.base := "en"; GoModel.region := None |}.
Proof.
  split.
  - exact (proj1 (parseLocale_ignores_suffix (H := GoModel.libs))
             "cs_CZ" "UTF-8" {| GoModel.base := "cs"; GoModel.region := Some "CZ" |}
             eq_refl eq_refl).
  - exact (proj2 (parseLocale_ignores_suffix (H := GoModel.libs))
             "en" "EN.UTF-8" "language: subtag unknown" eq_refl eq_refl eq_refl).
Defined.

Lemma getAuthorList_one_per_line_witness :
  cnchook.getAuthorList
    (sampleData (H := GoModel.libs) "corpus" "" sql.null sql.null 0) =
    [{| components.LastName := ""; components.FirstName := "" |}].
Proof.
  exact (proj2 (proj2 (proj2 (getAuthorList_one_per_line (H := GoModel.libs)
           (sampleData (H := GoModel.libs) "corpus" "" sql.null sql.null 0))))
           eq_refl).
Defined.

Lemma required_args_are_allowed_witness :
  oaipmh.Verb.ValidateArg "GetRecord" "identifier" = true.
Proof.
  apply required_args_are_allowed. right. left. reflexivity.
Defined.


(** ** The CMDI record *)

Section cmdi_records.
Context `{GoLibs}.
Variable c : cnchook.CNCHook.

Lemma cmdiInfo_profile data :
  cmdiInfo c data = profiles.DataInfo (cnchook.cmdiProfile c data).
Proof. reflexivity. Qed.



(** X16. The keywords of a corpus are its keywords column cut at the
    commas: an empty column gives no keywords element, and labels free
    of commas that were joined with commas come back as the same
    labels. *)
Theorem cmdi_keywords_round_trip (data : cncdb.DBData) (labels : list string) :
  cncdb.Type_ data = cnchook.CorpusMetadataType ->
  sql.String_ (cncdb.Keywords (cncdb.Corpus data)) = strings.Join labels "," ->
  Forall (without ",") labels ->
  (labels = [] \/ labels = [""] -> components.Keywords (cmdiInfo c data) = None) /\
  (labels <> [] -> labels <> [""] ->
   components.Keywords (cmdiInfo c data) = Some labels).
Proof.
  intros He Hk Hall. apply String.eqb_eq in He.
  rewrite cmdiInfo_profile.
  cbn [cnchook.cmdiProfile profiles.DataInfo components.Keywords].
  rewrite He, Hk. cbn [andb]. split.
  - by intros [-> | ->].
  - intros Hne Hne'.
    assert (Hjoin : String.eqb (strings.Join labels ",") "" = false).
    { apply String.eqb_neq. destruct labels as [|w [|w2 ws]]; [done| |].
      - cbn [strings.Join]. by intros ->.
      - cbn [strings.Join]. destruct w; done. }
    rewrite Hjoin. cbn [negb]. f_equal. by apply (Split_Join_char ",").
Qed.

End cmdi_records.


Lemma cmdi_keywords_round_trip_witness :
  components.Keywords (cmdiInfo Sample.hook (keywordData "corpus" "news,fiction")) =
    Some ["news"; "fiction"].
Proof.
  refine (proj2 (cmdi_keywords_round_trip (H := GoModel.libs) Sample.hook
                   (keywordData "corpus" "news,fiction") ["news"; "fiction"]
                   eq_refl eq_refl _) _ _).
  - repeat constructor.
  - discriminate.
  - discriminate.
Defined.

(** ** Events of a request and the self link *)

Section events.
Context `{GoLibs}.
Variable c : cnchook.CNCHook.
Variable basePath : string.
Variable now : Time.

Lemma handleRequest_events req resp :
  oneCall (trace (oaipmh.VLOHandler.handleRequest (handlerOf basePath c) req resp)) /\
  trace (oaipmh.VLOHandler.handleRequest (handlerOf basePath c) req resp) <> [].
Proof.
  unfold oaipmh.VLOHandler.handleRequest, oneCall.
  cbn [handlerOf oaipmh.VLOHandler.hook cnchook.asVLOHook
       oaipmh.VLOHook.SupportsSets oaipmh.VLOHook.SupportedMetadataPrefixes
       oaipmh.VLOHook.Identify oaipmh.VLOHook.GetRecord
       oaipmh.VLOHook.ListIdentifiers oaipmh.VLOHook.ListMetadataFormats
       oaipmh.VLOHook.ListRecords oaipmh.VLOHook.ListSets
       cnchook.SupportsSets negb].
  destruct (String.eqb (oaipmh.OAIPMHRequest.Verb req) oaipmh.VerbIdentify).
  { split; [|done]. right; right; right. by eexists _, _. }
  destruct (String.eqb (oaipmh.OAIPMHRequest.Verb req) oaipmh.VerbGetRecord).
  { destruct (negb _); (split; [|done]); [by right; left|].
    right; right; right. by eexists _, _. }
  destruct (String.eqb (oaipmh.OAIPMHRequest.Verb req) oaipmh.VerbListIdentifiers).
  { destruct (negb (oaipmh.SliceContains _ _)); [split; [by right; left|done]|].
    destruct (_ && _); (split; [|done]); [by right; left|].
    right; right; right. by eexists _, _. }
  destruct (String.eqb (oaipmh.OAIPMHRequest.Verb req) oaipmh.VerbListMetadataFormats).
  { unfold cnchook.ListMetadataFormats.
    destruct (negb (String.eqb (oaipmh.OAIPMHRequest.Identifier req) ""));
      (split; [|done]).
    - right; right; right. by eexists _, _.
    - right; right; left. by eexists. }
  destruct (String.eqb (oaipmh.OAIPMHRequest.Verb req) oaipmh.VerbListRecords).
  { destruct (negb (oaipmh.SliceContains _ _)); [split; [by right; left|done]|].
    destruct (_ && _); (split; [|done]); [by right; left|].
    right; right; right. by eexists _, _. }
  destruct (String.eqb (oaipmh.OAIPMHRequest.Verb req) oaipmh.VerbListSets).
  { split; [by right; left|done]. }
  split; [by right; left|done].
Qed.

(** X17. A request causes at most one call of the hook and one query of
    the repository, always after entering the dispatcher, and any event
    at all only when validation accepted the request. A POST with a
    parsed form behaves as a GET with the same arguments; a form that
    does not parse is answered with the bare status 500 and no event. *)
Theorem one_call_per_request (q : url.Values) :
  let a := handlerOf basePath c in
  oneCall (trace (oaipmh.VLOHandler.HandleOAIGet a now q)) /\
  (trace (oaipmh.VLOHandler.HandleOAIGet a now q) <> [] -> accepted a now q) /\
  (accepted a now q -> trace (oaipmh.VLOHandler.HandleOAIGet a now q) <> []) /\
  oaipmh.VLOHandler.HandleOAIPost a now (Ok q) = oaipmh.VLOHandler.HandleOAIGet a now q /\
  (forall e, oaipmh.VLOHandler.HandleOAIPost a now (Err e) =
             ([], oaipmh.AbortWithStatus http.StatusInternalServerError)).
Proof.
  cbv zeta. unfold oaipmh.VLOHandler.HandleOAIGet, oaipmh.VLOHandler.HandleOAIPost, accepted.
  destruct (oaipmh.VLOHandler.getReqResp (handlerOf basePath c) now q)
    as [[req resp]|e] eqn:Hq.
  - destruct (oaipmh.OAIPMHErrors.HasErrors (oaipmh.OAIPMHResponse.Errors resp)) eqn:He.
    + split; [by left|]. split; [done|]. split; [|done].
      intros (req' & resp' & [= <- <-] & Hnil). by rewrite Hnil in He.
    + destruct (handleRequest_events req resp) as [Hone Hne].
      split; [exact Hone|]. split; [|done].
      intros _. exists req, resp. split; [done|].
      by destruct (oaipmh.OAIPMHResponse.Errors resp).
  - split; [by left|]. split; [done|]. split; [|done].
    by intros (req' & resp' & [=] & _).
Qed.

(** X18. The self link of a record makes one call of [GetRecord] and
    never enters the dispatcher; it answers with the bare document or
    a bare status, never with an envelope: status 500 when the
    repository fails, 404 when the record is not found, the Dublin Core
    document without a [format] argument or with [oai_dc], the CMDI
    document with [cmdi], and status 400 for any other format. *)
Theorem HandleSelfLink_cases (host path recordId : string) (format : option string) :
  let run := oaipmh.VLOHandler.HandleSelfLink (handlerOf basePath c)
               host path recordId format in
  let prefix := default "oai_dc" format in
  trace run = [EvHook MGetRecord; EvRepo (QGetRecordInfo recordId)] /\
  value run =
    match value (cncdb.GetRecordInfo (cnchook.db c) recordId) with
    | Err _ => oaipmh.AbortWithStatus http.StatusInternalServerError
    | Ok None => oaipmh.AbortWithStatus http.StatusNotFound
    | Ok (Some data) =>
        if String.eqb prefix "oai_dc" then
          oaipmh.WriteXML http.StatusOK
            (oaipmh.XMLMetadata (oaipmh.DublinCoreValue (cnchook.dcMetadata data)))
        else if String.eqb prefix "cmdi" then
          oaipmh.WriteXML http.StatusOK
            (oaipmh.XMLMetadata (oaipmh.CMDIValue (cmdiDocument c data)))
        else oaipmh.AbortWithStatus http.StatusBadRequest
    end.
Proof.
  cbv zeta. unfold oaipmh.VLOHandler.HandleSelfLink.
  cbn [handlerOf oaipmh.VLOHandler.hook cnchook.asVLOHook oaipmh.VLOHook.GetRecord].
  unfold cnchook.GetRecord. do 3 step_handler.
  cbn [oaipmh.OAIPMHRequest.Identifier oaipmh.OAIPMHRequest.MetadataPrefix].
  assert (Ht : trace (cncdb.GetRecordInfo (cnchook.db c) recordId) =
               [EvRepo (QGetRecordInfo recordId)]) by reflexivity.
  rewrite Ht.
  destruct (value (cncdb.GetRecordInfo (cnchook.db c) recordId)) as [[data|]|e];
    [|split; reflexivity|split; reflexivity].
  change formats.DublinCoreMetadataPrefix with "oai_dc".
  change formats.CMDIMetadataPrefix with "cmdi".
  destruct (String.eqb (default "oai_dc" format) "oai_dc"); [split; reflexivity|].
  destruct (String.eqb (default "oai_dc" format) "cmdi"); split; reflexivity.
Qed.

End events.

Lemma one_call_per_request_witness :
  accepted (H := GoModel.libs) Sample.handler 0 (Sample.query [("verb", "Identify")]).
Proof.
  apply (proj1 (proj2 (one_call_per_request (H := GoModel.libs) Sample.hook
                 "https://vlo.example.org" 0 (Sample.query [("verb", "Identify")])))).
  intros Htr. vm_compute in Htr. discriminate.
Defined.
